(** * ios-ai-microtools-api: the extraction and enrichment core

    A shallow embedding of [services/googleBooksService.js]
    ([searchBookByTitle]), of [services/openaiService.js]
    ([compressImage], [scanBooks], [extractBookTitles]) and of the
    enrichment step of the [POST /api3/extract-book-titles] handler.

    JavaScript values are an inductive type, a rejected promise is the
    [Err] branch of an error monad, and the collaborators reached over HTTP
    or through a native library (axios, sharp, Buffer, JSON.parse) are
    Section variables: every theorem holds for all of their behaviours. *)

From Stdlib Require Import String Ascii List ZArith Lia Bool Arith.
From Stdlib Require QArith_base DecimalString.
Import ListNotations.

#[local] Set Warnings "-register-all,-notation-for-abbreviation".

Local Open Scope list_scope.
Local Open Scope string_scope.

(** ** JavaScript values *)

(** The values the code handles: what [JSON.parse] produces, plus
    [undefined].  Numbers are the integers (page counts, item counts, status
    codes); strings are sequences of code units.  An object is its list of
    own properties, looked up first match first. *)
Inductive value : Type :=
| VUndefined
| VNull
| VBool (b : bool)
| VNum (n : Z)
| VStr (s : string)
| VArr (elems : list value)
| VObj (props : list (string * value)).

Inductive error_class : Type := Error | TypeError | SyntaxError.

(** What a [throw] or a rejected promise carries. *)
Inductive thrown : Type :=
| ErrorObject (cls : error_class) (message : string)
    (* new Error(message) and the runtime's own TypeError, SyntaxError *)
| AxiosError (code : option string) (message : string) (response : option value)
    (* what axios rejects with *)
| Thrown (v : value).
    (* throw { status: ..., message: ... } *)

(** ** Promises and exceptions: an error monad *)

Inductive result (A : Type) : Type :=
| Ok (a : A)
| Err (e : thrown).
Arguments Ok {A} a.
Arguments Err {A} e.

Definition ret {A} (a : A) : result A := Ok a.
Definition throw {A} (e : thrown) : result A := Err e.

Definition bind {A B} (m : result A) (k : A -> result B) : result B :=
  match m with
  | Ok a => k a
  | Err e => Err e
  end.

(** [try { body } catch (error) { handler }] *)
Definition try_catch {A} (body : result A) (handler : thrown -> result A) : result A :=
  match body with
  | Ok a => Ok a
  | Err e => handler e
  end.

Notation "x <- m ;; k" := (bind m (fun x => k))
  (at level 61, m at next level, right associativity).

(** [Promise.all(ps)]: resolves with all the values in order, rejects with
    the first rejection. *)
Fixpoint Promise_all {A} (ps : list (result A)) : result (list A) :=
  match ps with
  | [] => ret []
  | p :: ps' => a <- p ;; rest <- Promise_all ps' ;; ret (a :: rest)
  end.

(** [xs.map((x, i) => f i x)]: the callback runs once per element, in order,
    and [i] counts the calls. *)
Fixpoint mapi_from {A B} (i : nat) (f : nat -> A -> B) (xs : list A) : list B :=
  match xs with
  | [] => []
  | x :: xs' => f i x :: mapi_from (S i) f xs'
  end.

Definition mapi {A B} (f : nat -> A -> B) (xs : list A) : list B := mapi_from 0 f xs.

(** ** Operators and property access *)

(** ToBoolean. *)
Definition truthy (v : value) : bool :=
  match v with
  | VUndefined | VNull => false
  | VBool b => b
  | VNum n => negb (n =? 0)%Z
  | VStr s => negb (s =? EmptyString)
  | VArr _ | VObj _ => true
  end.

(** [a || b] on already evaluated operands. *)
Definition js_or (a b : value) : value := if truthy a then a else b.

(** [typeof v === 'object'] *)
Definition typeof_object (v : value) : bool :=
  match v with
  | VNull | VArr _ | VObj _ => true
  | _ => false
  end.

(** [Array.isArray(v)] *)
Definition Array_isArray (v : value) : bool :=
  match v with
  | VArr _ => true
  | _ => false
  end.

(** [v === s] for a string literal [s] *)
Definition is_string (s : string) (v : value) : bool :=
  match v with
  | VStr s' => s' =? s
  | _ => false
  end.

(** [v === 0] *)
Definition is_zero (v : value) : bool :=
  match v with
  | VNum n => (n =? 0)%Z
  | _ => false
  end.

Fixpoint lookup (k : string) (props : list (string * value)) : value :=
  match props with
  | [] => VUndefined
  | (k', v) :: props' => if k' =? k then v else lookup k props'
  end.

Definition nullish_name (v : value) : string :=
  match v with
  | VNull => "null"
  | _ => "undefined"
  end.

Definition cannot_read (v : value) (k : string) : thrown :=
  ErrorObject TypeError
    ("Cannot read properties of " ++ nullish_name v ++ " (reading '" ++ k ++ "')").

Definition not_a_function (what : string) : thrown :=
  ErrorObject TypeError (what ++ " is not a function").

(** [v.k] for the property names the source reads (none of them is a
    property of a primitive's or an array's prototype): a TypeError on
    [undefined] and [null], the own property of an object, [undefined]
    elsewhere. *)
Definition get (v : value) (k : string) : result value :=
  match v with
  | VUndefined | VNull => throw (cannot_read v k)
  | VObj props => ret (lookup k props)
  | _ => ret VUndefined
  end.

(** [v?.k] *)
Definition get_opt (v : value) (k : string) : result value :=
  match v with
  | VUndefined | VNull => ret VUndefined
  | _ => get v k
  end.

(** [v[0]] *)
Definition get_first (v : value) : result value :=
  match v with
  | VUndefined | VNull => throw (cannot_read v "0")
  | VArr elems => ret (nth 0 elems VUndefined)
  | VStr s => ret (match s with
                   | EmptyString => VUndefined
                   | String c _ => VStr (String c EmptyString)
                   end)
  | VObj props => ret (lookup "0" props)
  | _ => ret VUndefined
  end.

(** [elems.find(pred)] on the elements of an array: the first element for
    which the callback answers true, [undefined] when there is none; an
    exception of the callback ends the search. *)
Fixpoint find_elem (pred : value -> result bool) (elems : list value) : result value :=
  match elems with
  | [] => ret VUndefined
  | x :: elems' =>
      b <- pred x ;;
      if b then ret x else find_elem pred elems'
  end.

(** [v.find(pred)], [v] being called [what] in the source. *)
Definition Array_find (what : string) (v : value) (pred : value -> result bool) : result value :=
  match v with
  | VUndefined | VNull => throw (cannot_read v "find")
  | VArr elems => find_elem pred elems
  | _ => throw (not_a_function (what ++ ".find"))
  end.

(** [elems.map(f)] with a callback that can throw. *)
Fixpoint map_elems (f : value -> result value) (elems : list value) : result (list value) :=
  match elems with
  | [] => ret []
  | x :: elems' => y <- f x ;; ys <- map_elems f elems' ;; ret (y :: ys)
  end.

(** [error.message], [error.code] and [error.status] of a caught value. *)
Definition thrown_message (e : thrown) : result value :=
  match e with
  | ErrorObject _ m => ret (VStr m)
  | AxiosError _ m _ => ret (VStr m)
  | Thrown v => get v "message"
  end.

Definition thrown_code (e : thrown) : result value :=
  match e with
  | ErrorObject _ _ => ret VUndefined
  | AxiosError None _ _ => ret VUndefined
  | AxiosError (Some c) _ _ => ret (VStr c)
  | Thrown v => get v "code"
  end.

Definition thrown_status (e : thrown) : result value :=
  match e with
  | ErrorObject _ _ => ret VUndefined
  | AxiosError _ _ _ => ret VUndefined
  | Thrown v => get v "status"
  end.

(** [error.response] of a caught value. *)
Definition thrown_response (e : thrown) : result value :=
  match e with
  | ErrorObject _ _ => ret VUndefined
  | AxiosError _ _ None => ret VUndefined
  | AxiosError _ _ (Some response) => ret response
  | Thrown v => get v "response"
  end.

(** The decimal text of an integer, as in a template literal. *)
Definition Z_to_string (n : Z) : string :=
  DecimalString.NilZero.string_of_int (Z.to_int n).

(** The object has an own member of the name. *)
Definition has_own (k : string) (props : list (string * value)) : bool :=
  existsb (fun member => fst member =? k) props.

Definition cannot_convert : thrown :=
  ErrorObject TypeError "Cannot convert object to primitive value".

(** [elems.join()] with the conversion [f] of an element: [null] and
    [undefined] are left empty, and the first conversion that throws ends
    the join. *)
Fixpoint join_texts (f : value -> result string) (elems : list value) : result string :=
  match elems with
  | [] => ret EmptyString
  | x :: rest =>
      text <- match x with
              | VUndefined | VNull => ret EmptyString
              | _ => f x
              end ;;
      match rest with
      | [] => ret text
      | _ :: _ => more <- join_texts f rest ;; ret (text ++ "," ++ more)
      end
  end.

(** ToString, as a template literal applies it, [number_text] being the
    text of a number.  An array is its elements joined by commas.  An
    object of [JSON.parse] is "[object Object]", unless it has an own member
    [toString]: no JSON value can be called, the inherited [valueOf] gives
    the object back, and the conversion throws a TypeError. *)
Fixpoint ToString (number_text : Z -> string) (v : value) : result string :=
  match v with
  | VUndefined => ret "undefined"
  | VNull => ret "null"
  | VBool true => ret "true"
  | VBool false => ret "false"
  | VNum n => ret (number_text n)
  | VStr s => ret s
  | VArr elems => join_texts (ToString number_text) elems
  | VObj props =>
      if has_own "toString" props then throw cannot_convert else ret "[object Object]"
  end.

(** The values that a template literal can print: all but the objects with
    an own member [toString] and the arrays that hold one. *)
Fixpoint printable (v : value) : bool :=
  match v with
  | VArr elems => forallb printable elems
  | VObj props => negb (has_own "toString" props)
  | _ => true
  end.

(** [obj.k = v] on the own properties of an object: an existing property
    keeps its place, a new one comes last. *)
Fixpoint assign (k : string) (v : value) (props : list (string * value))
  : list (string * value) :=
  match props with
  | [] => [(k, v)]
  | (k', v') :: props' =>
      if k' =? k then (k, v) :: props' else (k', v') :: assign k v props'
  end.

(** ** The pattern [/(\[.*\]|\{.*\})/s] *)

(** [.*c] against [s], greedy: the longest prefix of [s] that ends with [c]. *)
Fixpoint upto_last (c : ascii) (s : string) : option string :=
  match s with
  | EmptyString => None
  | String a s' =>
      match upto_last c s' with
      | Some m => Some (String a m)
      | None => if Ascii.eqb a c then Some (String a EmptyString) else None
      end
  end.

(** [open.*close] anchored at the start of [s]. *)
Definition delimited (open close : ascii) (s : string) : option string :=
  match s with
  | EmptyString => None
  | String a s' =>
      if Ascii.eqb a open then
        match upto_last close s' with
        | Some m => Some (String a m)
        | None => None
        end
      else None
  end.

(** The alternation anchored at the start of [s]: the bracket branch first. *)
Definition json_here (s : string) : option string :=
  match delimited "[" "]" s with
  | Some m => Some m
  | None => delimited "{" "}" s
  end.

(** [content.match(/(\[.*\]|\{.*\})/s)]: [jsonMatch[0]] of the leftmost
    match, [None] for [null]. *)
Fixpoint jsonMatch (content : string) : option string :=
  match json_here content with
  | Some m => Some m
  | None =>
      match content with
      | EmptyString => None
      | String _ rest => jsonMatch rest
      end
  end.

(** ** Outbound HTTP: axios *)

(** How an axios call settles.  Axios rejects with an error object that has
    a message, maybe a code (['ECONNABORTED'] when the timeout elapsed) and
    maybe the response of the service. *)
Inductive axios_result : Type :=
| Resolve (response : value)
| Reject (code : option string) (message : string) (response : option value).

Definition await (r : axios_result) : result value :=
  match r with
  | Resolve response => Ok response
  | Reject code message response => Err (AxiosError code message response)
  end.

Record get_params : Type := {
  q : string;
  maxResults : Z;
  printType : string
}.

Inductive content_part : Type :=
| text_part (text : string)
| image_url_part (url : string).

Inductive message_content : Type :=
| plain (text : string)
| parts (ps : list content_part).

Record chat_message : Type := {
  role : string;
  content : message_content
}.

Record requestBody : Type := {
  model : string;
  messages : list chat_message;
  max_tokens : Z;
  temperature : option QArith_base.Q
}.

Record post_config : Type := {
  headers : list (string * string);
  timeout : option Z
}.

(** ** services/googleBooksService.js *)

Module googleBooksService.
Section Runtime.

(** [axios.get(url, { params })]; the first argument numbers the calls of
    one request, so that two lookups of one title may settle differently. *)
Variable axios_get : nat -> string -> get_params -> axios_result.

(** [volumeInfo.description.substring(0, 200) +
    (volumeInfo.description.length > 200 ? '...' : '')] *)
Definition truncate_description (description : value) : result value :=
  match description with
  | VStr d =>
      ret (VStr (substring 0 200 d ++ (if Nat.ltb 200 (String.length d) then "..." else EmptyString)))
  | VUndefined | VNull => throw (cannot_read description "substring")
  | _ => throw (not_a_function "volumeInfo.description.substring")
  end.

(** [industryIdentifiers.find(id => id.type === type)?.identifier] *)
Definition find_identifier (industryIdentifiers : value) (type : string) : result value :=
  id <- Array_find "industryIdentifiers" industryIdentifiers
          (fun id => t <- get id "type" ;; ret (is_string type t)) ;;
  get_opt id "identifier".

Definition volumes_url : string := "https://www.googleapis.com/books/v1/volumes".

Definition search_params (title : string) : get_params :=
  {| q := "intitle:" ++ title;
     maxResults := 1;
     printType := "books" |}.

(** The [try] block of the [n]-th call of [searchBookByTitle] of a request. *)
Definition lookup_volume (n : nat) (title : string) : result value :=
  response <- await (axios_get n volumes_url (search_params title)) ;;
  data <- get response "data" ;;
  totalItems <- get data "totalItems" ;;
  if is_zero totalItems then
    ret (VObj [("title", VStr title); ("found", VBool false)])
  else
    items <- get data "items" ;;
    book <- get_first items ;;
    volumeInfo0 <- get book "volumeInfo" ;;
    let volumeInfo := js_or volumeInfo0 (VObj []) in
    industryIdentifiers0 <- get volumeInfo "industryIdentifiers" ;;
    let industryIdentifiers := js_or industryIdentifiers0 (VArr []) in
    isbn10 <- find_identifier industryIdentifiers "ISBN_10" ;;
    isbn13 <- find_identifier industryIdentifiers "ISBN_13" ;;
    id <- get book "id" ;;
    authors <- get volumeInfo "authors" ;;
    publishedDate <- get volumeInfo "publishedDate" ;;
    description0 <- get volumeInfo "description" ;;
    description <- (if truthy description0
                    then truncate_description description0
                    else ret VNull) ;;
    pageCount <- get volumeInfo "pageCount" ;;
    categories <- get volumeInfo "categories" ;;
    averageRating <- get volumeInfo "averageRating" ;;
    imageLinks <- get volumeInfo "imageLinks" ;;
    previewLink <- get volumeInfo "previewLink" ;;
    ret (VObj [("title", VStr title);
               ("found", VBool true);
               ("id", id);
               ("authors", js_or authors (VArr []));
               ("publishedDate", publishedDate);
               ("description", description);
               ("pageCount", pageCount);
               ("categories", js_or categories (VArr []));
               ("averageRating", averageRating);
               ("imageLinks", js_or imageLinks (VObj []));
               ("previewLink", previewLink);
               ("isbn10", isbn10);
               ("isbn13", isbn13)]).

(** The [catch] block of [searchBookByTitle]. *)
Definition lookup_failed (title : string) (error : thrown) : result value :=
  message <- thrown_message error ;;
  ret (VObj [("title", VStr title); ("found", VBool false); ("error", message)]).

(** [searchBookByTitle(title)], [title] being a string as the JSDoc of the
    function has it. *)
Definition searchBookByTitle (n : nat) (title : string) : result value :=
  try_catch (lookup_volume n title) (lookup_failed title).

(** The enrichment step of [POST /api3/extract-book-titles]:
    [Promise.all(titles.map(title => searchBookByTitle(title)))]. *)
Definition enrichTitles (titles : list string) : result (list value) :=
  Promise_all (mapi searchBookByTitle titles).

(** *** The same function on any value

    The handler passes on whatever the array of the model holds; the
    template literals turn the title into text, in the try block for the
    query and in the catch block for the log, and the records carry the
    value itself. *)

(** [Number.prototype.toString] of the runtime, on the integers. *)
Variable Number_toString : Z -> string.

Definition lookup_volume_any (n : nat) (title : value) : result value :=
  text <- ToString Number_toString title ;;
  response <- await (axios_get n volumes_url (search_params text)) ;;
  data <- get response "data" ;;
  totalItems <- get data "totalItems" ;;
  if is_zero totalItems then
    ret (VObj [("title", title); ("found", VBool false)])
  else
    items <- get data "items" ;;
    book <- get_first items ;;
    volumeInfo0 <- get book "volumeInfo" ;;
    let volumeInfo := js_or volumeInfo0 (VObj []) in
    industryIdentifiers0 <- get volumeInfo "industryIdentifiers" ;;
    let industryIdentifiers := js_or industryIdentifiers0 (VArr []) in
    isbn10 <- find_identifier industryIdentifiers "ISBN_10" ;;
    isbn13 <- find_identifier industryIdentifiers "ISBN_13" ;;
    id <- get book "id" ;;
    authors <- get volumeInfo "authors" ;;
    publishedDate <- get volumeInfo "publishedDate" ;;
    description0 <- get volumeInfo "description" ;;
    description <- (if truthy description0
                    then truncate_description description0
                    else ret VNull) ;;
    pageCount <- get volumeInfo "pageCount" ;;
    categories <- get volumeInfo "categories" ;;
    averageRating <- get volumeInfo "averageRating" ;;
    imageLinks <- get volumeInfo "imageLinks" ;;
    previewLink <- get volumeInfo "previewLink" ;;
    ret (VObj [("title", title);
               ("found", VBool true);
               ("id", id);
               ("authors", js_or authors (VArr []));
               ("publishedDate", publishedDate);
               ("description", description);
               ("pageCount", pageCount);
               ("categories", js_or categories (VArr []));
               ("averageRating", averageRating);
               ("imageLinks", js_or imageLinks (VObj []));
               ("previewLink", previewLink);
               ("isbn10", isbn10);
               ("isbn13", isbn13)]).

(** The [catch] block: [console.error(`Error searching for book
    "${title}":`, error.message)] prints the title first. *)
Definition lookup_failed_any (title : value) (error : thrown) : result value :=
  _ <- ToString Number_toString title ;;
  message <- thrown_message error ;;
  ret (VObj [("title", title); ("found", VBool false); ("error", message)]).

Definition searchBookByTitle_any (n : nat) (title : value) : result value :=
  try_catch (lookup_volume_any n title) (lookup_failed_any title).

End Runtime.
End googleBooksService.

(** ** services/openaiService.js *)

Definition Buffer : Type := list Byte.byte.

Record resize_options : Type := {
  fit : string;
  withoutEnlargement : bool
}.

Definition quote : string := String (ascii_of_nat 34) EmptyString.

Definition timed_out : thrown :=
  Thrown (VObj [("status", VNum 408);
                ("message", VStr "The API request timed out. Please try again.")]).

Definition not_found (message : value) : thrown :=
  Thrown (VObj [("status", VNum 404); ("message", message)]).

Definition no_json_found : thrown := ErrorObject Error "No JSON found in response".

Definition unexpected_format : thrown := ErrorObject Error "Unexpected response format".

(** [response.data.choices[0].message.content] *)
Definition message_content_of (response : value) : result value :=
  data <- get response "data" ;;
  choices <- get data "choices" ;;
  choice <- get_first choices ;;
  message <- get choice "message" ;;
  get message "content".

(** [content.match(/(\[.*\]|\{.*\})/s)] *)
Definition match_json (content : value) : result (option string) :=
  match content with
  | VStr s => ret (jsonMatch s)
  | VUndefined | VNull => throw (cannot_read content "match")
  | _ => throw (not_a_function "content.match")
  end.

(** The callback of [booksData.map] in [scanBooks]. *)
Definition toBook (book : value) : result value :=
  title <- get book "title" ;;
  author <- get book "author" ;;
  isbn <- get book "isbn" ;;
  genre <- get book "genre" ;;
  page_count <- get book "page_count" ;;
  pageCount <- (if truthy page_count then ret page_count
                else pageCount0 <- get book "pageCount" ;;
                     ret (js_or pageCount0 VNull)) ;;
  ret (VObj [("title", js_or title (VStr "Unknown Title"));
             ("author", js_or author (VStr "Unknown Author"));
             ("isbn", js_or isbn VNull);
             ("genre", js_or genre VNull);
             ("pageCount", pageCount)]).

(** [v.map(f)], [v] being called [what] in the source. *)
Definition Array_map (what : string) (v : value) (f : value -> result value) : result value :=
  match v with
  | VUndefined | VNull => throw (cannot_read v "map")
  | VArr elems => elems' <- map_elems f elems ;; ret (VArr elems')
  | _ => throw (not_a_function (what ++ ".map"))
  end.

(** The [catch] block shared by [scanBooks] and [extractBookTitles]. *)
Definition translate_timeout {A} (error : thrown) : result A :=
  code <- thrown_code error ;;
  if is_string "ECONNABORTED" code then throw timed_out else throw error.

Module openaiService.
Section Runtime.

(** [this.apiKey], [this.baseURL] *)
Variables apiKey baseURL : string.

(** [Buffer.from(s, 'base64')], [buffer.toString('base64')] and
    [sharp(buffer).resize(w, h, options).jpeg({ quality }).toBuffer()] *)
Variable Buffer_from_base64 : string -> result Buffer.
Variable Buffer_toString_base64 : Buffer -> result string.
Variable sharp_resize_jpeg : Buffer -> Z -> Z -> resize_options -> Z -> result Buffer.

(** [axios.post(url, body, config)] *)
Variable axios_post : string -> requestBody -> post_config -> axios_result.

Variable JSON_parse : string -> result value.

(** The [try] block of [compressImage]. *)
Definition compress_pipeline (base64Image : string) : result string :=
  buffer <- Buffer_from_base64 base64Image ;;
  compressedBuffer <- sharp_resize_jpeg buffer 1000 1000
                        {| fit := "inside"; withoutEnlargement := true |} 80 ;;
  Buffer_toString_base64 compressedBuffer.

Definition compressImage (base64Image : string) : result string :=
  try_catch (compress_pipeline base64Image) (fun error => ret base64Image).

Definition post_headers : list (string * string) :=
  [("Authorization", "Bearer " ++ apiKey); ("Content-Type", "application/json")].

Definition image_url (compressedImage : string) : content_part :=
  image_url_part ("data:image/jpeg;base64," ++ compressedImage).

Definition scanBooks_request (compressedImage : string) : requestBody :=
  {| model := "gpt-4o";
     messages :=
       [ {| role := "system";
            content := plain "You are a specialized bookshelf analyzer. Extract detailed information about all books visible in images and return as a JSON array. Each book should have its own entry in the array." |};
         {| role := "user";
            content := parts
              [ text_part ("Analyze this image of a bookshelf and identify all books visible. For each book, extract: title, author, isbn (if visible), genre, publication year, page count. Return the data as a JSON array of book objects. If no books are detected, reply with {"
                           ++ quote ++ "error" ++ quote ++ ": " ++ quote ++ "No books detected" ++ quote
                           ++ "}. Format: [{book1}, {book2}, ...]");
                image_url compressedImage ] |} ];
     max_tokens := 1000;
     temperature := None |}.

(** What [scanBooks] does with a parsed [booksData]. *)
Definition books_of (booksData : value) : result value :=
  is_error <- (if typeof_object booksData && negb (Array_isArray booksData)
               then error <- get booksData "error" ;; ret (truthy error)
               else ret false) ;;
  if is_error then
    error <- get booksData "error" ;;
    throw (not_found error)
  else if negb (Array_isArray booksData) then
    throw unexpected_format
  else
    Array_map "booksData" booksData toBook.

(** The Response Extractor of [scanBooks]: from [content] to the
    [return] of the [try] block. *)
Definition extract_books (content : value) : result value :=
  jsonMatch <- match_json content ;;
  match jsonMatch with
  | None => throw no_json_found
  | Some jsonString =>
      booksData <- JSON_parse jsonString ;;
      books_of booksData
  end.

Definition scanBooks_config : post_config :=
  {| headers := post_headers; timeout := Some 120000%Z |}.

Definition scanBooks (imageBase64 : string) : result value :=
  compressedImage <- compressImage imageBase64 ;;
  try_catch
    (response <- await (axios_post baseURL (scanBooks_request compressedImage)
                          scanBooks_config) ;;
     content <- message_content_of response ;;
     extract_books content)
    translate_timeout.

Definition extractBookTitles_request (compressedImage : string) : requestBody :=
  {| model := "gpt-4o";
     messages :=
       [ {| role := "system";
            content := plain "You are a quick book title extractor. Only identify book titles from images." |};
         {| role := "user";
            content := parts
              [ text_part ("Extract just the book titles (no author, no summary) from this image. Return the data as a JSON array of strings. If no books are detected, return an empty array. Format: ["
                           ++ quote ++ "Title 1" ++ quote ++ ", " ++ quote ++ "Title 2" ++ quote
                           ++ ", ...]");
                image_url compressedImage ] |} ];
     max_tokens := 500;
     temperature := Some (QArith_base.Qmake 3 10) |}.

(** What [extractBookTitles] does with a parsed [titlesData]. *)
Definition titles_of (titlesData : value) : result value :=
  if negb (Array_isArray titlesData) then throw unexpected_format
  else ret titlesData.

(** The Response Extractor of [extractBookTitles]. *)
Definition extract_titles (content : value) : result value :=
  jsonMatch <- match_json content ;;
  match jsonMatch with
  | None => throw no_json_found
  | Some jsonString =>
      titlesData <- JSON_parse jsonString ;;
      titles_of titlesData
  end.

Definition extractBookTitles_config : post_config :=
  {| headers := post_headers; timeout := Some 60000%Z |}.

Definition extractBookTitles (imageBase64 : string) : result value :=
  compressedImage <- compressImage imageBase64 ;;
  try_catch
    (response <- await (axios_post baseURL (extractBookTitles_request compressedImage)
                          extractBookTitles_config) ;;
     content <- message_content_of response ;;
     extract_titles content)
    translate_timeout.

(** How the outbound call of each operation settles for an image: the
    request is built from what [compressImage] returns. *)
Definition scanBooks_call (imageBase64 : string) (r : axios_result) : Prop :=
  exists compressedImage,
    compressImage imageBase64 = Ok compressedImage /\
    axios_post baseURL (scanBooks_request compressedImage) scanBooks_config = r.

Definition extractBookTitles_call (imageBase64 : string) (r : axios_result) : Prop :=
  exists compressedImage,
    compressImage imageBase64 = Ok compressedImage /\
    axios_post baseURL (extractBookTitles_request compressedImage)
      extractBookTitles_config = r.

(** The model answers the call of the operation with the text [content]. *)
Definition scanBooks_output (imageBase64 content : string) : Prop :=
  exists response,
    scanBooks_call imageBase64 (Resolve response) /\
    message_content_of response = Ok (VStr content).

Definition extractBookTitles_output (imageBase64 content : string) : Prop :=
  exists response,
    extractBookTitles_call imageBase64 (Resolve response) /\
    message_content_of response = Ok (VStr content).

(** [axios.post] without a timeout, as [sendMessage] and [analyzeImage]
    call it. *)
Definition plain_config : post_config :=
  {| headers := post_headers; timeout := None |}.

(** The [catch] block of [sendMessage] and [analyzeImage]:
    [console.error('OpenAI API Error:', error.response ? error.response.data
    : error.message); throw error]. *)
Definition log_and_rethrow {A} (error : thrown) : result A :=
  response <- thrown_response error ;;
  _ <- (if truthy response then get response "data" else thrown_message error) ;;
  throw error.

Definition sendMessage_request (message systemPrompt : string) : requestBody :=
  {| model := "gpt-4o";
     messages := [ {| role := "system"; content := plain systemPrompt |};
                   {| role := "user"; content := plain message |} ];
     max_tokens := 2000;
     temperature := Some (QArith_base.Qmake 7 10) |}.

Definition sendMessage (message systemPrompt : string) : result value :=
  try_catch
    (response <- await (axios_post baseURL (sendMessage_request message systemPrompt)
                          plain_config) ;;
     message_content_of response)
    log_and_rethrow.

Definition analyzeImage_request (compressedImage prompt : string) : requestBody :=
  {| model := "gpt-4o";
     messages := [ {| role := "user";
                      content := parts [ text_part prompt;
                                         image_url compressedImage ] |} ];
     max_tokens := 500;
     temperature := None |}.

Definition analyzeImage (image prompt : string) : result value :=
  compressedImage <- compressImage image ;;
  try_catch
    (response <- await (axios_post baseURL (analyzeImage_request compressedImage prompt)
                          plain_config) ;;
     message_content_of response)
    log_and_rethrow.

End Runtime.
End openaiService.

(** ** server.js: the request handlers *)

(** What a handler hands to the original [res.json], which serializes it,
    or to [res.send] as text. *)
Inductive response_body : Type :=
| json (body : value)
| text (body : string).

(** What a handler sends: [res.status(status)] and the body. *)
Record http_response : Type := {
  status : value;
  body : response_body
}.

(** A JSON or multipart request with an upload field: [req.file.path] when
    multer stored a file, and [req.body.image] of the parsed body, a string
    as the API document has it. *)
Record upload_request : Type := {
  file : option string;
  image : option string
}.

(** The bodies of [POST /api3/send-message] and [POST /api3/analyze-image],
    strings as the API document has them. *)
Record send_message_body : Type := {
  message : string;
  systemPrompt : option string
}.

Record analyze_image_body : Type := {
  analyze_image : string;
  prompt : string
}.

Module server.
Section Runtime.

Variables apiKey baseURL : string.
Variable Buffer_from_base64 : string -> result Buffer.
Variable Buffer_toString_base64 : Buffer -> result string.
Variable sharp_resize_jpeg : Buffer -> Z -> Z -> resize_options -> Z -> result Buffer.
Variable axios_post : string -> requestBody -> post_config -> axios_result.
Variable JSON_parse : string -> result value.
Variable axios_get : nat -> string -> get_params -> axios_result.

(** [Number.prototype.toString] of the runtime, on the integers. *)
Variable Number_toString : Z -> string.

(** [fs.readFileSync(path)] and [fs.unlinkSync(path)] *)
Variable fs_readFileSync : string -> result Buffer.
Variable fs_unlinkSync : string -> result unit.

(** [Date.now()] when the request comes in and when [res.json] is called. *)
Variables startTime endTime : Z.

(** [error.status] of an axios rejection that carries the given response:
    axios sets it from the response in its later versions and not at all
    in its earlier ones. *)
Variable axios_error_status : value -> value.

(** [((originalSize - compressedSize) / originalSize * 100).toFixed(2)] and
    [(size / 1024).toFixed(2)], computed in floating point. *)
Variable savings_toFixed : Z -> Z -> string.
Variable kilobytes_toFixed : Z -> string.

(** The [res.json] of the response time middleware, before the original
    [res.json] sends the body.  On an array the assignment sets a property
    that [JSON.stringify] does not print, so the array is sent as it is. *)
Definition with_timeTaken (body : value) : value :=
  let timeTaken := (endTime - startTime)%Z in
  if truthy body && typeof_object body then
    match body with
    | VObj props => VObj (assign "timeTaken" (VStr (Z_to_string timeTaken ++ "ms")) props)
    | _ => body
    end
  else body.

(** [res.status(status).json(body)] *)
Definition res_json (status : value) (body : value) : http_response :=
  {| status := status; body := json (with_timeTaken body) |}.

(** [res.status(status).send(body)] with a string. *)
Definition res_send (status : value) (body : string) : http_response :=
  {| status := status; body := text body |}.

(** [error.status] in a handler. *)
Definition error_status (error : thrown) : result value :=
  match error with
  | AxiosError _ _ (Some response) => ret (axios_error_status response)
  | _ => thrown_status error
  end.

(** The image of a request of [/scan-books] and [/extract-book-titles]:
    the upload read, encoded and deleted, else a truthy [req.body.image]. *)
Definition uploaded_image (req : upload_request) : result (option string) :=
  match file req with
  | Some path =>
      imageBuffer <- fs_readFileSync path ;;
      imageBase64 <- Buffer_toString_base64 imageBuffer ;;
      _ <- fs_unlinkSync path ;;
      ret (Some imageBase64)
  | None =>
      match image req with
      | Some imageBase64 =>
          if negb (imageBase64 =? EmptyString) then ret (Some imageBase64) else ret None
      | None => ret None
      end
  end.

Definition image_required : http_response :=
  res_json (VNum 400)
    (VObj [("error",
            VStr "Image data is required. Either upload a file or provide base64 image data.")]).

(** The [catch] block of [/scan-books] and [/extract-book-titles]. *)
Definition relay_error (error : thrown) : result http_response :=
  _ <- thrown_message error ;;
  status <- error_status error ;;
  if truthy status then
    message <- thrown_message error ;;
    ret (res_json status (VObj [("error", message)]))
  else
    response <- thrown_response error ;;
    status0 <- get_opt response "status" ;;
    data <- get_opt response "data" ;;
    error0 <- get_opt data "error" ;;
    errorMessage0 <- get_opt error0 "message" ;;
    ret (res_json (js_or status0 (VNum 500))
           (VObj [("error", js_or errorMessage0 (VStr "Error processing image"))])).

(** [POST /api3/scan-books] *)
Definition scan_books (req : upload_request) : result http_response :=
  imageBase64 <- uploaded_image req ;;
  match imageBase64 with
  | None => ret image_required
  | Some imageBase64 =>
      try_catch
        (books <- openaiService.scanBooks apiKey baseURL Buffer_from_base64
                    Buffer_toString_base64 sharp_resize_jpeg axios_post JSON_parse
                    imageBase64 ;;
         ret (res_json (VNum 200) (VObj [("books", books)])))
        relay_error
  end.

(** [titles.map(title => googleBooksService.searchBookByTitle(title))] and
    [Promise.all] *)
Definition search_all (titles : value) : result (list value) :=
  match titles with
  | VUndefined | VNull => throw (cannot_read titles "map")
  | VArr elems =>
      Promise_all (mapi (googleBooksService.searchBookByTitle_any axios_get Number_toString)
                     elems)
  | _ => throw (not_a_function "titles.map")
  end.

(** [POST /api3/extract-book-titles] *)
Definition extract_book_titles (req : upload_request) : result http_response :=
  imageBase64 <- uploaded_image req ;;
  match imageBase64 with
  | None => ret image_required
  | Some imageBase64 =>
      try_catch
        (titles <- openaiService.extractBookTitles apiKey baseURL Buffer_from_base64
                     Buffer_toString_base64 sharp_resize_jpeg axios_post JSON_parse
                     imageBase64 ;;
         books <- search_all titles ;;
         ret (res_json (VNum 200) (VObj [("books", VArr books)])))
        relay_error
  end.

(** The [catch] block of [/send-message] and [/analyze-image]. *)
Definition processing_failed (error : thrown) : result http_response :=
  response <- thrown_response error ;;
  _ <- (if truthy response then get response "data" else thrown_message error) ;;
  ret (res_send (VNum 500) "Error processing request").

(** [POST /api3/send-message] *)
Definition send_message (req : send_message_body) : result http_response :=
  let systemPrompt := match systemPrompt req with
                      | Some s => s
                      | None => EmptyString
                      end in
  try_catch
    (response <- openaiService.sendMessage apiKey baseURL axios_post
                   (message req) systemPrompt ;;
     ret (res_json (VNum 200) (VObj [("message", response)])))
    processing_failed.

(** [POST /api3/analyze-image] *)
Definition analyze_image_handler (req : analyze_image_body) : result http_response :=
  try_catch
    (analysis <- openaiService.analyzeImage apiKey baseURL Buffer_from_base64
                   Buffer_toString_base64 sharp_resize_jpeg axios_post
                   (analyze_image req) (prompt req) ;;
     ret (res_json (VNum 200) (VObj [("analysis", analysis)])))
    processing_failed.

(** [POST /api3/convert-image] *)
Definition convert_image (req : upload_request) : result http_response :=
  try_catch
    (match file req with
     | None => ret (res_json (VNum 400) (VObj [("error", VStr "No image file uploaded")]))
     | Some path =>
         imageBuffer <- fs_readFileSync path ;;
         base64Image <- Buffer_toString_base64 imageBuffer ;;
         _ <- fs_unlinkSync path ;;
         ret (res_json (VNum 200) (VObj [("image", VStr base64Image)]))
     end)
    (fun error =>
       ret (res_json (VNum 500) (VObj [("error", VStr "Failed to convert image")]))).

(** [POST /api3/compress-image] *)
Definition compress_image (req : upload_request) : result http_response :=
  try_catch
    (match file req with
     | None => ret (res_json (VNum 400) (VObj [("error", VStr "No image file uploaded")]))
     | Some path =>
         imageBuffer <- fs_readFileSync path ;;
         base64Image <- Buffer_toString_base64 imageBuffer ;;
         let originalSize := Z.of_nat (String.length base64Image) in
         compressedImage <- openaiService.compressImage Buffer_from_base64
                              Buffer_toString_base64 sharp_resize_jpeg base64Image ;;
         let compressedSize := Z.of_nat (String.length compressedImage) in
         let savingsPercent := savings_toFixed originalSize compressedSize in
         _ <- fs_unlinkSync path ;;
         ret (res_json (VNum 200)
                (VObj [("originalSize", VNum originalSize);
                       ("compressedSize", VNum compressedSize);
                       ("savingsPercent", VStr (savingsPercent ++ "%"));
                       ("message",
                        VStr ("Image compressed from " ++ kilobytes_toFixed originalSize
                              ++ "KB to " ++ kilobytes_toFixed compressedSize
                              ++ "KB (" ++ savingsPercent ++ "% reduction)"))]))
     end)
    (fun error =>
       ret (res_json (VNum 500) (VObj [("error", VStr "Failed to compress image")]))).

End Runtime.
End server.

(** ** Words of the specification *)

(** What a computation settles with: [P] holds of the value it returns, [Q]
    of what it throws. *)
Definition settles_with {A} (P : A -> Prop) (Q : thrown -> Prop) (m : result A) : Prop :=
  match m with
  | Ok a => P a
  | Err e => Q e
  end.

(** The caught value has a message that is a string, as every error object
    has. *)
Definition has_message (e : thrown) : Prop :=
  exists message, thrown_message e = Ok (VStr message).

(** The record echoes the title. *)
Definition echoes (title : string) (record : value) : Prop :=
  get record "title" = Ok (VStr title).

(** The record is a found match. *)
Definition found (record : value) : Prop :=
  get record "found" = Ok (VBool true).

(** [s] contains a substring that starts with [open] and ends with [close]. *)
Definition has_delimited (open close : ascii) (s : string) : Prop :=
  exists i j, i < j /\ String.get i s = Some open /\ String.get j s = Some close.

(** An ExtractedBookRecord. *)
Definition ExtractedBookRecord (title author isbn genre pageCount : value) : value :=
  VObj [("title", title); ("author", author); ("isbn", isbn); ("genre", genre);
        ("pageCount", pageCount)].

(** The member [k] is absent from an element. *)
Definition absent (k : string) (props : list (string * value)) : Prop :=
  lookup k props = VUndefined.


(** The record of an element: a truthy member is kept, and what is falsy
    counts as absent; the page count is the first truthy one of page_count
    and pageCount. *)
Definition defaults_when_falsy (props : list (string * value)) (book : value) : Prop :=
  exists title author isbn genre pageCount,
    book = ExtractedBookRecord title author isbn genre pageCount /\
    (truthy (lookup "title" props) = true -> title = lookup "title" props) /\
    (truthy (lookup "title" props) = false -> title = VStr "Unknown Title") /\
    (truthy (lookup "author" props) = true -> author = lookup "author" props) /\
    (truthy (lookup "author" props) = false -> author = VStr "Unknown Author") /\
    (truthy (lookup "isbn" props) = true -> isbn = lookup "isbn" props) /\
    (truthy (lookup "isbn" props) = false -> isbn = VNull) /\
    (truthy (lookup "genre" props) = true -> genre = lookup "genre" props) /\
    (truthy (lookup "genre" props) = false -> genre = VNull) /\
    (truthy (lookup "page_count" props) = true -> pageCount = lookup "page_count" props) /\
    (truthy (lookup "page_count" props) = false ->
     truthy (lookup "pageCount" props) = true -> pageCount = lookup "pageCount" props) /\
    (truthy (lookup "page_count" props) = false ->
     truthy (lookup "pageCount" props) = false -> pageCount = VNull) /\
    (lookup "title" props = VStr EmptyString -> title = VStr "Unknown Title") /\
    (lookup "author" props = VStr EmptyString -> author = VStr "Unknown Author") /\
    (lookup "isbn" props = VStr EmptyString -> isbn = VNull) /\
    (lookup "genre" props = VStr EmptyString -> genre = VNull) /\
    (lookup "page_count" props = VNum 0 ->
     truthy (lookup "pageCount" props) = true -> pageCount = lookup "pageCount" props) /\
    (lookup "page_count" props = VNum 0 ->
     truthy (lookup "pageCount" props) = false -> pageCount = VNull) /\
    (lookup "pageCount" props = VNum 0 ->
     truthy (lookup "page_count" props) = true -> pageCount = lookup "page_count" props) /\
    (lookup "pageCount" props = VNum 0 ->
     truthy (lookup "page_count" props) = false -> pageCount = VNull).

(** A record as the callback of [scanBooks] builds it: a title and an author
    that are never empty, and an isbn, a genre and a page count that are
    null or truthy. *)
Definition well_formed_record (book : value) : Prop :=
  exists title author isbn genre pageCount,
    book = ExtractedBookRecord title author isbn genre pageCount /\
    truthy title = true /\
    truthy author = true /\
    (isbn = VNull \/ truthy isbn = true) /\
    (genre = VNull \/ truthy genre = true) /\
    (pageCount = VNull \/ truthy pageCount = true).

Definition nullish (v : value) : Prop := v = VUndefined \/ v = VNull.

(** Neither an object nor [null] nor [undefined]: a string, a number, a
    boolean or an array. *)
Definition no_member (v : value) : bool :=
  match v with
  | VBool _ | VNum _ | VStr _ | VArr _ => true
  | VUndefined | VNull | VObj _ => false
  end.

Definition default_record : value :=
  ExtractedBookRecord (VStr "Unknown Title") (VStr "Unknown Author") VNull VNull VNull.

(** The three records of a lookup: a found match with its thirteen members,
    among them authors, categories and image links that are never missing
    and a description that is null or a string; no match; a failed lookup
    with the message of the failure. *)
Definition found_record_of (title : value) (record : value) : Prop :=
  exists id authors publishedDate description pageCount categories averageRating
         imageLinks previewLink isbn10 isbn13,
    record = VObj [("title", title);
                   ("found", VBool true);
                   ("id", id);
                   ("authors", authors);
                   ("publishedDate", publishedDate);
                   ("description", description);
                   ("pageCount", pageCount);
                   ("categories", categories);
                   ("averageRating", averageRating);
                   ("imageLinks", imageLinks);
                   ("previewLink", previewLink);
                   ("isbn10", isbn10);
                   ("isbn13", isbn13)] /\
    truthy authors = true /\
    truthy categories = true /\
    truthy imageLinks = true /\
    (description = VNull \/ exists d, description = VStr d).

Definition no_match_record (title : value) : value :=
  VObj [("title", title); ("found", VBool false)].

Definition failed_record (title : value) (message : string) : value :=
  VObj [("title", title); ("found", VBool false); ("error", VStr message)].

(** What the runtime and axios throw: an error object, not a plain value. *)
Definition is_error (e : thrown) : Prop :=
  match e with
  | Thrown _ => False
  | _ => True
  end.

(** What the services throw: an error object or a plain object, as the 404
    and 408 conditions are. *)
Definition ordinary (e : thrown) : Prop :=
  match e with
  | Thrown (VObj _) => True
  | Thrown _ => False
  | _ => True
  end.

(** The time the middleware reports. *)
Definition timeTaken_text (startTime endTime : Z) : value :=
  VStr (Z_to_string (endTime - startTime) ++ "ms").

(** One of the three records of a lookup of [title]. *)
Definition lookup_record (title record : value) : Prop :=
  found_record_of title record \/
  record = no_match_record title \/
  exists message, record = failed_record title message.

(** The content parts of the messages of a request. *)
Definition request_parts (body : requestBody) : list content_part :=
  flat_map (fun m => match content m with
                     | parts ps => ps
                     | plain _ => []
                     end) (messages body).

(** The entry is typed [type]. *)
Definition typed (type : string) (entry : value) : bool :=
  match get entry "type" with
  | Ok t => is_string type t
  | Err _ => false
  end.

(** The first entry of an identifier list that is typed [type]. *)
Definition first_typed (type : string) (entries : list value) : option value :=
  List.find (typed type) entries.

(** The identifier list of a match: the entries of
    [volumeInfo.industryIdentifiers], none when the list is absent. *)
Definition identifier_list (volumeInfo : value) (entries : list value) : Prop :=
  get volumeInfo "industryIdentifiers" = Ok (VArr entries) \/
  (get volumeInfo "industryIdentifiers" = Ok VUndefined /\ entries = []).

(** The volume description of the first item of a response of the metadata
    service. *)
Definition matched_volumeInfo (response : value) : result value :=
  data <- get response "data" ;;
  items <- get data "items" ;;
  book <- get_first items ;;
  volumeInfo <- get book "volumeInfo" ;;
  ret (js_or volumeInfo (VObj [])).

(** ** A reference [JSON.parse] *)

(** A parser of the JSON texts whose numbers are integers and whose string
    escapes are the two-character ones; it rejects every other text.  It
    instantiates [JSON_parse] in the examples. *)
Module Json.

Definition is_ws (c : ascii) : bool :=
  (Ascii.eqb c " " || Ascii.eqb c (ascii_of_nat 9)
   || Ascii.eqb c (ascii_of_nat 10) || Ascii.eqb c (ascii_of_nat 13))%bool.

Fixpoint skip_ws (s : string) : string :=
  match s with
  | String c s' => if is_ws c then skip_ws s' else s
  | EmptyString => s
  end.

Definition digit_of (c : ascii) : option Z :=
  let n := nat_of_ascii c in
  if ((48 <=? n)%nat && (n <=? 57)%nat)%bool then Some (Z.of_nat (n - 48)) else None.

Fixpoint digits (acc : Z) (s : string) : Z * string :=
  match s with
  | String c s' =>
      match digit_of c with
      | Some d => digits (10 * acc + d)%Z s'
      | None => (acc, s)
      end
  | EmptyString => (acc, s)
  end.

(** An integer without sign: one digit at least, no leading zero, and
    neither a fraction nor an exponent behind it. *)
Definition natural (s : string) : option (Z * string) :=
  match s with
  | String c s' =>
      match digit_of c with
      | Some d =>
          let '(n, rest) := digits d s' in
          let leading_zero :=
            match s' with
            | String c' _ => ((d =? 0)%Z && match digit_of c' with Some _ => true | None => false end)%bool
            | EmptyString => false
            end in
          let continued :=
            match rest with
            | String c' _ => (Ascii.eqb c' "." || Ascii.eqb c' "e" || Ascii.eqb c' "E")%bool
            | EmptyString => false
            end in
          if (leading_zero || continued)%bool then None else Some (n, rest)
      | None => None
      end
  | EmptyString => None
  end.

Definition unescape (c : ascii) : option ascii :=
  if Ascii.eqb c (ascii_of_nat 34) then Some c
  else if Ascii.eqb c "\" then Some c
  else if Ascii.eqb c "/" then Some c
  else if Ascii.eqb c "b" then Some (ascii_of_nat 8)
  else if Ascii.eqb c "f" then Some (ascii_of_nat 12)
  else if Ascii.eqb c "n" then Some (ascii_of_nat 10)
  else if Ascii.eqb c "r" then Some (ascii_of_nat 13)
  else if Ascii.eqb c "t" then Some (ascii_of_nat 9)
  else None.

(** The characters of a string literal after its opening quote, and the
    text after its closing quote. *)
Fixpoint chars (s : string) : option (string * string) :=
  match s with
  | EmptyString => None
  | String c s' =>
      if Ascii.eqb c (ascii_of_nat 34) then Some (EmptyString, s')
      else if Ascii.eqb c "\" then
        match s' with
        | String e s'' =>
            match unescape e, chars s'' with
            | Some c', Some (str, rest) => Some (String c' str, rest)
            | _, _ => None
            end
        | EmptyString => None
        end
      else if (nat_of_ascii c <? 32)%nat then None
      else
        match chars s' with
        | Some (str, rest) => Some (String c str, rest)
        | None => None
        end
  end.

Fixpoint strip (word s : string) : option string :=
  match word, s with
  | EmptyString, _ => Some s
  | String a word', String b s' => if Ascii.eqb a b then strip word' s' else None
  | String _ _, EmptyString => None
  end.

(** A later member of a name replaces the earlier one, in its place. *)
Fixpoint set_prop (k : string) (v : value) (props : list (string * value))
  : list (string * value) :=
  match props with
  | [] => [(k, v)]
  | (k', v') :: props' =>
      if k' =? k then (k, v) :: props' else (k', v') :: set_prop k v props'
  end.

Fixpoint parse_value (fuel : nat) (s : string) : option (value * string) :=
  match fuel with
  | O => None
  | S fuel' =>
      match skip_ws s with
      | EmptyString => None
      | String c s' =>
          if Ascii.eqb c "[" then
            match skip_ws s' with
            | String "]" rest => Some (VArr [], rest)
            | _ =>
                match parse_elements fuel' s' with
                | Some (elems, rest) => Some (VArr elems, rest)
                | None => None
                end
            end
          else if Ascii.eqb c "{" then
            match skip_ws s' with
            | String "}" rest => Some (VObj [], rest)
            | _ =>
                match parse_members fuel' [] s' with
                | Some (props, rest) => Some (VObj props, rest)
                | None => None
                end
            end
          else if Ascii.eqb c (ascii_of_nat 34) then
            match chars s' with
            | Some (str, rest) => Some (VStr str, rest)
            | None => None
            end
          else if Ascii.eqb c "-" then
            match natural s' with
            | Some (n, rest) => Some (VNum (- n), rest)
            | None => None
            end
          else
            match natural (String c s') with
            | Some (n, rest) => Some (VNum n, rest)
            | None =>
                match strip "true" (String c s') with
                | Some rest => Some (VBool true, rest)
                | None =>
                    match strip "false" (String c s') with
                    | Some rest => Some (VBool false, rest)
                    | None =>
                        match strip "null" (String c s') with
                        | Some rest => Some (VNull, rest)
                        | None => None
                        end
                    end
                end
            end
      end
  end

with parse_elements (fuel : nat) (s : string) : option (list value * string) :=
  match fuel with
  | O => None
  | S fuel' =>
      match parse_value fuel' s with
      | Some (v, rest) =>
          match skip_ws rest with
          | String "," rest' =>
              match parse_elements fuel' rest' with
              | Some (vs, rest'') => Some (v :: vs, rest'')
              | None => None
              end
          | String "]" rest' => Some ([v], rest')
          | _ => None
          end
      | None => None
      end
  end

with parse_members (fuel : nat) (props : list (string * value)) (s : string)
  : option (list (string * value) * string) :=
  match fuel with
  | O => None
  | S fuel' =>
      match skip_ws s with
      | String c s' =>
          if Ascii.eqb c (ascii_of_nat 34) then
            match chars s' with
            | Some (k, rest) =>
                match skip_ws rest with
                | String ":" rest' =>
                    match parse_value fuel' rest' with
                    | Some (v, rest'') =>
                        match skip_ws rest'' with
                        | String "," rest3 => parse_members fuel' (set_prop k v props) rest3
                        | String "}" rest3 => Some (set_prop k v props, rest3)
                        | _ => None
                        end
                    | None => None
                    end
                | _ => None
                end
            | None => None
            end
          else None
      | EmptyString => None
      end
  end.

Definition syntax_error : thrown := ErrorObject SyntaxError "Unexpected token in JSON".

Definition parse (text : string) : result value :=
  match parse_value (2 * String.length text + 2) text with
  | Some (v, rest) =>
      match skip_ws rest with
      | EmptyString => Ok v
      | String _ _ => Err syntax_error
      end
  | None => Err syntax_error
  end.

End Json.

(** ** A runtime for the examples *)

(** Stand-ins for the collaborators, to run the operations on concrete
    inputs: the bytes of an image play no part in what is proved, so base64
    texts are kept as they are, and sharp rejects its input, as it does for
    a buffer that holds no image. *)
Module Example.

Definition Buffer_from_base64 (s : string) : result Buffer :=
  Ok (list_byte_of_string s).

Definition Buffer_toString_base64 (b : Buffer) : result string :=
  Ok (string_of_list_byte b).

Definition sharp_resize_jpeg (b : Buffer) (w h : Z) (o : resize_options) (quality : Z)
  : result Buffer :=
  Err (ErrorObject Error "Input buffer contains unsupported image format").

(** The service answers every call with the text [content]. *)
Definition answer (content : string) : axios_result :=
  Resolve (VObj [("status", VNum 200);
                 ("data", VObj [("choices",
                    VArr [VObj [("message",
                      VObj [("role", VStr "assistant");
                            ("content", VStr content)])]])])]).

Definition answering (content : string) (url : string) (body : requestBody)
  (config : post_config) : axios_result :=
  answer content.

(** No call settles within the configured timeout. *)
Definition timing_out (url : string) (body : requestBody) (config : post_config)
  : axios_result :=
  match timeout config with
  | Some ms => Reject (Some "ECONNABORTED") "timeout exceeded" None
  | None => Reject (Some "ERR_NETWORK") "Network Error" None
  end.

(** The service refuses every call. *)
Definition refusing (url : string) (body : requestBody) (config : post_config)
  : axios_result :=
  Reject (Some "ERR_BAD_REQUEST") "Request failed with status code 401"
    (Some (VObj [("status", VNum 401)])).

Definition apiKey : string := "sk-test".

Definition baseURL : string := "https://api.openai.com/v1/chat/completions".

Definition scanBooks (post : string -> requestBody -> post_config -> axios_result)
  : string -> result value :=
  openaiService.scanBooks apiKey baseURL
    Buffer_from_base64 Buffer_toString_base64 sharp_resize_jpeg post Json.parse.

Definition extractBookTitles (post : string -> requestBody -> post_config -> axios_result)
  : string -> result value :=
  openaiService.extractBookTitles apiKey baseURL
    Buffer_from_base64 Buffer_toString_base64 sharp_resize_jpeg post Json.parse.

(** The base64 text of an upload. *)
Definition image : string := "aGVsbG8=".

(** A JSON member [name: text] with a string value, and a string literal. *)
Definition lit (text : string) : string := quote ++ text ++ quote.

Definition member (name text : string) : string := lit name ++ ":" ++ lit text.

(** Model outputs. *)
Definition no_books_prose : string := "I could not find any books in this image.".

Definition sentinel : string :=
  "There is nothing to list. {" ++ member "error" "No books detected" ++ "} Sorry.".

Definition sentinel_in_array : string :=
  "Here is the result: [{" ++ member "error" "No books detected" ++ "}] as asked.".

Definition empty_sentinel : string :=
  "{" ++ lit "error" ++ ":" ++ quote ++ quote ++ "}".

Definition one_title : string := "[{" ++ member "title" "X" ++ "}]".

Definition falsy_members : string :=
  "[{" ++ lit "title" ++ ":" ++ quote ++ quote ++ ","
       ++ lit "author" ++ ":" ++ quote ++ quote ++ ","
       ++ lit "isbn" ++ ":" ++ quote ++ quote ++ ","
       ++ lit "genre" ++ ":" ++ quote ++ quote ++ ","
       ++ lit "page_count" ++ ":0},{"
       ++ member "title" "Emma" ++ "," ++ lit "pageCount" ++ ":0}]".

Definition zero_page_counts : string :=
  "[{" ++ member "title" "Emma" ++ "," ++ lit "page_count" ++ ":0,"
       ++ lit "pageCount" ++ ":474},{"
       ++ member "title" "Dune" ++ "," ++ lit "page_count" ++ ":300,"
       ++ lit "pageCount" ++ ":0}]".

Definition titles : string := "Titles: [" ++ lit "Dune" ++ ", " ++ lit "Emma" ++ "]".

Definition not_titles : string := "Titles: [1, {" ++ member "title" "Dune" ++ "}, null]".

Fixpoint repeat_char (c : ascii) (n : nat) : string :=
  match n with
  | O => EmptyString
  | S n' => String c (repeat_char c n')
  end.

(** A volume of the metadata service with the given [volumeInfo]. *)
Definition volume (volumeInfo : list (string * value)) : axios_result :=
  Resolve (VObj [("status", VNum 200);
                 ("data", VObj [("kind", VStr "books#volumes");
                                ("totalItems", VNum 1);
                                ("items", VArr [VObj [("id", VStr "zyTCAlFPjgYC");
                                                      ("volumeInfo", VObj volumeInfo)]])])]).

Definition no_volume : axios_result :=
  Resolve (VObj [("status", VNum 200);
                 ("data", VObj [("kind", VStr "books#volumes");
                                ("totalItems", VNum 0)])]).

(** Volume descriptions. *)
Definition dune : list (string * value) :=
  [("title", VStr "Dune");
   ("authors", VArr [VStr "Frank Herbert"]);
   ("description", VStr "A desert planet.");
   ("industryIdentifiers",
    VArr [VObj [("type", VStr "ISBN_13"); ("identifier", VStr "9780441013593")];
          VObj [("type", VStr "ISBN_10"); ("identifier", VStr "0441013593")];
          VObj [("type", VStr "ISBN_10"); ("identifier", VStr "0000000000")]])].

Definition long_description : string := repeat_char "a" 201.

Definition with_long_description : list (string * value) :=
  [("title", VStr "Emma"); ("description", VStr long_description)].

Definition with_empty_description : list (string * value) :=
  [("title", VStr "Emma"); ("description", VStr EmptyString)].

Definition without_identifiers : list (string * value) :=
  [("title", VStr "Emma"); ("authors", VArr [VStr "Jane Austen"])].

Definition with_other_identifier : list (string * value) :=
  [("title", VStr "Emma");
   ("industryIdentifiers",
    VArr [VObj [("type", VStr "OTHER"); ("identifier", VStr "UOM:39015005028686")]])].

(** The first lookup finds a volume, the second none, the others fail. *)
Definition mixed (n : nat) (url : string) (params : get_params) : axios_result :=
  match n with
  | 0 => volume dune
  | 1 => no_volume
  | _ => Reject (Some "ERR_NETWORK") "Network Error" None
  end.

(** Every lookup finds a volume with the given [volumeInfo]. *)
Definition finding (volumeInfo : list (string * value)) (n : nat) (url : string)
  (params : get_params) : axios_result :=
  volume volumeInfo.

(** *** The handlers *)

Definition fs_readFileSync (path : string) : result Buffer :=
  if path =? "uploads/missing"
  then Err (ErrorObject Error "ENOENT: no such file or directory, open 'uploads/missing'")
  else Ok (list_byte_of_string "hello").

Definition fs_unlinkSync (path : string) : result unit := Ok tt.

Definition startTime : Z := 1700000000000.

Definition endTime : Z := 1700000001234.

(** [error.status] as axios sets it since it has the property: the status of
    the response, null without one. *)
Definition axios_error_status (response : value) : value :=
  match get response "status" with
  | Ok s => if truthy s then s else VNull
  | Err _ => VNull
  end.

(** [error.status] of the versions of axios without the property. *)
Definition no_error_status (response : value) : value := VUndefined.

Definition two_digits (n : Z) : string :=
  (if (n <? 10)%Z then "0" else EmptyString) ++ Z_to_string n.

(** [(n / d).toFixed(2)] in exact arithmetic, halves rounded away from 0. *)
Definition toFixed2 (n d : Z) : string :=
  if (d =? 0)%Z then
    (if (n =? 0)%Z then "NaN" else if (n <? 0)%Z then "-Infinity" else "Infinity")
  else
    let negative := negb (Z.sgn n * Z.sgn d >=? 0)%Z in
    let hundredths := ((2 * Z.abs n * 100 + Z.abs d) / (2 * Z.abs d))%Z in
    (if negative then "-" else EmptyString)
    ++ Z_to_string (hundredths / 100) ++ "." ++ two_digits (hundredths mod 100).

Definition savings_toFixed (originalSize compressedSize : Z) : string :=
  toFixed2 ((originalSize - compressedSize) * 100) originalSize.

Definition kilobytes_toFixed (size : Z) : string := toFixed2 size 1024.

Definition scan_books (post : string -> requestBody -> post_config -> axios_result)
  : upload_request -> result http_response :=
  server.scan_books apiKey baseURL Buffer_from_base64 Buffer_toString_base64
    sharp_resize_jpeg post Json.parse fs_readFileSync fs_unlinkSync startTime endTime
    axios_error_status.

Definition extract_book_titles
  (post : string -> requestBody -> post_config -> axios_result)
  (get : nat -> string -> get_params -> axios_result)
  : upload_request -> result http_response :=
  server.extract_book_titles apiKey baseURL Buffer_from_base64 Buffer_toString_base64
    sharp_resize_jpeg post Json.parse get Z_to_string fs_readFileSync fs_unlinkSync
    startTime endTime axios_error_status.

Definition send_message (post : string -> requestBody -> post_config -> axios_result)
  : send_message_body -> result http_response :=
  server.send_message apiKey baseURL post startTime endTime.

Definition convert_image : upload_request -> result http_response :=
  server.convert_image Buffer_toString_base64 fs_readFileSync fs_unlinkSync
    startTime endTime.

Definition compress_image : upload_request -> result http_response :=
  server.compress_image Buffer_from_base64 Buffer_toString_base64 sharp_resize_jpeg
    fs_readFileSync fs_unlinkSync startTime endTime savings_toFixed kilobytes_toFixed.

(** Requests: an image in the body, an upload, an upload that cannot be
    read, and nothing. *)
Definition with_image : upload_request := Build_upload_request None (Some image).

Definition with_upload : upload_request :=
  Build_upload_request (Some "uploads/3f2a") None.

Definition with_missing_upload : upload_request :=
  Build_upload_request (Some "uploads/missing") (Some image).

Definition with_empty_image : upload_request :=
  Build_upload_request None (Some EmptyString).

(** The service refuses a call with a status and an error of its own. *)
Definition unauthorized : value :=
  VObj [("status", VNum 401);
        ("data", VObj [("error", VObj [("message", VStr "Incorrect API key provided")])])].

Definition refusing_with_reason (url : string) (body : requestBody) (config : post_config)
  : axios_result :=
  Reject (Some "ERR_BAD_REQUEST") "Request failed with status code 401" (Some unauthorized).

(** The network is down. *)
Definition unreachable (url : string) (body : requestBody) (config : post_config)
  : axios_result :=
  Reject (Some "ENOTFOUND") "getaddrinfo ENOTFOUND api.openai.com" None.

Definition mixed_titles : string :=
  "[" ++ lit "Dune" ++ ", 1984, null, [" ++ lit "Emma" ++ ", 2]]".

(** The model answers with no content, as when it refuses, and with no
    choice at all. *)
Definition without_content : value :=
  VObj [("status", VNum 200);
        ("data", VObj [("choices",
           VArr [VObj [("message",
             VObj [("role", VStr "assistant"); ("content", VNull)])]])])].

Definition silent (url : string) (body : requestBody) (config : post_config)
  : axios_result :=
  Resolve without_content.

Definition without_choices : value :=
  VObj [("status", VNum 200); ("data", VObj [("choices", VArr [])])].

Definition choiceless (url : string) (body : requestBody) (config : post_config)
  : axios_result :=
  Resolve without_choices.

(** Volumes with members of the wrong kind. *)
Definition with_text_identifiers : list (string * value) :=
  [("title", VStr "Emma"); ("industryIdentifiers", VStr "ISBN 9780141439587")].

Definition with_numeric_description : list (string * value) :=
  [("title", VStr "Emma"); ("description", VNum 1815)].

Definition with_falsy_members : list (string * value) :=
  [("title", VStr "Emma"); ("industryIdentifiers", VStr EmptyString);
   ("description", VNum 0)].

(** An array of the model with a value that no template literal prints. *)
Definition unprintable_titles : string :=
  "[" ++ lit "Dune" ++ ", {" ++ lit "toString" ++ ":1}]".

Definition titles_and_null : string :=
  "[{" ++ member "title" "Dune" ++ "}, null, {" ++ member "title" "Emma" ++ "}]".

Definition before_json : string := "Here is what I found: ".

Definition after_json : string := " Let me know if you need more.".

End Example.

(** * Properties *)

(** ** The pattern *)

Lemma upto_last_some (c : ascii) (s : string) :
  (exists m, upto_last c s = Some m) <-> (exists j, String.get j s = Some c).
Proof.
  induction s as [| a s IH]; simpl.
  - split; intros [x H]; discriminate.
  - split.
    + intros [m H].
      destruct (upto_last c s) as [m' |] eqn:E.
      * destruct IH as [IH _]. destruct IH as [j Hj]; [now exists m' |].
        now exists (S j).
      * destruct (Ascii.eqb a c) eqn:Eac; [| discriminate].
        apply Ascii.eqb_eq in Eac. subst a. now exists 0.
    + intros [j Hj].
      destruct (upto_last c s) as [m' |] eqn:E; [now eexists |].
      destruct j as [| j]; simpl in Hj.
      * injection Hj as ->. rewrite Ascii.eqb_refl. now eexists.
      * destruct IH as [_ IH]. destruct IH as [m Hm]; [now exists j | discriminate].
Qed.

Lemma upto_last_none (c : ascii) (s : string) :
  upto_last c s = None <-> (forall j, String.get j s <> Some c).
Proof.
  split.
  - intros H j Hj.
    destruct (proj2 (upto_last_some c s)) as [m Hm]; [now exists j | congruence].
  - intros H. destruct (upto_last c s) as [m |] eqn:E; [| reflexivity].
    destruct (proj1 (upto_last_some c s)) as [j Hj]; [now exists m |].
    now destruct (H j).
Qed.

Lemma delimited_none (open close : ascii) (a : ascii) (s : string) :
  delimited open close (String a s) = None <->
  (a = open -> forall j, String.get j s <> Some close).
Proof.
  unfold delimited. destruct (Ascii.eqb a open) eqn:E.
  - apply Ascii.eqb_eq in E. subst a.
    destruct (upto_last close s) as [m |] eqn:U.
    + split; [discriminate |]. intros H.
      apply upto_last_none in H; [congruence | reflexivity].
    + split; [| reflexivity]. intros _ _. now apply upto_last_none.
  - apply Ascii.eqb_neq in E. split; [| reflexivity]. intros _ H. contradiction.
Qed.

Lemma has_delimited_cons (open close a : ascii) (s : string) :
  has_delimited open close (String a s) <->
  (a = open /\ exists j, String.get j s = Some close) \/ has_delimited open close s.
Proof.
  unfold has_delimited. split.
  - intros (i & j & Hij & Hi & Hj).
    destruct j as [| j]; [lia |]. simpl in Hj.
    destruct i as [| i]; simpl in Hi.
    + left. injection Hi as ->. split; [reflexivity | now exists j].
    + right. exists i, j. repeat split; [lia | assumption | assumption].
  - intros [[-> [j Hj]] | (i & j & Hij & Hi & Hj)].
    + exists 0, (S j). repeat split; [lia | assumption].
    + exists (S i), (S j). repeat split; [lia | assumption | assumption].
Qed.

(** The pattern finds nothing exactly in the texts without a substring from
    a bracket to a later closing bracket or from a brace to a later closing
    brace. *)
Lemma jsonMatch_none (content : string) :
  jsonMatch content = None <->
  ~ has_delimited "[" "]" content /\ ~ has_delimited "{" "}" content.
Proof.
  induction content as [| a s IH].
  - simpl. split; [| reflexivity]. intros _.
    split; intros (i & j & _ & Hi & _); destruct i; discriminate.
  - change (jsonMatch (String a s))
      with (match json_here (String a s) with
            | Some m => Some m
            | None => jsonMatch s
            end).
    unfold json_here. rewrite !has_delimited_cons.
    destruct (delimited "[" "]" (String a s)) as [m |] eqn:D1.
    + split; [discriminate |]. intros [H _]. exfalso.
      destruct (Ascii.ascii_dec a "[") as [-> | Hne].
      * destruct (delimited_none "[" "]" "[" s) as [_ Hd].
        rewrite Hd in D1; [discriminate |].
        intros _ j Hj. apply H. left. split; [reflexivity | now exists j].
      * unfold delimited in D1. apply Ascii.eqb_neq in Hne. now rewrite Hne in D1.
    + destruct (delimited "{" "}" (String a s)) as [m |] eqn:D2.
      * split; [discriminate |]. intros [_ H]. exfalso.
        destruct (Ascii.ascii_dec a "{") as [-> | Hne].
        -- destruct (delimited_none "{" "}" "{" s) as [_ Hd].
           rewrite Hd in D2; [discriminate |].
           intros _ j Hj. apply H. left. split; [reflexivity | now exists j].
        -- unfold delimited in D2. apply Ascii.eqb_neq in Hne. now rewrite Hne in D2.
      * rewrite IH.
        pose proof (proj1 (delimited_none _ _ _ _) D1) as D1'.
        pose proof (proj1 (delimited_none _ _ _ _) D2) as D2'.
        split.
        -- intros [H1 H2]. split; intros [[-> [j Hj]] | H].
           ++ now apply (D1' eq_refl j).
           ++ now apply H1.
           ++ now apply (D2' eq_refl j).
           ++ now apply H2.
        -- intros [H1 H2]. split; intros H; [apply H1 | apply H2]; now right.
Qed.

Lemma upto_last_greedy (c : ascii) (s m : string) :
  upto_last c s = Some m ->
  exists body after,
    m = body ++ String c EmptyString /\
    s = m ++ after /\
    (forall j, String.get j after <> Some c).
Proof.
  revert m. induction s as [| a s IH]; intros m; cbn [upto_last]; [discriminate |].
  destruct (upto_last c s) as [m' |] eqn:E.
  - intros [= <-]. destruct (IH m' eq_refl) as (body & after & -> & Hs & Hafter).
    exists (String a body), after. cbn. now rewrite <- Hs.
  - destruct (Ascii.eqb a c) eqn:Eac; [| discriminate].
    apply Ascii.eqb_eq in Eac. subst a. intros [= <-].
    exists EmptyString, s. repeat split. now apply upto_last_none.
Qed.

(** What the pattern finds: the match runs from an opening bracket or brace
    to the last closing one of its kind, and no match starts before it. *)
Lemma jsonMatch_some (content m : string) :
  jsonMatch content = Some m ->
  exists before body after,
    content = before ++ m ++ after /\
    ((m = String "[" (body ++ "]") /\ forall j, String.get j after <> Some "]"%char) \/
     (m = String "{" (body ++ "}") /\ forall j, String.get j after <> Some "}"%char)) /\
    (forall b1 a b2, before = b1 ++ String a b2 ->
                     json_here (String a b2 ++ m ++ after) = None).
Proof.
  induction content as [| a s IH].
  - discriminate.
  - change (jsonMatch (String a s))
      with (match json_here (String a s) with
            | Some m => Some m
            | None => jsonMatch s
            end).
    destruct (json_here (String a s)) as [m' |] eqn:Hhere.
    + intros [= <-]. unfold json_here, delimited in Hhere.
      assert (Hcase : exists close u,
                 upto_last close s = Some u /\
                 m' = String a u /\
                 ((a = "[" /\ close = "]") \/ (a = "{" /\ close = "}"))%char).
      { destruct (Ascii.eqb a "[") eqn:E1.
        - apply Ascii.eqb_eq in E1. subst a.
          destruct (upto_last "]" s) as [u |] eqn:U.
          + injection Hhere as <-. exists "]"%char, u. auto.
          + cbn in Hhere. discriminate.
        - destruct (Ascii.eqb a "{") eqn:E2; [| discriminate].
          apply Ascii.eqb_eq in E2. subst a.
          destruct (upto_last "}" s) as [u |] eqn:U; [| discriminate].
          injection Hhere as <-. exists "}"%char, u. auto. }
      destruct Hcase as (close & u & Hupto & Hm & Hkind).
      destruct (upto_last_greedy _ _ _ Hupto) as (body & after & Hbody & Hs & Hafter).
      exists EmptyString, body, after. rewrite Hm, Hbody. split.
      * cbn. rewrite <- Hbody, <- Hs. reflexivity.
      * split.
        -- destruct Hkind as [[-> ->] | [-> ->]]; [left | right]; now split.
        -- intros [| c b1] a0 b2 Heq; discriminate Heq.
    + intros Hrest. destruct (IH Hrest) as (before & body & after & Hs & Hkind & Hleft).
      exists (String a before), body, after. split; [cbn; now rewrite <- Hs |].
      split; [exact Hkind |].
      intros [| c b1] a0 b2 Heq; cbn in Heq; injection Heq as <- Heq.
      * subst before. cbn. rewrite <- Hs. exact Hhere.
      * now apply (Hleft b1).
Qed.

(** ** Exceptions through the [catch] block of the vision operations *)

Lemma translate_timeout_error {A} (cls : error_class) (message : string) :
  @translate_timeout A (ErrorObject cls message) = Err (ErrorObject cls message).
Proof. reflexivity. Qed.

Lemma translate_timeout_not_found {A} (message : value) :
  @translate_timeout A (not_found message) = Err (not_found message).
Proof. reflexivity. Qed.

Lemma translate_timeout_axios {A} (code : option string) (message : string)
  (response : option value) :
  @translate_timeout A (AxiosError code message response) =
  if match code with
     | Some c => c =? "ECONNABORTED"
     | None => false
     end
  then Err timed_out
  else Err (AxiosError code message response).
Proof. destruct code as [c |]; reflexivity. Qed.

(** ** The callback of [scanBooks] on an object *)

Lemma toBook_object (props : list (string * value)) :
  toBook (VObj props) =
  Ok (VObj [("title", js_or (lookup "title" props) (VStr "Unknown Title"));
            ("author", js_or (lookup "author" props) (VStr "Unknown Author"));
            ("isbn", js_or (lookup "isbn" props) VNull);
            ("genre", js_or (lookup "genre" props) VNull);
            ("pageCount",
             if truthy (lookup "page_count" props) then lookup "page_count" props
             else js_or (lookup "pageCount" props) VNull)]).
Proof.
  unfold toBook, get, bind, ret.
  destruct (truthy (lookup "page_count" props)); reflexivity.
Qed.

Lemma map_elems_objects (objs : list (list (string * value))) :
  exists books,
    map_elems toBook (map VObj objs) = Ok books /\
    Forall2 (fun props book => toBook (VObj props) = Ok book) objs books.
Proof.
  induction objs as [| props objs [books [IH1 IH2]]].
  - exists []. split; [reflexivity | constructor].
  - destruct (toBook (VObj props)) as [book | e] eqn:E;
      [| rewrite toBook_object in E; discriminate].
    exists (book :: books). split.
    + cbn [map map_elems]. rewrite E. cbn [bind]. rewrite IH1. reflexivity.
    + constructor; assumption.
Qed.

Section OpenAIServiceProperties.

Variables apiKey baseURL : string.
Variable Buffer_from_base64 : string -> result Buffer.
Variable Buffer_toString_base64 : Buffer -> result string.
Variable sharp_resize_jpeg : Buffer -> Z -> Z -> resize_options -> Z -> result Buffer.
Variable axios_post : string -> requestBody -> post_config -> axios_result.
Variable JSON_parse : string -> result value.

Local Notation compress_pipeline :=
  (openaiService.compress_pipeline Buffer_from_base64 Buffer_toString_base64 sharp_resize_jpeg).
Local Notation compressImage :=
  (openaiService.compressImage Buffer_from_base64 Buffer_toString_base64 sharp_resize_jpeg).
Local Notation scanBooks :=
  (openaiService.scanBooks apiKey baseURL Buffer_from_base64 Buffer_toString_base64
     sharp_resize_jpeg axios_post JSON_parse).
Local Notation extractBookTitles :=
  (openaiService.extractBookTitles apiKey baseURL Buffer_from_base64 Buffer_toString_base64
     sharp_resize_jpeg axios_post JSON_parse).
Local Notation scanBooks_call :=
  (openaiService.scanBooks_call apiKey baseURL Buffer_from_base64 Buffer_toString_base64
     sharp_resize_jpeg axios_post).
Local Notation extractBookTitles_call :=
  (openaiService.extractBookTitles_call apiKey baseURL Buffer_from_base64 Buffer_toString_base64
     sharp_resize_jpeg axios_post).
Local Notation scanBooks_output :=
  (openaiService.scanBooks_output apiKey baseURL Buffer_from_base64 Buffer_toString_base64
     sharp_resize_jpeg axios_post).
Local Notation extractBookTitles_output :=
  (openaiService.extractBookTitles_output apiKey baseURL Buffer_from_base64 Buffer_toString_base64
     sharp_resize_jpeg axios_post).
Local Notation extract_books := (openaiService.extract_books JSON_parse).
Local Notation extract_titles := (openaiService.extract_titles JSON_parse).
Local Notation books_of := openaiService.books_of.
Local Notation titles_of := openaiService.titles_of.

(** *** The Image Normalizer *)

Lemma compressImage_returns (base64Image : string) :
  exists out, compressImage base64Image = Ok out.
Proof.
  unfold openaiService.compressImage, try_catch.
  destruct compress_pipeline as [out | e]; eexists; reflexivity.
Qed.

Lemma compressImage_fallback (base64Image : string) (e : thrown) :
  compress_pipeline base64Image = Err e -> compressImage base64Image = Ok base64Image.
Proof.
  intros H. unfold openaiService.compressImage, try_catch. now rewrite H.
Qed.

(** C3: [compressImage] never throws, and when decoding, resizing and
    re-encoding, or encoding back fails, it returns its input unchanged. *)
Theorem compressImage_degrades_gracefully (base64Image : string) :
  (exists out, compressImage base64Image = Ok out) /\
  (forall e, compressImage base64Image <> Err e) /\
  (forall e, Buffer_from_base64 base64Image = Err e ->
             compressImage base64Image = Ok base64Image) /\
  (forall buffer e,
      Buffer_from_base64 base64Image = Ok buffer ->
      sharp_resize_jpeg buffer 1000 1000
        {| fit := "inside"; withoutEnlargement := true |} 80 = Err e ->
      compressImage base64Image = Ok base64Image) /\
  (forall buffer compressedBuffer e,
      Buffer_from_base64 base64Image = Ok buffer ->
      sharp_resize_jpeg buffer 1000 1000
        {| fit := "inside"; withoutEnlargement := true |} 80 = Ok compressedBuffer ->
      Buffer_toString_base64 compressedBuffer = Err e ->
      compressImage base64Image = Ok base64Image) /\
  (forall e, compress_pipeline base64Image = Err e ->
             compressImage base64Image = Ok base64Image).
Proof.
  split; [apply compressImage_returns |].
  split.
  { intros e H. destruct (compressImage_returns base64Image) as [out Hout]. congruence. }
  split.
  { intros e H. apply (compressImage_fallback _ e).
    unfold openaiService.compress_pipeline. now rewrite H. }
  split.
  { intros buffer e H1 H2. apply (compressImage_fallback _ e).
    unfold openaiService.compress_pipeline. rewrite H1. cbn [bind]. now rewrite H2. }
  split.
  { intros buffer compressedBuffer e H1 H2 H3. apply (compressImage_fallback _ e).
    unfold openaiService.compress_pipeline. rewrite H1. cbn [bind]. rewrite H2. exact H3. }
  apply compressImage_fallback.
Qed.

(** *** From the outbound call to the Response Extractor *)

Lemma scanBooks_settled (imageBase64 : string) (r : axios_result) :
  scanBooks_call imageBase64 r ->
  scanBooks imageBase64 =
  try_catch (response <- await r ;;
             content <- message_content_of response ;;
             extract_books content)
            translate_timeout.
Proof.
  intros (compressedImage & Hc & Hr).
  unfold openaiService.scanBooks. rewrite Hc. cbn [bind]. now rewrite Hr.
Qed.

Lemma extractBookTitles_settled (imageBase64 : string) (r : axios_result) :
  extractBookTitles_call imageBase64 r ->
  extractBookTitles imageBase64 =
  try_catch (response <- await r ;;
             content <- message_content_of response ;;
             extract_titles content)
            translate_timeout.
Proof.
  intros (compressedImage & Hc & Hr).
  unfold openaiService.extractBookTitles. rewrite Hc. cbn [bind]. now rewrite Hr.
Qed.

Lemma scanBooks_extracts (imageBase64 content : string) :
  scanBooks_output imageBase64 content ->
  scanBooks imageBase64 = try_catch (extract_books (VStr content)) translate_timeout.
Proof.
  intros (response & Hcall & Hcontent).
  rewrite (scanBooks_settled _ _ Hcall). cbn [await bind].
  now rewrite Hcontent.
Qed.

Lemma extractBookTitles_extracts (imageBase64 content : string) :
  extractBookTitles_output imageBase64 content ->
  extractBookTitles imageBase64 =
  try_catch (extract_titles (VStr content)) translate_timeout.
Proof.
  intros (response & Hcall & Hcontent).
  rewrite (extractBookTitles_settled _ _ Hcall). cbn [await bind].
  now rewrite Hcontent.
Qed.

Lemma scanBooks_parsed (imageBase64 content jsonString : string) (booksData : value) :
  scanBooks_output imageBase64 content ->
  jsonMatch content = Some jsonString ->
  JSON_parse jsonString = Ok booksData ->
  scanBooks imageBase64 = try_catch (books_of booksData) translate_timeout.
Proof.
  intros Hout Hmatch Hparse. rewrite (scanBooks_extracts _ _ Hout).
  unfold openaiService.extract_books, match_json. cbn [bind ret].
  rewrite Hmatch, Hparse. reflexivity.
Qed.

Lemma extractBookTitles_parsed (imageBase64 content jsonString : string)
  (titlesData : value) :
  extractBookTitles_output imageBase64 content ->
  jsonMatch content = Some jsonString ->
  JSON_parse jsonString = Ok titlesData ->
  extractBookTitles imageBase64 = try_catch (titles_of titlesData) translate_timeout.
Proof.
  intros Hout Hmatch Hparse. rewrite (extractBookTitles_extracts _ _ Hout).
  unfold openaiService.extract_titles, match_json. cbn [bind ret].
  rewrite Hmatch, Hparse. reflexivity.
Qed.

Lemma scanBooks_objects (imageBase64 content jsonString : string)
  (objs : list (list (string * value))) :
  scanBooks_output imageBase64 content ->
  jsonMatch content = Some jsonString ->
  JSON_parse jsonString = Ok (VArr (map VObj objs)) ->
  exists books,
    scanBooks imageBase64 = Ok (VArr books) /\
    Forall2 (fun props book => toBook (VObj props) = Ok book) objs books.
Proof.
  intros Hout Hmatch Hparse.
  rewrite (scanBooks_parsed _ _ _ _ Hout Hmatch Hparse).
  destruct (map_elems_objects objs) as (books & Hmap & Hall).
  exists books. split; [| exact Hall].
  unfold openaiService.books_of, Array_map. cbn [typeof_object Array_isArray negb andb bind ret].
  rewrite Hmap. reflexivity.
Qed.

(** *** The record of an element *)


Lemma toBook_defaults_when_falsy (props : list (string * value)) (book : value) :
  toBook (VObj props) = Ok book -> defaults_when_falsy props book.
Proof.
  rewrite toBook_object. intros [= <-].
  eexists _, _, _, _, _. split; [reflexivity |].
  unfold absent, js_or.
  repeat split; intros H; try intros H'; rewrite ?H, ?H'; reflexivity.
Qed.

(** *** The Response Extractor *)

(** C7: a model output without a substring from a bracket to a closing
    bracket or from a brace to a closing brace makes both extraction
    operations fail with the error "No JSON found in response", which is
    neither a value nor the not-found condition. *)
Theorem no_json_is_malformed (imageBase64 content : string) :
  ~ has_delimited "[" "]" content ->
  ~ has_delimited "{" "}" content ->
  (scanBooks_output imageBase64 content ->
   scanBooks imageBase64 = Err no_json_found) /\
  (extractBookTitles_output imageBase64 content ->
   extractBookTitles imageBase64 = Err no_json_found) /\
  thrown_message no_json_found = Ok (VStr "No JSON found in response") /\
  thrown_status no_json_found = Ok VUndefined /\
  (forall message, no_json_found <> not_found message).
Proof.
  intros Hbracket Hbrace.
  assert (Hnone : jsonMatch content = None) by (apply jsonMatch_none; now split).
  split; [| split; [| split; [reflexivity | split; [reflexivity | discriminate]]]].
  - intros Hout. rewrite (scanBooks_extracts _ _ Hout).
    unfold openaiService.extract_books, match_json. cbn [bind ret].
    rewrite Hnone. reflexivity.
  - intros Hout. rewrite (extractBookTitles_extracts _ _ Hout).
    unfold openaiService.extract_titles, match_json. cbn [bind ret].
    rewrite Hnone. reflexivity.
Qed.

(** C2, as the code has it: when the first JSON substring of the model
    output parses to an object that is not an array and whose [error] is
    truthy, as the bare {error: msg} with a non-empty msg, [scanBooks] fails
    with the not-found condition, status 404, carrying that message; when it
    parses to the sentinel wrapped in an array, [scanBooks] succeeds with one
    record of defaults. *)
Theorem error_sentinel_is_not_found (imageBase64 content jsonString : string) :
  scanBooks_output imageBase64 content ->
  jsonMatch content = Some jsonString ->
  (forall props,
      JSON_parse jsonString = Ok (VObj props) ->
      truthy (lookup "error" props) = true ->
      scanBooks imageBase64 = Err (not_found (lookup "error" props))) /\
  (forall msg,
      JSON_parse jsonString = Ok (VObj [("error", VStr msg)]) ->
      msg <> EmptyString ->
      scanBooks imageBase64 = Err (not_found (VStr msg)) /\
      thrown_status (not_found (VStr msg)) = Ok (VNum 404) /\
      thrown_message (not_found (VStr msg)) = Ok (VStr msg)) /\
  (forall msg,
      JSON_parse jsonString = Ok (VArr [VObj [("error", msg)]]) ->
      scanBooks imageBase64 =
      Ok (VArr [ExtractedBookRecord (VStr "Unknown Title") (VStr "Unknown Author")
                  VNull VNull VNull])).
Proof.
  intros Hout Hmatch.
  assert (Hobj : forall props,
             JSON_parse jsonString = Ok (VObj props) ->
             truthy (lookup "error" props) = true ->
             scanBooks imageBase64 = Err (not_found (lookup "error" props))).
  { intros props Hparse Htruthy.
    rewrite (scanBooks_parsed _ _ _ _ Hout Hmatch Hparse).
    unfold openaiService.books_of, get.
    cbn [typeof_object Array_isArray negb andb bind ret].
    rewrite Htruthy. reflexivity. }
  split; [exact Hobj |]. split.
  - intros msg Hparse Hmsg. split; [| split; reflexivity].
    apply (Hobj _ Hparse). cbn.
    destruct msg; [contradiction | reflexivity].
  - intros msg Hparse.
    rewrite (scanBooks_parsed _ _ _ _ Hout Hmatch Hparse).
    reflexivity.
Qed.

(** C5, as the code has it: when the first JSON substring of the model
    output parses to an array, [extractBookTitles] returns that array
    unchanged, whatever its elements are; when it parses to anything else,
    [extractBookTitles] fails with "Unexpected response format". *)
Theorem titles_array_is_returned (imageBase64 content jsonString : string) :
  extractBookTitles_output imageBase64 content ->
  jsonMatch content = Some jsonString ->
  (forall elems,
      JSON_parse jsonString = Ok (VArr elems) ->
      extractBookTitles imageBase64 = Ok (VArr elems)) /\
  (forall titlesData,
      JSON_parse jsonString = Ok titlesData ->
      Array_isArray titlesData = false ->
      extractBookTitles imageBase64 = Err unexpected_format).
Proof.
  intros Hout Hmatch. split.
  - intros elems Hparse.
    rewrite (extractBookTitles_parsed _ _ _ _ Hout Hmatch Hparse). reflexivity.
  - intros titlesData Hparse Hnot.
    rewrite (extractBookTitles_parsed _ _ _ _ Hout Hmatch Hparse).
    unfold openaiService.titles_of. rewrite Hnot. reflexivity.
Qed.


(** C10, as the code has it: in [scanBooks] a member counts as absent when
    it is falsy and is kept when it is truthy: an empty title or author gets
    the placeholder, an empty isbn or genre becomes null, and the page count
    is the first truthy one of page_count and pageCount, so that a 0 under
    one name gives way to the other name and the page count is null only
    when both are falsy. *)
Theorem falsy_members_get_defaults (imageBase64 content jsonString : string)
  (objs : list (list (string * value))) :
  scanBooks_output imageBase64 content ->
  jsonMatch content = Some jsonString ->
  JSON_parse jsonString = Ok (VArr (map VObj objs)) ->
  exists books,
    scanBooks imageBase64 = Ok (VArr books) /\
    Forall2 defaults_when_falsy objs books.
Proof.
  intros Hout Hmatch Hparse.
  destruct (scanBooks_objects _ _ _ _ Hout Hmatch Hparse) as (books & Hbooks & Hall).
  exists books. split; [exact Hbooks |].
  revert Hall. apply Forall2_impl. exact toBook_defaults_when_falsy.
Qed.

(** *** The Model Gateway *)

(** C4: when the outbound call of [scanBooks] or of [extractBookTitles]
    times out, which axios reports as a rejection with the code
    ECONNABORTED, the operation fails with status 408 and the message "The
    API request timed out. Please try again."; every other rejection of
    the call propagates as it is, code, message and response. *)
Theorem timeout_is_translated (imageBase64 : string) (code : option string)
  (message : string) (response : option value) :
  (scanBooks_call imageBase64 (Reject code message response) ->
   (code = Some "ECONNABORTED" -> scanBooks imageBase64 = Err timed_out) /\
   (code <> Some "ECONNABORTED" ->
    scanBooks imageBase64 = Err (AxiosError code message response))) /\
  (extractBookTitles_call imageBase64 (Reject code message response) ->
   (code = Some "ECONNABORTED" -> extractBookTitles imageBase64 = Err timed_out) /\
   (code <> Some "ECONNABORTED" ->
    extractBookTitles imageBase64 = Err (AxiosError code message response))) /\
  thrown_status timed_out = Ok (VNum 408) /\
  thrown_message timed_out = Ok (VStr "The API request timed out. Please try again.").
Proof.
  assert (Hcatch : forall A,
             (code = Some "ECONNABORTED" ->
              @translate_timeout A (AxiosError code message response) = Err timed_out) /\
             (code <> Some "ECONNABORTED" ->
              @translate_timeout A (AxiosError code message response)
              = Err (AxiosError code message response))).
  { intros A. rewrite translate_timeout_axios. split.
    - intros ->. reflexivity.
    - intros Hcode. destruct code as [c |]; [| reflexivity].
      destruct (c =? "ECONNABORTED") eqn:E; [| reflexivity].
      apply String.eqb_eq in E. subst c. contradiction. }
  split; [| split; [| split; reflexivity]].
  - intros Hcall. rewrite (scanBooks_settled _ _ Hcall). apply Hcatch.
  - intros Hcall. rewrite (extractBookTitles_settled _ _ Hcall). apply Hcatch.
Qed.

End OpenAIServiceProperties.

(** sharp rejects the bytes, and [compressImage] hands the input back. *)
Lemma compressImage_degrades_gracefully_witness :
  openaiService.compress_pipeline Example.Buffer_from_base64
    Example.Buffer_toString_base64 Example.sharp_resize_jpeg Example.image
  = Err (ErrorObject Error "Input buffer contains unsupported image format") /\
  openaiService.compressImage Example.Buffer_from_base64
    Example.Buffer_toString_base64 Example.sharp_resize_jpeg Example.image = Ok Example.image.
Proof.
  split; [reflexivity |].
  destruct (compressImage_degrades_gracefully
              Example.Buffer_from_base64 Example.Buffer_toString_base64
              Example.sharp_resize_jpeg Example.image) as (_ & _ & _ & _ & _ & H).
  exact (H _ eq_refl).
Defined.

(** ** The vision operations on concrete model outputs *)

Ltac settles := eexists; split; reflexivity.

Ltac outputs := eexists; split; [settles | reflexivity].

(** Prose without brackets or braces makes both operations fail with
    "No JSON found in response". *)
Lemma no_json_is_malformed_witness :
  Example.scanBooks (Example.answering Example.no_books_prose) Example.image
  = Err no_json_found /\
  Example.extractBookTitles (Example.answering Example.no_books_prose) Example.image
  = Err no_json_found.
Proof.
  destruct (no_json_is_malformed Example.apiKey Example.baseURL
              Example.Buffer_from_base64 Example.Buffer_toString_base64
              Example.sharp_resize_jpeg (Example.answering Example.no_books_prose)
              Json.parse Example.image Example.no_books_prose)
    as (Hscan & Htitles & _).
  - exact (proj1 (proj1 (jsonMatch_none Example.no_books_prose) eq_refl)).
  - exact (proj2 (proj1 (jsonMatch_none Example.no_books_prose) eq_refl)).
  - split; [apply Hscan | apply Htitles]; outputs.
Defined.

(** The bare sentinel in prose is the not-found condition. *)
Lemma error_sentinel_is_not_found_witness :
  Example.scanBooks (Example.answering Example.sentinel) Example.image
  = Err (not_found (VStr "No books detected")).
Proof.
  destruct (error_sentinel_is_not_found Example.apiKey Example.baseURL
              Example.Buffer_from_base64 Example.Buffer_toString_base64
              Example.sharp_resize_jpeg (Example.answering Example.sentinel)
              Json.parse Example.image Example.sentinel
              ("{" ++ Example.member "error" "No books detected" ++ "}"))
    as (_ & Hbare & _).
  - outputs.
  - reflexivity.
  - apply (Hbare "No books detected"); [reflexivity | discriminate].
Defined.

(** The sentinel wrapped in an array is an array: [scanBooks] answers with
    one record of defaults, not with the not-found condition; and a sentinel
    with an empty message is not the not-found condition either. *)
Lemma error_sentinel_in_array_counterexample :
  jsonMatch Example.sentinel_in_array
  = Some ("[{" ++ Example.member "error" "No books detected" ++ "}]") /\
  Json.parse ("[{" ++ Example.member "error" "No books detected" ++ "}]")
  = Ok (VArr [VObj [("error", VStr "No books detected")]]) /\
  Example.scanBooks (Example.answering Example.sentinel_in_array) Example.image
  = Ok (VArr [ExtractedBookRecord (VStr "Unknown Title") (VStr "Unknown Author")
                VNull VNull VNull]) /\
  Example.scanBooks (Example.answering Example.sentinel_in_array) Example.image
  <> Err (not_found (VStr "No books detected")) /\
  jsonMatch Example.empty_sentinel = Some Example.empty_sentinel /\
  Json.parse Example.empty_sentinel = Ok (VObj [("error", VStr EmptyString)]) /\
  Example.scanBooks (Example.answering Example.empty_sentinel) Example.image
  = Err unexpected_format /\
  Example.scanBooks (Example.answering Example.empty_sentinel) Example.image
  <> Err (not_found (VStr EmptyString)).
Proof.
  repeat split; try reflexivity; vm_compute; discriminate.
Qed.

(** An array of titles comes back as it is. *)
Lemma titles_array_is_returned_witness :
  Example.extractBookTitles (Example.answering Example.titles) Example.image
  = Ok (VArr [VStr "Dune"; VStr "Emma"]).
Proof.
  destruct (titles_array_is_returned Example.apiKey Example.baseURL
              Example.Buffer_from_base64 Example.Buffer_toString_base64
              Example.sharp_resize_jpeg (Example.answering Example.titles)
              Json.parse Example.image Example.titles
              ("[" ++ Example.lit "Dune" ++ ", " ++ Example.lit "Emma" ++ "]"))
    as (Harray & _).
  - outputs.
  - reflexivity.
  - apply Harray. reflexivity.
Defined.

(** An array with a number, an object and null in it comes back as it is
    too: no element is looked at. *)
Lemma titles_not_strings_counterexample :
  jsonMatch Example.not_titles
  = Some ("[1, {" ++ Example.member "title" "Dune" ++ "}, null]") /\
  Json.parse ("[1, {" ++ Example.member "title" "Dune" ++ "}, null]")
  = Ok (VArr [VNum 1; VObj [("title", VStr "Dune")]; VNull]) /\
  Example.extractBookTitles (Example.answering Example.not_titles) Example.image
  = Ok (VArr [VNum 1; VObj [("title", VStr "Dune")]; VNull]) /\
  (forall e,
      Example.extractBookTitles (Example.answering Example.not_titles) Example.image
      <> Err e).
Proof.
  repeat split; try reflexivity; intros e; vm_compute; discriminate.
Qed.


(** Empty strings and a page count of 0 are replaced like absent members,
    and a title is kept. *)
Lemma falsy_members_get_defaults_witness :
  exists books,
    Example.scanBooks (Example.answering Example.falsy_members) Example.image
    = Ok (VArr books) /\
    Forall2 defaults_when_falsy
      [ [("title", VStr EmptyString); ("author", VStr EmptyString);
         ("isbn", VStr EmptyString); ("genre", VStr EmptyString);
         ("page_count", VNum 0)];
        [("title", VStr "Emma"); ("pageCount", VNum 0)] ]
      books.
Proof.
  apply (falsy_members_get_defaults Example.apiKey Example.baseURL
           Example.Buffer_from_base64 Example.Buffer_toString_base64
           Example.sharp_resize_jpeg (Example.answering Example.falsy_members)
           Json.parse Example.image Example.falsy_members Example.falsy_members).
  - outputs.
  - reflexivity.
  - reflexivity.
Defined.

(** A page_count of 0 beside a pageCount of 474 yields 474, and a pageCount
    of 0 beside a page_count of 300 yields 300: neither yields null. *)
Lemma page_count_zero_counterexample :
  jsonMatch Example.zero_page_counts = Some Example.zero_page_counts /\
  Json.parse Example.zero_page_counts
  = Ok (VArr [VObj [("title", VStr "Emma"); ("page_count", VNum 0);
                    ("pageCount", VNum 474)];
              VObj [("title", VStr "Dune"); ("page_count", VNum 300);
                    ("pageCount", VNum 0)]]) /\
  Example.scanBooks (Example.answering Example.zero_page_counts) Example.image
  = Ok (VArr [ExtractedBookRecord (VStr "Emma") (VStr "Unknown Author") VNull VNull
                (VNum 474);
              ExtractedBookRecord (VStr "Dune") (VStr "Unknown Author") VNull VNull
                (VNum 300)]) /\
  VNum 474 <> VNull /\
  VNum 300 <> VNull.
Proof.
  repeat split; try reflexivity; discriminate.
Qed.

Example falsy_members_output :
  Example.scanBooks (Example.answering Example.falsy_members) Example.image
  = Ok (VArr [ExtractedBookRecord (VStr "Unknown Title") (VStr "Unknown Author")
                VNull VNull VNull;
              ExtractedBookRecord (VStr "Emma") (VStr "Unknown Author")
                VNull VNull VNull]).
Proof. reflexivity. Qed.

(** A page count of 0 under one name gives way to the other name. *)
Example page_count_zero_falls_through :
  toBook (VObj [("title", VStr "Emma"); ("page_count", VNum 0); ("pageCount", VNum 474)])
  = Ok (ExtractedBookRecord (VStr "Emma") (VStr "Unknown Author") VNull VNull (VNum 474)).
Proof. reflexivity. Qed.

(** A timeout of either call becomes the 408 condition; a refusal of the
    service comes through as axios reports it. *)
Lemma timeout_is_translated_witness :
  Example.scanBooks Example.timing_out Example.image = Err timed_out /\
  Example.extractBookTitles Example.timing_out Example.image = Err timed_out /\
  Example.scanBooks Example.refusing Example.image
  = Err (AxiosError (Some "ERR_BAD_REQUEST") "Request failed with status code 401"
           (Some (VObj [("status", VNum 401)]))).
Proof.
  destruct (timeout_is_translated Example.apiKey Example.baseURL
              Example.Buffer_from_base64 Example.Buffer_toString_base64
              Example.sharp_resize_jpeg Example.timing_out Json.parse Example.image
              (Some "ECONNABORTED") "timeout exceeded" None)
    as (Hscan & Htitles & _).
  destruct (timeout_is_translated Example.apiKey Example.baseURL
              Example.Buffer_from_base64 Example.Buffer_toString_base64
              Example.sharp_resize_jpeg Example.refusing Json.parse Example.image
              (Some "ERR_BAD_REQUEST") "Request failed with status code 401"
              (Some (VObj [("status", VNum 401)])))
    as (Hrefused & _).
  split; [| split].
  - apply Hscan; [settles | reflexivity].
  - apply Htitles; [settles | reflexivity].
  - apply Hrefused; [settles | discriminate].
Defined.

(** ** Strings *)

Lemma length_append (s t : string) :
  String.length (s ++ t) = String.length s + String.length t.
Proof.
  induction s as [| c s IH]; [reflexivity |]. cbn. now rewrite IH.
Qed.

Lemma length_prefix (m : nat) (s : string) :
  String.length (substring 0 m s) = Nat.min m (String.length s).
Proof.
  revert m. induction s as [| c s IH]; intros [| m]; try reflexivity.
  cbn. now rewrite IH.
Qed.

Lemma prefix_of_short (m : nat) (s : string) :
  String.length s <= m -> substring 0 m s = s.
Proof.
  revert m. induction s as [| c s IH]; intros [| m] H; try reflexivity.
  - cbn in H. lia.
  - cbn in *. rewrite IH; [reflexivity | lia].
Qed.

Lemma append_empty (s : string) : s ++ EmptyString = s.
Proof.
  induction s as [| c s IH]; [reflexivity |]. cbn. now rewrite IH.
Qed.

(** A description that is a string is cut after 200 characters and marked
    when something was cut. *)
Lemma truncate_description_string (d : string) :
  exists t,
    googleBooksService.truncate_description (VStr d) = Ok (VStr t) /\
    String.length t <= 203 /\
    (String.length d <= 200 -> t = d) /\
    (200 < String.length d ->
     t = substring 0 200 d ++ "..." /\ String.length t = 203).
Proof.
  unfold googleBooksService.truncate_description, ret.
  eexists. split; [reflexivity |].
  destruct (Nat.ltb_spec 200 (String.length d)) as [Hlong | Hshort].
  - rewrite length_append, length_prefix.
    change (String.length "...") with 3.
    split; [lia |]. split; [lia |].
    intros _. split; [reflexivity | lia].
  - rewrite (prefix_of_short 200 d Hshort), append_empty.
    split; [lia |]. split; [reflexivity | lia].
Qed.

(** ** What the steps of a lookup throw *)

Lemma settles_with_bind {A B} (P : B -> Prop) (Q : thrown -> Prop)
  (m : result A) (k : A -> result B) :
  settles_with (fun _ => True) Q m ->
  (forall a, settles_with P Q (k a)) ->
  settles_with P Q (bind m k).
Proof.
  intros Hm Hk. destruct m as [a | e]; [apply Hk | exact Hm].
Qed.

Lemma error_has_message (cls : error_class) (message : string) :
  has_message (ErrorObject cls message).
Proof. now exists message. Qed.

Lemma get_settles (v : value) (k : string) :
  settles_with (fun _ => True) has_message (get v k).
Proof. destruct v; cbn; try exact I; apply error_has_message. Qed.

Lemma get_opt_settles (v : value) (k : string) :
  settles_with (fun _ => True) has_message (get_opt v k).
Proof. destruct v; cbn; try exact I; apply error_has_message. Qed.

Lemma get_first_settles (v : value) :
  settles_with (fun _ => True) has_message (get_first v).
Proof. destruct v; cbn; try exact I; apply error_has_message. Qed.

Lemma await_settles (r : axios_result) :
  settles_with (fun _ => True) has_message (await r).
Proof. destruct r; cbn; [trivial | now eexists]. Qed.

Lemma find_elem_settles (pred : value -> result bool) (elems : list value) :
  (forall x, settles_with (fun _ => True) has_message (pred x)) ->
  settles_with (fun _ => True) has_message (find_elem pred elems).
Proof.
  intros Hpred. induction elems as [| x elems IH]; cbn; [trivial |].
  apply settles_with_bind; [apply Hpred |].
  intros [|]; [exact I | exact IH].
Qed.

Lemma find_identifier_settles (industryIdentifiers : value) (type : string) :
  settles_with (fun _ => True) has_message
    (googleBooksService.find_identifier industryIdentifiers type).
Proof.
  unfold googleBooksService.find_identifier.
  apply settles_with_bind; [| intros; apply get_opt_settles].
  destruct industryIdentifiers; cbn; try exact I; try apply error_has_message.
  apply find_elem_settles. intros x.
  apply settles_with_bind; [apply get_settles | intros; exact I].
Qed.

Lemma description_settles (description0 : value) :
  settles_with (fun _ => True) has_message
    (if truthy description0
     then googleBooksService.truncate_description description0
     else ret VNull).
Proof.
  destruct (truthy description0); [| exact I].
  destruct description0; cbn; try exact I; apply error_has_message.
Qed.

Create HintDb settles.

#[local] Hint Resolve get_settles get_first_settles await_settles
  find_identifier_settles description_settles : settles.

Ltac settle :=
  repeat lazymatch goal with
    | |- settles_with _ _ (bind _ _) =>
        apply settles_with_bind; [solve [auto with settles] | intros ?]
    | |- settles_with _ _ (if ?b then _ else _) => destruct b
    | |- settles_with _ _ (ret _) => reflexivity
    end.

Section GoogleBooksServiceProperties.

Variable axios_get : nat -> string -> get_params -> axios_result.

Local Notation lookup_volume := (googleBooksService.lookup_volume axios_get).
Local Notation searchBookByTitle := (googleBooksService.searchBookByTitle axios_get).
Local Notation enrichTitles := (googleBooksService.enrichTitles axios_get).
Local Notation lookup_failed := googleBooksService.lookup_failed.
Local Notation volumes_url := googleBooksService.volumes_url.
Local Notation search_params := googleBooksService.search_params.
Local Notation find_identifier := googleBooksService.find_identifier.
Local Notation truncate_description := googleBooksService.truncate_description.

(** *** Every lookup settles with a record that echoes its title *)

Lemma lookup_volume_settles (n : nat) (title : string) :
  settles_with (echoes title) has_message (lookup_volume n title).
Proof.
  unfold googleBooksService.lookup_volume. settle.
Qed.

Lemma searchBookByTitle_echoes (n : nat) (title : string) :
  exists record, searchBookByTitle n title = Ok record /\ echoes title record.
Proof.
  unfold googleBooksService.searchBookByTitle, try_catch.
  pose proof (lookup_volume_settles n title) as H.
  destruct (lookup_volume n title) as [record | e]; cbn in H.
  - now exists record.
  - destruct H as [message Hmessage].
    unfold googleBooksService.lookup_failed. rewrite Hmessage.
    eexists. split; reflexivity.
Qed.

Lemma enrich_from (i : nat) (titles : list string) :
  exists books,
    Promise_all (mapi_from i searchBookByTitle titles) = Ok books /\
    Forall2 echoes titles books.
Proof.
  revert i. induction titles as [| title titles IH]; intros i.
  - exists []. split; [reflexivity | constructor].
  - destruct (searchBookByTitle_echoes i title) as (record & Hrecord & Hecho).
    destruct (IH (S i)) as (books & Hbooks & Hall).
    exists (record :: books). split; [| now constructor].
    cbn [mapi_from Promise_all]. rewrite Hrecord. cbn [bind].
    rewrite Hbooks. reflexivity.
Qed.

Lemma Forall2_nth_error {A B} (R : A -> B -> Prop) (xs : list A) (ys : list B) :
  Forall2 R xs ys ->
  forall i x, nth_error xs i = Some x -> exists y, nth_error ys i = Some y /\ R x y.
Proof.
  induction 1 as [| x0 y0 xs ys Hxy Hall IH]; intros [| i] x Hx; try discriminate.
  - injection Hx as <-. now exists y0.
  - now apply IH.
Qed.

(** C1: for every list of titles, and however each lookup settles, the
    enrichment returns a list of the same length whose i-th record has the
    i-th title as its title. *)
Theorem enrichment_keeps_count_and_order (titles : list string) :
  exists books,
    enrichTitles titles = Ok books /\
    List.length books = List.length titles /\
    Forall2 echoes titles books /\
    (forall i title,
        nth_error titles i = Some title ->
        exists record,
          nth_error books i = Some record /\
          get record "title" = Ok (VStr title)).
Proof.
  destruct (enrich_from 0 titles) as (books & Hbooks & Hall).
  exists books. split; [exact Hbooks |].
  split; [symmetry; exact (Forall2_length Hall) |].
  split; [exact Hall |].
  exact (Forall2_nth_error _ _ _ Hall).
Qed.

(** *** Found matches *)

Lemma found_is_looked_up (n : nat) (title : string) (record : value) :
  searchBookByTitle n title = Ok record ->
  found record ->
  lookup_volume n title = Ok record.
Proof.
  unfold googleBooksService.searchBookByTitle, try_catch, found.
  destruct (lookup_volume n title) as [record' | e]; [trivial |].
  unfold googleBooksService.lookup_failed.
  destruct (thrown_message e) as [message | e']; cbn; [| discriminate].
  intros [= <-]. discriminate.
Qed.

(** The description and the ISBNs of a found match, from the volume
    description of the first item of the response. *)
Lemma found_record (n : nat) (title : string) (response volumeInfo record : value) :
  axios_get n volumes_url (search_params title) = Resolve response ->
  matched_volumeInfo response = Ok volumeInfo ->
  searchBookByTitle n title = Ok record ->
  found record ->
  exists industryIdentifiers0 description0 isbn10 isbn13 description,
    get volumeInfo "industryIdentifiers" = Ok industryIdentifiers0 /\
    find_identifier (js_or industryIdentifiers0 (VArr [])) "ISBN_10" = Ok isbn10 /\
    find_identifier (js_or industryIdentifiers0 (VArr [])) "ISBN_13" = Ok isbn13 /\
    get volumeInfo "description" = Ok description0 /\
    (if truthy description0 then truncate_description description0 else ret VNull)
    = Ok description /\
    get record "description" = Ok description /\
    get record "isbn10" = Ok isbn10 /\
    get record "isbn13" = Ok isbn13.
Proof.
  intros Hresponse Hvolume Hsearch Hfound.
  pose proof (found_is_looked_up _ _ _ Hsearch Hfound) as H.
  unfold googleBooksService.lookup_volume in H.
  rewrite Hresponse in H. cbn [await bind] in H.
  unfold matched_volumeInfo in Hvolume.
  destruct (get response "data") as [data |] eqn:Hdata; [| discriminate].
  cbn [bind] in H, Hvolume.
  destruct (get data "items") as [items |] eqn:Hitems; [| discriminate].
  cbn [bind] in Hvolume.
  destruct (get_first items) as [book |] eqn:Hbook; [| discriminate].
  cbn [bind] in Hvolume.
  destruct (get book "volumeInfo") as [volumeInfo0 |] eqn:Hinfo; [| discriminate].
  cbn [bind ret] in Hvolume. injection Hvolume as <-.
  destruct (get data "totalItems") as [totalItems |]; [| discriminate].
  cbn [bind] in H.
  destruct (is_zero totalItems).
  { injection H as <-. discriminate Hfound. }
  cbn [bind] in H.
  rewrite Hbook in H. cbn [bind] in H.
  rewrite Hinfo in H. cbn [bind] in H. cbv zeta in H.
  repeat lazymatch type of H with
    | bind ?m _ = Ok _ =>
        let E := fresh "E" in
        destruct m eqn:E; cbn [bind] in H; [| discriminate H]
    end.
  injection H as <-.
  eexists _, _, _, _, _.
  repeat split; try eassumption; reflexivity.
Qed.

Lemma find_elem_first_typed (type : string) (entries : list value) (id : value) :
  find_elem (fun id => t <- get id "type" ;; ret (is_string type t)) entries = Ok id ->
  match first_typed type entries with
  | Some entry => id = entry /\ exists props, entry = VObj props
  | None => id = VUndefined
  end.
Proof.
  unfold first_typed.
  induction entries as [| x entries IH]; cbn [find_elem List.find].
  - now intros [= <-].
  - unfold typed at 1.
    destruct (get x "type") as [t |] eqn:Ht; cbn [bind ret]; [| discriminate].
    destruct (is_string type t) eqn:Hstring; [| exact IH].
    intros [= <-]. split; [reflexivity |].
    destruct x; try (cbn in Ht; injection Ht as <-; discriminate Hstring);
      try discriminate Ht.
    now eexists.
Qed.

(** [find_identifier] on an identifier list: the identifier of the first
    entry of the type, [undefined] when there is none. *)
Lemma find_identifier_first_typed (type : string) (entries : list value) (isbn : value) :
  find_identifier (VArr entries) type = Ok isbn ->
  match first_typed type entries with
  | Some entry => get entry "identifier" = Ok isbn
  | None => isbn = VUndefined
  end.
Proof.
  unfold googleBooksService.find_identifier, Array_find.
  destruct (find_elem _ entries) as [id |] eqn:Hfind; cbn [bind]; [| discriminate].
  apply find_elem_first_typed in Hfind.
  destruct (first_typed type entries) as [entry |].
  - destruct Hfind as (-> & props & ->). trivial.
  - subst id. now intros [= <-].
Qed.

(** C8, as the code has it: in a found match a description that is a
    non-empty string d becomes d when d has at most 200 characters and the
    first 200 characters of d followed by "..." otherwise, 203 characters
    then and never more; an absent or empty description becomes null. *)
Theorem description_is_truncated (n : nat) (title : string)
  (response volumeInfo record : value) :
  axios_get n volumes_url (search_params title) = Resolve response ->
  matched_volumeInfo response = Ok volumeInfo ->
  searchBookByTitle n title = Ok record ->
  found record ->
  (forall d,
      get volumeInfo "description" = Ok (VStr d) ->
      d <> EmptyString ->
      exists t,
        get record "description" = Ok (VStr t) /\
        String.length t <= 203 /\
        (String.length d <= 200 -> t = d) /\
        (200 < String.length d ->
         t = substring 0 200 d ++ "..." /\ String.length t = 203)) /\
  (get volumeInfo "description" = Ok (VStr EmptyString) ->
   get record "description" = Ok VNull) /\
  (get volumeInfo "description" = Ok VUndefined ->
   get record "description" = Ok VNull).
Proof.
  intros Hresponse Hvolume Hsearch Hfound.
  destruct (found_record _ _ _ _ _ Hresponse Hvolume Hsearch Hfound)
    as (ids0 & description0 & isbn10 & isbn13 & description
        & _ & _ & _ & Hd0 & Hd & Hrecord & _).
  rewrite Hrecord. split; [| split].
  - intros d Hdesc Hne. rewrite Hd0 in Hdesc. injection Hdesc as ->.
    destruct d as [| c d]; [contradiction |].
    cbn [truthy String.eqb negb] in Hd.
    destruct (truncate_description_string (String c d)) as (t & Ht & Hlen).
    rewrite Ht in Hd. injection Hd as <-. now exists t.
  - intros Hdesc. rewrite Hd0 in Hdesc. injection Hdesc as ->.
    cbn in Hd. now injection Hd as <-.
  - intros Hdesc. rewrite Hd0 in Hdesc. injection Hdesc as ->.
    cbn in Hd. now injection Hd as <-.
Qed.

(** C9, as the code has it: in a found match isbn10 is the identifier of
    the first entry of the identifier list whose type is "ISBN_10" and
    isbn13 that of the first entry whose type is "ISBN_13"; each is
    undefined, not null, when the list has no entry of the type or is
    absent. *)
Theorem isbns_are_first_of_type (n : nat) (title : string)
  (response volumeInfo record : value) (entries : list value) :
  axios_get n volumes_url (search_params title) = Resolve response ->
  matched_volumeInfo response = Ok volumeInfo ->
  searchBookByTitle n title = Ok record ->
  found record ->
  identifier_list volumeInfo entries ->
  (forall entry,
      first_typed "ISBN_10" entries = Some entry ->
      get record "isbn10" = get entry "identifier") /\
  (first_typed "ISBN_10" entries = None -> get record "isbn10" = Ok VUndefined) /\
  (forall entry,
      first_typed "ISBN_13" entries = Some entry ->
      get record "isbn13" = get entry "identifier") /\
  (first_typed "ISBN_13" entries = None -> get record "isbn13" = Ok VUndefined).
Proof.
  intros Hresponse Hvolume Hsearch Hfound Hlist.
  destruct (found_record _ _ _ _ _ Hresponse Hvolume Hsearch Hfound)
    as (ids0 & description0 & isbn10 & isbn13 & description
        & Hids0 & H10 & H13 & _ & _ & _ & Hr10 & Hr13).
  assert (Hids : js_or ids0 (VArr []) = VArr entries).
  { destruct Hlist as [Harray | [Habsent ->]].
    - rewrite Hids0 in Harray. now injection Harray as ->.
    - rewrite Hids0 in Habsent. now injection Habsent as ->. }
  rewrite Hids in H10, H13.
  apply find_identifier_first_typed in H10, H13.
  rewrite Hr10, Hr13.
  repeat split.
  - intros entry Hentry. rewrite Hentry in H10. now symmetry.
  - intros Hnone. rewrite Hnone in H10. now subst.
  - intros entry Hentry. rewrite Hentry in H13. now symmetry.
  - intros Hnone. rewrite Hnone in H13. now subst.
Qed.

End GoogleBooksServiceProperties.

(** ** Lookups on concrete responses *)

(** Three lookups that find a volume, find none and fail keep their places. *)
Lemma enrichment_keeps_count_and_order_witness :
  exists books,
    googleBooksService.enrichTitles Example.mixed ["Dune"; "No such book"; "Dune"]
    = Ok books /\
    List.length books = 3 /\
    Forall2 echoes ["Dune"; "No such book"; "Dune"] books /\
    (forall i title,
        nth_error ["Dune"; "No such book"; "Dune"] i = Some title ->
        exists record,
          nth_error books i = Some record /\
          get record "title" = Ok (VStr title)).
Proof.
  exact (enrichment_keeps_count_and_order Example.mixed
           ["Dune"; "No such book"; "Dune"]).
Defined.

Example enrichment_of_mixed_lookups :
  exists found_record,
    googleBooksService.enrichTitles Example.mixed ["Dune"; "No such book"; "Dune"]
    = Ok [found_record;
          VObj [("title", VStr "No such book"); ("found", VBool false)];
          VObj [("title", VStr "Dune"); ("found", VBool false);
                ("error", VStr "Network Error")]] /\
    found found_record /\ echoes "Dune" found_record.
Proof.
  eexists. split; [reflexivity | split; reflexivity].
Qed.

(** A short description is kept; a description of 201 characters becomes
    200 characters and the marker. *)
Lemma description_is_truncated_witness :
  (exists record,
      googleBooksService.searchBookByTitle (Example.finding Example.dune) 0 "Dune"
      = Ok record /\
      get record "description" = Ok (VStr "A desert planet.")) /\
  (exists record,
      googleBooksService.searchBookByTitle
        (Example.finding Example.with_long_description) 0 "Emma" = Ok record /\
      get record "description"
      = Ok (VStr (substring 0 200 Example.long_description ++ "..."))).
Proof.
  split.
  - eexists. split; [reflexivity |].
    destruct (description_is_truncated (Example.finding Example.dune) 0 "Dune"
                _ (VObj Example.dune) _ eq_refl eq_refl eq_refl eq_refl)
      as (Hdescription & _).
    destruct (Hdescription "A desert planet." eq_refl) as (t & Ht & _ & Hshort & _);
      [discriminate |].
    rewrite Ht, Hshort; [reflexivity | cbn; lia].
  - eexists. split; [reflexivity |].
    destruct (description_is_truncated
                (Example.finding Example.with_long_description) 0 "Emma"
                _ (VObj Example.with_long_description) _
                eq_refl eq_refl eq_refl eq_refl)
      as (Hdescription & _).
    destruct (Hdescription Example.long_description eq_refl)
      as (t & Ht & _ & _ & Hlong); [discriminate |].
    destruct Hlong as [-> _]; [cbn; lia |]. exact Ht.
Defined.

(** A description of 201 characters comes out 203 characters long, more
    than 200; and an empty description, present as it is, comes out null. *)
Lemma description_longer_than_200_counterexample :
  (exists record t,
      googleBooksService.searchBookByTitle
        (Example.finding Example.with_long_description) 0 "Emma" = Ok record /\
      found record /\
      matched_volumeInfo (VObj [("data", VObj [("items",
        VArr [VObj [("volumeInfo", VObj Example.with_long_description)]])])])
      = Ok (VObj Example.with_long_description) /\
      String.length Example.long_description = 201 /\
      get record "description" = Ok (VStr t) /\
      String.length t = 203 /\
      ~ String.length t <= 200) /\
  (exists record,
      googleBooksService.searchBookByTitle
        (Example.finding Example.with_empty_description) 0 "Emma" = Ok record /\
      found record /\
      get record "description" = Ok VNull /\
      get record "description" <> Ok (VStr EmptyString)).
Proof.
  split.
  - eexists _, _. repeat split; try reflexivity.
    vm_compute. lia.
  - eexists. repeat split; try reflexivity. discriminate.
Qed.

(** The first entry of each type gives the ISBN, whatever comes before and
    after it. *)
Lemma isbns_are_first_of_type_witness :
  exists record,
    googleBooksService.searchBookByTitle (Example.finding Example.dune) 0 "Dune"
    = Ok record /\
    get record "isbn10" = Ok (VStr "0441013593") /\
    get record "isbn13" = Ok (VStr "9780441013593").
Proof.
  eexists. split; [reflexivity |].
  destruct (isbns_are_first_of_type (Example.finding Example.dune) 0 "Dune"
              _ (VObj Example.dune) _
              [VObj [("type", VStr "ISBN_13"); ("identifier", VStr "9780441013593")];
               VObj [("type", VStr "ISBN_10"); ("identifier", VStr "0441013593")];
               VObj [("type", VStr "ISBN_10"); ("identifier", VStr "0000000000")]]
              eq_refl eq_refl eq_refl eq_refl (or_introl eq_refl))
    as (H10 & _ & H13 & _).
  split; [exact (H10 _ eq_refl) | exact (H13 _ eq_refl)].
Defined.

(** Without an entry of the type, and without an identifier list, the
    ISBNs of a found match are undefined, not null. *)
Lemma isbn_undefined_counterexample :
  (exists record,
      googleBooksService.searchBookByTitle
        (Example.finding Example.without_identifiers) 0 "Emma" = Ok record /\
      found record /\
      get record "isbn10" = Ok VUndefined /\
      get record "isbn10" <> Ok VNull /\
      get record "isbn13" = Ok VUndefined /\
      get record "isbn13" <> Ok VNull) /\
  (exists record,
      googleBooksService.searchBookByTitle
        (Example.finding Example.with_other_identifier) 0 "Emma" = Ok record /\
      found record /\
      get record "isbn10" = Ok VUndefined /\
      get record "isbn10" <> Ok VNull /\
      get record "isbn13" = Ok VUndefined /\
      get record "isbn13" <> Ok VNull).
Proof.
  split; eexists; repeat split; try reflexivity; discriminate.
Qed.

(** * Further properties of the code *)

(** ** The pattern, on what it finds *)

Lemma upto_last_closed (c : ascii) (body after : string) :
  (forall j, String.get j after <> Some c) ->
  upto_last c ((body ++ String c EmptyString) ++ after)
  = Some (body ++ String c EmptyString).
Proof.
  intros Hafter. induction body as [| a body IH]; cbn [append upto_last].
  - rewrite (proj2 (upto_last_none c after) Hafter).
    now rewrite Ascii.eqb_refl.
  - now rewrite IH.
Qed.

Lemma no_char_in_empty (c : ascii) : forall j, String.get j EmptyString <> Some c.
Proof. intros [| j]; discriminate. Qed.

Lemma json_here_closed (open close : ascii) (body after : string) :
  ((open = "[" /\ close = "]") \/ (open = "{" /\ close = "}"))%char ->
  (forall j, String.get j after <> Some close) ->
  json_here (String open (body ++ String close EmptyString) ++ after)
  = Some (String open (body ++ String close EmptyString)).
Proof.
  intros Hkind Hafter. unfold json_here, delimited. cbn [append].
  destruct Hkind as [[-> ->] | [-> ->]]; cbn [Ascii.eqb Bool.eqb];
    now rewrite (upto_last_closed _ body after Hafter).
Qed.

Lemma jsonMatch_skips (before rest : string) :
  (forall j, String.get j before <> Some "["%char) ->
  (forall j, String.get j before <> Some "{"%char) ->
  jsonMatch (before ++ rest) = jsonMatch rest.
Proof.
  induction before as [| a before IH]; intros Hbracket Hbrace; [reflexivity |].
  cbn [append].
  change (jsonMatch (String a (before ++ rest)))
    with (match json_here (String a (before ++ rest)) with
          | Some m => Some m
          | None => jsonMatch (before ++ rest)
          end).
  assert (Ha1 : Ascii.eqb a "[" = false).
  { apply Ascii.eqb_neq. intros ->. now apply (Hbracket 0). }
  assert (Ha2 : Ascii.eqb a "{" = false).
  { apply Ascii.eqb_neq. intros ->. now apply (Hbrace 0). }
  unfold json_here, delimited. rewrite Ha1, Ha2.
  apply IH; intros j; [apply (Hbracket (S j)) | apply (Hbrace (S j))].
Qed.

(** X1: what the pattern finds is a piece of the model output that runs
    from an opening bracket to the last closing bracket after it, or from an
    opening brace to the last closing brace after it; no such piece starts
    earlier in the output; and the pattern finds the piece again in the
    piece itself. *)
Theorem pattern_match_is_leftmost_and_greedy (content m : string) :
  jsonMatch content = Some m ->
  exists before body after,
    content = before ++ m ++ after /\
    ((m = String "[" (body ++ "]") /\ forall j, String.get j after <> Some "]"%char) \/
     (m = String "{" (body ++ "}") /\ forall j, String.get j after <> Some "}"%char)) /\
    (forall b1 a b2, before = b1 ++ String a b2 ->
                     json_here (String a b2 ++ m ++ after) = None) /\
    jsonMatch m = Some m.
Proof.
  intros Hmatch.
  destruct (jsonMatch_some _ _ Hmatch) as (before & body & after & Hcontent & Hkind & Hleft).
  exists before, body, after. repeat split; try assumption.
  assert (Hhere : json_here m = Some m).
  { destruct Hkind as [[-> _] | [-> _]].
    - rewrite <- (append_empty (String "[" (body ++ "]"))) at 1.
      apply json_here_closed; [now left | apply no_char_in_empty].
    - rewrite <- (append_empty (String "{" (body ++ "}"))) at 1.
      apply json_here_closed; [now right | apply no_char_in_empty]. }
  destruct m as [| a m']; [destruct Hkind as [[H _] | [H _]]; discriminate |].
  change (jsonMatch (String a m'))
    with (match json_here (String a m') with
          | Some m => Some m
          | None => jsonMatch m'
          end).
  now rewrite Hhere.
Qed.

(** X2: a JSON array or object is found in the prose around it: when the
    text before it has neither a bracket nor a brace and the text after it
    has no closing bracket (for an array) or no closing brace (for an
    object), the pattern finds exactly the array or the object. *)
Theorem json_is_found_in_prose (before body after : string) :
  (forall j, String.get j before <> Some "["%char) ->
  (forall j, String.get j before <> Some "{"%char) ->
  ((forall j, String.get j after <> Some "]"%char) ->
   jsonMatch (before ++ String "[" (body ++ "]") ++ after)
   = Some (String "[" (body ++ "]"))) /\
  ((forall j, String.get j after <> Some "}"%char) ->
   jsonMatch (before ++ String "{" (body ++ "}") ++ after)
   = Some (String "{" (body ++ "}"))).
Proof.
  intros Hbracket Hbrace. split; intros Hafter.
  - rewrite (jsonMatch_skips _ _ Hbracket Hbrace).
    assert (Hhere := json_here_closed "[" "]" body after (or_introl (conj eq_refl eq_refl))
                       Hafter).
    cbn [append] in *.
    change (jsonMatch (String "[" ((body ++ "]") ++ after)))
      with (match json_here (String "[" ((body ++ "]") ++ after)) with
            | Some m => Some m
            | None => jsonMatch ((body ++ "]") ++ after)
            end).
    now rewrite Hhere.
  - rewrite (jsonMatch_skips _ _ Hbracket Hbrace).
    assert (Hhere := json_here_closed "{" "}" body after (or_intror (conj eq_refl eq_refl))
                       Hafter).
    cbn [append] in *.
    change (jsonMatch (String "{" ((body ++ "}") ++ after)))
      with (match json_here (String "{" ((body ++ "}") ++ after)) with
            | Some m => Some m
            | None => jsonMatch ((body ++ "}") ++ after)
            end).
    now rewrite Hhere.
Qed.

(** ** The records of [scanBooks], whatever the elements are *)

Lemma js_or_truthy (a b : value) : truthy b = true -> truthy (js_or a b) = true.
Proof. unfold js_or. destruct (truthy a) eqn:E; auto. Qed.

Lemma js_or_null (a : value) : js_or a VNull = VNull \/ truthy (js_or a VNull) = true.
Proof. unfold js_or. destruct (truthy a) eqn:E; auto. Qed.

Lemma toBook_nullish (book : value) :
  nullish book -> toBook book = Err (cannot_read book "title").
Proof. intros [-> | ->]; reflexivity. Qed.

Lemma toBook_well_formed (book record : value) :
  toBook book = Ok record -> well_formed_record record.
Proof.
  assert (Hobject : forall props record,
             toBook (VObj props) = Ok record -> well_formed_record record).
  { intros props r. rewrite toBook_object. intros [= <-].
    eexists _, _, _, _, _. split; [reflexivity |].
    repeat split; try (apply js_or_truthy; reflexivity); try apply js_or_null.
    destruct (truthy (lookup "page_count" props)) eqn:E; [now right | apply js_or_null]. }
  destruct book; try discriminate; try exact (Hobject _ _);
    intros [= <-]; exact (Hobject [] _ eq_refl).
Qed.

Lemma toBook_no_member (book : value) :
  no_member book = true -> toBook book = Ok default_record.
Proof. destruct book; try discriminate; reflexivity. Qed.

Lemma map_elems_length (f : value -> result value) (elems books : list value) :
  map_elems f elems = Ok books -> List.length books = List.length elems.
Proof.
  revert books. induction elems as [| x elems IH]; intros books; cbn [map_elems].
  - now intros [= <-].
  - destruct (f x) as [y |]; cbn [bind]; [| discriminate].
    destruct (map_elems f elems) as [ys |]; cbn [bind ret]; [| discriminate].
    intros [= <-]. cbn. now rewrite (IH ys).
Qed.

Lemma map_elems_Forall (f : value -> result value) (P : value -> Prop)
  (elems books : list value) :
  (forall x y, f x = Ok y -> P y) ->
  map_elems f elems = Ok books -> Forall P books.
Proof.
  intros Hf. revert books. induction elems as [| x elems IH]; intros books; cbn [map_elems].
  - intros [= <-]. constructor.
  - destruct (f x) as [y |] eqn:Hy; cbn [bind]; [| discriminate].
    destruct (map_elems f elems) as [ys |]; cbn [bind ret]; [| discriminate].
    intros [= <-]. constructor; [now apply (Hf x) | now apply IH].
Qed.

Lemma map_elems_total (f : value -> result value) (elems : list value) :
  Forall (fun x => exists y, f x = Ok y) elems ->
  exists books, map_elems f elems = Ok books.
Proof.
  induction 1 as [| x elems [y Hy] _ [ys Hys]]; cbn [map_elems].
  - now exists [].
  - rewrite Hy. cbn [bind]. rewrite Hys. now eexists.
Qed.

(** The first element on which the callback throws ends the mapping. *)
Lemma map_elems_first_error (f : value -> result value) (bad : value -> Prop)
  (elems : list value) :
  (forall x, bad x \/ exists y, f x = Ok y) ->
  Exists bad elems ->
  exists x, In x elems /\ bad x /\ (forall e, f x = Err e -> map_elems f elems = Err e).
Proof.
  intros Hf. induction 1 as [x elems Hbad | x elems Hex IH].
  - destruct (Hf x) as [_ | [y Hy]].
    + exists x. split; [now left |]. split; [exact Hbad |].
      intros e He. cbn [map_elems]. now rewrite He.
    + exists x. split; [now left |]. split; [exact Hbad |].
      intros e He. congruence.
  - destruct (Hf x) as [Hbad | [y Hy]].
    + exists x. split; [now left |]. split; [exact Hbad |].
      intros e He. cbn [map_elems]. now rewrite He.
    + destruct IH as (x' & Hin & Hbad' & Herr).
      exists x'. split; [now right |]. split; [exact Hbad' |].
      intros e He. cbn [map_elems]. rewrite Hy. cbn [bind].
      now rewrite (Herr e He).
Qed.

Lemma map_elems_constant (f : value -> result value) (y : value) (elems : list value) :
  Forall (fun x => f x = Ok y) elems ->
  map_elems f elems = Ok (map (fun _ => y) elems).
Proof.
  induction 1 as [| x elems Hx _ IH]; cbn [map_elems map]; [reflexivity |].
  rewrite Hx. cbn [bind]. now rewrite IH.
Qed.

Lemma message_content_settles (response : value) :
  settles_with (fun _ => True) has_message (message_content_of response).
Proof. unfold message_content_of. settle; auto with settles. Qed.

Section OpenAIServiceEdges.

Variables apiKey baseURL : string.
Variable Buffer_from_base64 : string -> result Buffer.
Variable Buffer_toString_base64 : Buffer -> result string.
Variable sharp_resize_jpeg : Buffer -> Z -> Z -> resize_options -> Z -> result Buffer.
Variable axios_post : string -> requestBody -> post_config -> axios_result.
Variable JSON_parse : string -> result value.

Local Notation compress_pipeline :=
  (openaiService.compress_pipeline Buffer_from_base64 Buffer_toString_base64
     sharp_resize_jpeg).
Local Notation compressImage :=
  (openaiService.compressImage Buffer_from_base64 Buffer_toString_base64
     sharp_resize_jpeg).
Local Notation scanBooks :=
  (openaiService.scanBooks apiKey baseURL Buffer_from_base64 Buffer_toString_base64
     sharp_resize_jpeg axios_post JSON_parse).
Local Notation extractBookTitles :=
  (openaiService.extractBookTitles apiKey baseURL Buffer_from_base64
     Buffer_toString_base64 sharp_resize_jpeg axios_post JSON_parse).
Local Notation scanBooks_call :=
  (openaiService.scanBooks_call apiKey baseURL Buffer_from_base64
     Buffer_toString_base64 sharp_resize_jpeg axios_post).
Local Notation extractBookTitles_call :=
  (openaiService.extractBookTitles_call apiKey baseURL Buffer_from_base64
     Buffer_toString_base64 sharp_resize_jpeg axios_post).
Local Notation scanBooks_output :=
  (openaiService.scanBooks_output apiKey baseURL Buffer_from_base64
     Buffer_toString_base64 sharp_resize_jpeg axios_post).
Local Notation extractBookTitles_output :=
  (openaiService.extractBookTitles_output apiKey baseURL Buffer_from_base64
     Buffer_toString_base64 sharp_resize_jpeg axios_post).
Local Notation sendMessage := (openaiService.sendMessage apiKey baseURL axios_post).
Local Notation analyzeImage :=
  (openaiService.analyzeImage apiKey baseURL Buffer_from_base64 Buffer_toString_base64
     sharp_resize_jpeg axios_post).
Local Notation plain_config := (openaiService.plain_config apiKey).
Local Notation scanBooks_config := (openaiService.scanBooks_config apiKey).
Local Notation extractBookTitles_config := (openaiService.extractBookTitles_config apiKey).

Lemma scanBooks_array (imageBase64 content jsonString : string) (elems : list value) :
  scanBooks_output imageBase64 content ->
  jsonMatch content = Some jsonString ->
  JSON_parse jsonString = Ok (VArr elems) ->
  scanBooks imageBase64 =
  try_catch (books <- map_elems toBook elems ;; ret (VArr books)) translate_timeout.
Proof.
  intros Hout Hmatch Hparse.
  rewrite (scanBooks_parsed _ _ _ _ _ _ _ _ _ _ _ Hout Hmatch Hparse).
  reflexivity.
Qed.

(** X3: when the model output parses to an array, every result of
    [scanBooks] is an array with one record per element, in which the title
    and the author are never empty and the isbn, the genre and the page
    count are null or truthy. *)
Theorem scanBooks_records_are_well_formed (imageBase64 content jsonString : string)
  (elems : list value) (books : value) :
  scanBooks_output imageBase64 content ->
  jsonMatch content = Some jsonString ->
  JSON_parse jsonString = Ok (VArr elems) ->
  scanBooks imageBase64 = Ok books ->
  exists records,
    books = VArr records /\
    List.length records = List.length elems /\
    Forall well_formed_record records.
Proof.
  intros Hout Hmatch Hparse. rewrite (scanBooks_array _ _ _ _ Hout Hmatch Hparse).
  destruct (map_elems toBook elems) as [records |] eqn:Hmap; cbn [bind ret try_catch].
  - intros [= <-]. exists records. split; [reflexivity |].
    split; [exact (map_elems_length _ _ _ Hmap) |].
    exact (map_elems_Forall _ _ _ _ toBook_well_formed Hmap).
  - unfold translate_timeout. destruct (thrown_code e) as [code |]; cbn [bind].
    + destruct (is_string "ECONNABORTED" code); discriminate.
    + discriminate.
Qed.

(** X4: [scanBooks] succeeds on a parsed array exactly when no element is
    null: with none it returns the records, and with one the whole
    extraction fails with the TypeError of reading the title of that
    element. *)
Theorem null_element_fails_the_extraction (imageBase64 content jsonString : string)
  (elems : list value) :
  scanBooks_output imageBase64 content ->
  jsonMatch content = Some jsonString ->
  JSON_parse jsonString = Ok (VArr elems) ->
  (Forall (fun x => ~ nullish x) elems ->
   exists records, scanBooks imageBase64 = Ok (VArr records)) /\
  (Exists nullish elems ->
   exists x, In x elems /\ nullish x /\
             scanBooks imageBase64 = Err (cannot_read x "title")).
Proof.
  intros Hout Hmatch Hparse. rewrite (scanBooks_array _ _ _ _ Hout Hmatch Hparse).
  assert (Hcases : forall x, nullish x \/ exists y, toBook x = Ok y).
  { intros x. destruct x; try (right; eexists; reflexivity);
      try (left; unfold nullish; auto; fail).
    right. rewrite toBook_object. now eexists. }
  split.
  - intros Hall.
    destruct (map_elems_total toBook elems) as [records Hrecords].
    { revert Hall. apply Forall_impl. intros x Hx.
      destruct (Hcases x) as [Hnull | Hok]; [contradiction | exact Hok]. }
    exists records. now rewrite Hrecords.
  - intros Hex.
    destruct (map_elems_first_error toBook nullish elems Hcases Hex)
      as (x & Hin & Hnull & Herr).
    exists x. split; [exact Hin |]. split; [exact Hnull |].
    rewrite (Herr _ (toBook_nullish x Hnull)). reflexivity.
Qed.

(** X5: an element that is a string, a number, a boolean or an array has
    none of the members, so an array of such elements, as an array of title
    strings is, comes back as that many records of defaults: "Unknown
    Title", "Unknown Author" and null three times. *)
Theorem elements_without_members_get_defaults (imageBase64 content jsonString : string)
  (elems : list value) :
  scanBooks_output imageBase64 content ->
  jsonMatch content = Some jsonString ->
  JSON_parse jsonString = Ok (VArr elems) ->
  Forall (fun x => no_member x = true) elems ->
  scanBooks imageBase64 = Ok (VArr (map (fun _ => default_record) elems)).
Proof.
  intros Hout Hmatch Hparse Hall.
  rewrite (scanBooks_array _ _ _ _ Hout Hmatch Hparse).
  rewrite (map_elems_constant toBook default_record elems); [reflexivity |].
  revert Hall. apply Forall_impl. exact toBook_no_member.
Qed.

(** X6: an object without a truthy [error], as a reply that wraps the list
    in an object is, is no book list: [scanBooks] fails with "Unexpected
    response format", and so does [extractBookTitles] on every object. *)
Theorem object_is_unexpected_format (imageBase64 content jsonString : string)
  (props : list (string * value)) :
  jsonMatch content = Some jsonString ->
  JSON_parse jsonString = Ok (VObj props) ->
  (scanBooks_output imageBase64 content ->
   truthy (lookup "error" props) = false ->
   scanBooks imageBase64 = Err unexpected_format) /\
  (extractBookTitles_output imageBase64 content ->
   extractBookTitles imageBase64 = Err unexpected_format).
Proof.
  intros Hmatch Hparse. split.
  - intros Hout Hfalsy.
    rewrite (scanBooks_parsed _ _ _ _ _ _ _ _ _ _ _ Hout Hmatch Hparse).
    unfold openaiService.books_of, get.
    cbn [typeof_object Array_isArray negb andb bind ret].
    rewrite Hfalsy. reflexivity.
  - intros Hout.
    rewrite (extractBookTitles_parsed _ _ _ _ _ _ _ _ _ _ _ Hout Hmatch Hparse).
    reflexivity.
Qed.

(** X7: a model answer whose content is null, or that has no choice at all,
    makes both vision operations fail with the TypeError of the first
    property read on nothing, which the catch block rethrows. *)
Theorem missing_content_is_a_type_error (imageBase64 : string) (response : value) :
  (message_content_of response = Ok VNull ->
   (scanBooks_call imageBase64 (Resolve response) ->
    scanBooks imageBase64 = Err (cannot_read VNull "match")) /\
   (extractBookTitles_call imageBase64 (Resolve response) ->
    extractBookTitles imageBase64 = Err (cannot_read VNull "match"))) /\
  (forall data,
      get response "data" = Ok data ->
      get data "choices" = Ok (VArr []) ->
      (scanBooks_call imageBase64 (Resolve response) ->
       scanBooks imageBase64 = Err (cannot_read VUndefined "message")) /\
      (extractBookTitles_call imageBase64 (Resolve response) ->
       extractBookTitles imageBase64 = Err (cannot_read VUndefined "message"))).
Proof.
  split.
  - intros Hcontent. split; intros Hcall.
    + rewrite (scanBooks_settled _ _ _ _ _ _ _ _ _ Hcall). cbn [await bind].
      rewrite Hcontent. reflexivity.
    + rewrite (extractBookTitles_settled _ _ _ _ _ _ _ _ _ Hcall). cbn [await bind].
      rewrite Hcontent. reflexivity.
  - intros data Hdata Hchoices.
    assert (Hcontent : message_content_of response = Err (cannot_read VUndefined "message")).
    { unfold message_content_of. rewrite Hdata. cbn [bind]. rewrite Hchoices. reflexivity. }
    split; intros Hcall.
    + rewrite (scanBooks_settled _ _ _ _ _ _ _ _ _ Hcall). cbn [await bind].
      rewrite Hcontent. reflexivity.
    + rewrite (extractBookTitles_settled _ _ _ _ _ _ _ _ _ Hcall). cbn [await bind].
      rewrite Hcontent. reflexivity.
Qed.

(** X8: the image that goes to the model is the compressed one when the
    compression succeeds and the uploaded one when it fails: each of the
    three operations with an image is its outbound call with that image in
    the request, followed by what the operation does with the answer. *)
Theorem request_carries_best_available_image (imageBase64 : string) :
  exists sent,
    compressImage imageBase64 = Ok sent /\
    (forall compressed, compress_pipeline imageBase64 = Ok compressed -> sent = compressed) /\
    (forall e, compress_pipeline imageBase64 = Err e -> sent = imageBase64) /\
    scanBooks imageBase64 =
    try_catch
      (response <- await (axios_post baseURL (openaiService.scanBooks_request sent)
                            scanBooks_config) ;;
       content <- message_content_of response ;;
       openaiService.extract_books JSON_parse content)
      translate_timeout /\
    extractBookTitles imageBase64 =
    try_catch
      (response <- await (axios_post baseURL (openaiService.extractBookTitles_request sent)
                            extractBookTitles_config) ;;
       content <- message_content_of response ;;
       openaiService.extract_titles JSON_parse content)
      translate_timeout /\
    (forall prompt,
        analyzeImage imageBase64 prompt =
        try_catch
          (response <- await (axios_post baseURL
                                (openaiService.analyzeImage_request sent prompt)
                                plain_config) ;;
           message_content_of response)
          openaiService.log_and_rethrow) /\
    In (image_url_part ("data:image/jpeg;base64," ++ sent))
      (request_parts (openaiService.scanBooks_request sent)) /\
    In (image_url_part ("data:image/jpeg;base64," ++ sent))
      (request_parts (openaiService.extractBookTitles_request sent)) /\
    (forall prompt,
        In (image_url_part ("data:image/jpeg;base64," ++ sent))
          (request_parts (openaiService.analyzeImage_request sent prompt))).
Proof.
  destruct (compressImage_returns Buffer_from_base64 Buffer_toString_base64
              sharp_resize_jpeg imageBase64) as [sent Hsent].
  exists sent. split; [exact Hsent |].
  pose proof Hsent as Hsent'.
  unfold openaiService.compressImage, try_catch in Hsent'.
  split; [| split].
  - intros compressed Hok. rewrite Hok in Hsent'. congruence.
  - intros e Herr. rewrite Herr in Hsent'. cbv [ret] in Hsent'. congruence.
  - split; [| split; [| split; [| split; [| split]]]].
    + unfold openaiService.scanBooks. rewrite Hsent. reflexivity.
    + unfold openaiService.extractBookTitles. rewrite Hsent. reflexivity.
    + intros prompt. unfold openaiService.analyzeImage. rewrite Hsent. reflexivity.
    + right. left. reflexivity.
    + right. left. reflexivity.
    + intros prompt. right. left. reflexivity.
Qed.

(** The catch block of [sendMessage] and [analyzeImage] rethrows what the
    call and the reading of the answer throw. *)
Lemma log_and_rethrow_message {A} (e : thrown) :
  match e with
  | Thrown _ => False
  | _ => True
  end ->
  @openaiService.log_and_rethrow A e = Err e.
Proof.
  destruct e as [cls message | code message [response |] | v]; try contradiction;
    intros _; try reflexivity.
  unfold openaiService.log_and_rethrow. cbn [thrown_response bind ret].
  destruct (truthy response) eqn:E; [| reflexivity].
  destruct response; try discriminate; reflexivity.
Qed.

Lemma message_content_throws_errors (response : value) (e : thrown) :
  message_content_of response = Err e ->
  match e with
  | Thrown _ => False
  | _ => True
  end.
Proof.
  unfold message_content_of.
  assert (Hget : forall v k e, get v k = Err e -> match e with Thrown _ => False | _ => True end).
  { intros [] k e0; cbn; intros [= <-]; exact I. }
  assert (Hfirst : forall v e, get_first v = Err e -> match e with Thrown _ => False | _ => True end).
  { intros [] e0; cbn; intros [= <-]; exact I. }
  destruct (get response "data") as [data |] eqn:E1; cbn [bind];
    [| intros [= <-]; exact (Hget _ _ _ E1)].
  destruct (get data "choices") as [choices |] eqn:E2; cbn [bind];
    [| intros [= <-]; exact (Hget _ _ _ E2)].
  destruct (get_first choices) as [choice |] eqn:E3; cbn [bind];
    [| intros [= <-]; exact (Hfirst _ _ E3)].
  destruct (get choice "message") as [message |] eqn:E4; cbn [bind];
    [| intros [= <-]; exact (Hget _ _ _ E4)].
  apply Hget.
Qed.

Lemma chat_try_is_transparent (r : axios_result) :
  try_catch (response <- await r ;; message_content_of response)
    openaiService.log_and_rethrow
  = (response <- await r ;; message_content_of response).
Proof.
  destruct r as [response | code text response]; cbn [await bind try_catch].
  - destruct (message_content_of response) as [content | e] eqn:E; [reflexivity |].
    apply log_and_rethrow_message. exact (message_content_throws_errors _ _ E).
  - now apply log_and_rethrow_message.
Qed.

(** X9: [sendMessage] and [analyzeImage] add nothing to their call and take
    nothing away: they return the content of the first choice as it is, and
    they fail with exactly what the call or the reading of the answer
    throws; a timeout is no exception, it stays the rejection of axios and
    does not become the 408 condition. *)
Theorem chat_operations_are_transparent (message systemPrompt imageBase64 prompt : string) :
  sendMessage message systemPrompt =
  (response <- await (axios_post baseURL
                        (openaiService.sendMessage_request message systemPrompt)
                        plain_config) ;;
   message_content_of response) /\
  (forall sent,
      compressImage imageBase64 = Ok sent ->
      analyzeImage imageBase64 prompt =
      (response <- await (axios_post baseURL
                            (openaiService.analyzeImage_request sent prompt)
                            plain_config) ;;
       message_content_of response)) /\
  (forall text response,
      axios_post baseURL (openaiService.sendMessage_request message systemPrompt)
        plain_config = Reject (Some "ECONNABORTED") text response ->
      sendMessage message systemPrompt
      = Err (AxiosError (Some "ECONNABORTED") text response) /\
      sendMessage message systemPrompt <> Err timed_out).
Proof.
  split; [apply chat_try_is_transparent |]. split.
  - intros sent Hsent. unfold openaiService.analyzeImage. rewrite Hsent. cbn [bind].
    apply chat_try_is_transparent.
  - intros text response Hreject.
    unfold openaiService.sendMessage. rewrite chat_try_is_transparent, Hreject.
    split; [reflexivity | discriminate].
Qed.

End OpenAIServiceEdges.

(** ** The records of a lookup *)

Lemma truncate_description_result (description0 description : value) :
  (if truthy description0
   then googleBooksService.truncate_description description0
   else ret VNull) = Ok description ->
  description = VNull \/ exists d, description = VStr d.
Proof.
  destruct (truthy description0).
  - destruct description0; try discriminate. intros [= <-]. right. now eexists.
  - intros [= <-]. now left.
Qed.

(** Induction on a value and on the elements of its arrays. *)
Lemma value_nested_ind (P : value -> Prop) :
  P VUndefined -> P VNull -> (forall b, P (VBool b)) -> (forall n, P (VNum n)) ->
  (forall s, P (VStr s)) ->
  (forall elems, Forall P elems -> P (VArr elems)) ->
  (forall props, P (VObj props)) ->
  forall v, P v.
Proof.
  intros Hundefined Hnull Hbool Hnum Hstr Harr Hobj.
  fix IH 1.
  intros [| | b | n | s | elems | props];
    [exact Hundefined | exact Hnull | apply Hbool | apply Hnum | apply Hstr | | apply Hobj].
  apply Harr. induction elems as [| x elems IHelems]; constructor; [apply IH | exact IHelems].
Qed.

Lemma join_texts_printable (f : value -> result string) (elems : list value) :
  Forall (fun x => if printable x then exists text, f x = Ok text
                   else f x = Err cannot_convert) elems ->
  if forallb printable elems then exists text, join_texts f elems = Ok text
  else join_texts f elems = Err cannot_convert.
Proof.
  induction 1 as [| x rest Hx Hrest IH]; cbn [forallb join_texts]; [now eexists |].
  destruct (printable x) eqn:Hprintable; cbn [andb].
  - assert (Htext : exists text,
               match x with
               | VUndefined | VNull => ret EmptyString
               | _ => f x
               end = Ok text).
    { destruct x; try exact Hx; now eexists. }
    destruct Htext as [text ->]. cbn [bind].
    destruct rest as [| y rest]; [now eexists |].
    destruct (forallb printable (y :: rest)).
    + destruct IH as [more ->]. now eexists.
    + now rewrite IH.
  - destruct x; try discriminate Hprintable; now rewrite Hx.
Qed.

(** A template literal prints the printable values and throws on the
    others. *)
Lemma ToString_printable (number_text : Z -> string) (v : value) :
  if printable v then exists text, ToString number_text v = Ok text
  else ToString number_text v = Err cannot_convert.
Proof.
  induction v as [| | b | n | s | elems IH | props] using value_nested_ind;
    cbn [printable ToString]; try (now eexists).
  - destruct b; now eexists.
  - now apply join_texts_printable.
  - destruct (has_own "toString" props); [reflexivity | now eexists].
Qed.

Ltac failed_lookup E :=
  let H := fresh "H" in
  let message := fresh "message" in
  let Hmessage := fresh "Hmessage" in
  lazymatch type of E with
  | ?m = Err ?e =>
      assert (H : settles_with (fun _ => True) has_message m) by auto with settles;
      rewrite E in H; destruct H as [message Hmessage];
      cbn [try_catch]; eexists;
      split;
      [ unfold googleBooksService.lookup_failed_any, googleBooksService.lookup_failed;
        try (match goal with
             | Htext : ToString _ _ = Ok _ |- _ => rewrite Htext
             end; cbn [bind]);
        rewrite Hmessage; reflexivity
      | right; right; exists message; reflexivity ]
  end.

Ltac lookup_steps :=
  repeat lazymatch goal with
    | |- exists r, try_catch (bind ?m _) _ = Ok r /\ _ =>
        let E := fresh "E" in
        destruct m eqn:E; cbn [bind]; [| failed_lookup E]
    end.

Section GoogleBooksServiceEdges.

Variable axios_get : nat -> string -> get_params -> axios_result.
Variable Number_toString : Z -> string.

Local Notation searchBookByTitle := (googleBooksService.searchBookByTitle axios_get).
Local Notation searchBookByTitle_any :=
  (googleBooksService.searchBookByTitle_any axios_get Number_toString).
Local Notation lookup_volume := (googleBooksService.lookup_volume axios_get).
Local Notation volumes_url := googleBooksService.volumes_url.
Local Notation search_params := googleBooksService.search_params.
Local Notation find_identifier := googleBooksService.find_identifier.

Lemma lookup_any_settles (n : nat) (title : value) :
  printable title = true ->
  exists record,
    searchBookByTitle_any n title = Ok record /\
    (found_record_of title record \/
     record = no_match_record title \/
     exists message, record = failed_record title message).
Proof.
  intros Hprintable.
  pose proof (ToString_printable Number_toString title) as Htext.
  rewrite Hprintable in Htext. destruct Htext as [text Htext].
  unfold googleBooksService.searchBookByTitle_any, googleBooksService.lookup_volume_any.
  rewrite Htext. cbn [bind].
  lookup_steps.
  lazymatch goal with
  | |- context [is_zero ?t] => destruct (is_zero t)
  end.
  { eexists. split; [reflexivity |]. right. left. reflexivity. }
  lookup_steps. cbv zeta. lookup_steps.
  eexists. split; [reflexivity |]. left.
  eexists _, _, _, _, _, _, _, _, _, _, _. split; [reflexivity |].
  repeat split; try (apply js_or_truthy; reflexivity).
  eapply truncate_description_result. eassumption.
Qed.

Lemma lookup_any_rejects (n : nat) (title : value) :
  printable title = false ->
  searchBookByTitle_any n title = Err cannot_convert.
Proof.
  intros Hprintable.
  pose proof (ToString_printable Number_toString title) as Htext.
  rewrite Hprintable in Htext.
  unfold googleBooksService.searchBookByTitle_any, googleBooksService.lookup_volume_any,
    googleBooksService.lookup_failed_any.
  rewrite Htext. reflexivity.
Qed.

(** X10: a lookup of a JSON value that a template literal can print, as
    every string, number, boolean and null is, and every object and array
    without an own member toString in it, never rejects: it settles with one
    of three records that carry the value itself as title: a found match, no
    match, or a failed lookup with the message of the failure.  On a value
    that a template literal cannot print the lookup rejects with the
    TypeError of the conversion, thrown in the try block and again in the
    catch block.  On a string it is [searchBookByTitle]. *)
Theorem lookup_settles_with_one_of_three_records (n : nat) (title : value) :
  (forall t, searchBookByTitle_any n (VStr t) = searchBookByTitle n t) /\
  (printable title = true ->
   exists record,
     searchBookByTitle_any n title = Ok record /\
     (found_record_of title record \/
      record = no_match_record title \/
      exists message, record = failed_record title message)) /\
  (printable title = false ->
   searchBookByTitle_any n title = Err cannot_convert).
Proof.
  split; [reflexivity |].
  split; [apply lookup_any_settles | apply lookup_any_rejects].
Qed.

(** X11: a record is a found match only if the call resolved, the number
    of items of the answer is not 0 and the answer has a first item that is
    neither null nor missing. *)
Theorem found_needs_a_first_item (n : nat) (title : string) (record : value) :
  searchBookByTitle n title = Ok record ->
  found record ->
  exists response data totalItems items book,
    axios_get n volumes_url (search_params title) = Resolve response /\
    get response "data" = Ok data /\
    get data "totalItems" = Ok totalItems /\
    is_zero totalItems = false /\
    get data "items" = Ok items /\
    get_first items = Ok book /\
    ~ nullish book.
Proof.
  intros Hsearch Hfound.
  pose proof (found_is_looked_up _ _ _ _ Hsearch Hfound) as H.
  unfold googleBooksService.lookup_volume in H.
  destruct (axios_get n volumes_url (search_params title)) as [response |] eqn:Hget;
    cbn [await bind] in H; [| discriminate].
  destruct (get response "data") as [data |] eqn:Hdata; cbn [bind] in H; [| discriminate].
  destruct (get data "totalItems") as [totalItems |] eqn:Htotal; cbn [bind] in H;
    [| discriminate].
  destruct (is_zero totalItems) eqn:Hzero.
  { injection H as <-. discriminate Hfound. }
  destruct (get data "items") as [items |] eqn:Hitems; cbn [bind] in H; [| discriminate].
  destruct (get_first items) as [book |] eqn:Hbook; cbn [bind] in H; [| discriminate].
  exists response, data, totalItems, items, book.
  repeat (split; [first [reflexivity | assumption] |]).
  intros [-> | ->]; discriminate H.
Qed.

(** X12: a volume whose identifier list is truthy but no array, or whose
    identifiers are read and whose description is truthy but no string, is
    reported as a failed lookup, although the service found it: the record
    has found false and the message of the TypeError.  The test is
    truthiness, not presence: a volume whose identifier list and
    description are falsy, as the empty string and 0 are, is a found match
    with a null description and undefined ISBN members. *)
Theorem malformed_volume_is_reported_as_failed (n : nat) (title : string)
  (response data totalItems volumeInfo : value) :
  axios_get n volumes_url (search_params title) = Resolve response ->
  get response "data" = Ok data ->
  get data "totalItems" = Ok totalItems ->
  is_zero totalItems = false ->
  matched_volumeInfo response = Ok volumeInfo ->
  (forall identifiers,
      get volumeInfo "industryIdentifiers" = Ok identifiers ->
      truthy identifiers = true ->
      Array_isArray identifiers = false ->
      searchBookByTitle n title
      = Ok (failed_record (VStr title) "industryIdentifiers.find is not a function")) /\
  (forall identifiers isbn10 isbn13 description,
      get volumeInfo "industryIdentifiers" = Ok identifiers ->
      find_identifier (js_or identifiers (VArr [])) "ISBN_10" = Ok isbn10 ->
      find_identifier (js_or identifiers (VArr [])) "ISBN_13" = Ok isbn13 ->
      get volumeInfo "description" = Ok description ->
      truthy description = true ->
      (forall d, description <> VStr d) ->
      searchBookByTitle n title
      = Ok (failed_record (VStr title)
              "volumeInfo.description.substring is not a function")) /\
  (forall identifiers description,
      get volumeInfo "industryIdentifiers" = Ok identifiers ->
      truthy identifiers = false ->
      get volumeInfo "description" = Ok description ->
      truthy description = false ->
      exists record,
        searchBookByTitle n title = Ok record /\
        found record /\
        get record "description" = Ok VNull /\
        get record "isbn10" = Ok VUndefined /\
        get record "isbn13" = Ok VUndefined).
Proof.
  intros Hget Hdata Htotal Hzero Hvolume.
  unfold matched_volumeInfo in Hvolume. rewrite Hdata in Hvolume. cbn [bind] in Hvolume.
  destruct (get data "items") as [items |] eqn:Hitems; cbn [bind] in Hvolume;
    [| discriminate].
  destruct (get_first items) as [book |] eqn:Hbook; cbn [bind] in Hvolume; [| discriminate].
  destruct (get book "volumeInfo") as [volumeInfo0 |] eqn:Hinfo; cbn [bind ret] in Hvolume;
    [| discriminate].
  injection Hvolume as <-.
  assert (Hbook_id : exists id, get book "id" = Ok id).
  { destruct book; try discriminate; cbn; now eexists. }
  destruct Hbook_id as [id Hid].
  assert (Hany : forall k, exists v, get (js_or volumeInfo0 (VObj [])) k = Ok v).
  { intros k. unfold js_or. destruct (truthy volumeInfo0) eqn:E.
    - destruct volumeInfo0; try discriminate; cbn; now eexists.
    - cbn. now eexists. }
  destruct (Hany "authors") as [authors Hauthors].
  destruct (Hany "publishedDate") as [publishedDate Hpublished].
  split; [| split].
  - intros identifiers Hids Htruthy Hnot.
    unfold googleBooksService.searchBookByTitle, googleBooksService.lookup_volume.
    rewrite Hget. cbn [await bind]. rewrite Hdata. cbn [bind]. rewrite Htotal. cbn [bind].
    rewrite Hzero, Hitems. cbn [bind]. rewrite Hbook. cbn [bind]. rewrite Hinfo.
    cbn [bind]. cbv zeta. rewrite Hids. cbn [bind].
    unfold js_or at 1. rewrite Htruthy.
    destruct identifiers; try discriminate; reflexivity.
  - intros identifiers isbn10 isbn13 description Hids H10 H13 Hdesc Htruthy Hnot.
    unfold googleBooksService.searchBookByTitle, googleBooksService.lookup_volume.
    rewrite Hget. cbn [await bind]. rewrite Hdata. cbn [bind]. rewrite Htotal. cbn [bind].
    rewrite Hzero, Hitems. cbn [bind]. rewrite Hbook. cbn [bind]. rewrite Hinfo.
    cbn [bind]. cbv zeta. rewrite Hids. cbn [bind]. rewrite H10. cbn [bind].
    rewrite H13. cbn [bind]. rewrite Hid. cbn [bind]. rewrite Hauthors. cbn [bind].
    rewrite Hpublished. cbn [bind]. rewrite Hdesc. cbn [bind]. rewrite Htruthy.
    destruct description; try discriminate; try reflexivity.
    now destruct (Hnot s).
  - intros identifiers description Hids Hfalsy Hdesc Hfalsy_description.
    destruct (Hany "pageCount") as [pageCount HpageCount].
    destruct (Hany "categories") as [categories Hcategories].
    destruct (Hany "averageRating") as [averageRating Hrating].
    destruct (Hany "imageLinks") as [imageLinks Hlinks].
    destruct (Hany "previewLink") as [previewLink Hpreview].
    unfold googleBooksService.searchBookByTitle, googleBooksService.lookup_volume.
    rewrite Hget. cbn [await bind]. rewrite Hdata. cbn [bind]. rewrite Htotal. cbn [bind].
    rewrite Hzero, Hitems. cbn [bind]. rewrite Hbook. cbn [bind]. rewrite Hinfo.
    cbn [bind]. cbv zeta. rewrite Hids. cbn [bind].
    unfold js_or at 1 2. rewrite Hfalsy.
    change (googleBooksService.find_identifier (VArr []) "ISBN_10") with (@Ok value VUndefined).
    change (googleBooksService.find_identifier (VArr []) "ISBN_13") with (@Ok value VUndefined).
    cbn [bind]. rewrite Hid. cbn [bind]. rewrite Hauthors. cbn [bind].
    rewrite Hpublished. cbn [bind]. rewrite Hdesc. cbn [bind]. rewrite Hfalsy_description.
    cbn [bind ret]. rewrite HpageCount. cbn [bind]. rewrite Hcategories. cbn [bind].
    rewrite Hrating. cbn [bind]. rewrite Hlinks. cbn [bind]. rewrite Hpreview.
    cbn [bind ret try_catch].
    eexists. split; [reflexivity |]. repeat split.
Qed.

End GoogleBooksServiceEdges.

(** ** What the services throw *)

Lemma is_error_ordinary (e : thrown) : is_error e -> ordinary e.
Proof. destruct e; cbn; [trivial | trivial | intros []]. Qed.

Lemma settles_with_weaken {A} (P : A -> Prop) (Q Q' : thrown -> Prop) (m : result A) :
  (forall e, Q e -> Q' e) -> settles_with P Q m -> settles_with P Q' m.
Proof. intros HQ. destruct m; cbn; auto. Qed.

Lemma get_throws_error (v : value) (k : string) :
  settles_with (fun _ => True) is_error (get v k).
Proof. destruct v; exact I. Qed.

Lemma get_first_throws_error (v : value) :
  settles_with (fun _ => True) is_error (get_first v).
Proof. destruct v; exact I. Qed.

Lemma await_throws_error (r : axios_result) :
  settles_with (fun _ => True) is_error (await r).
Proof. destruct r; exact I. Qed.

Lemma match_json_throws_error (content : value) :
  settles_with (fun _ => True) is_error (match_json content).
Proof. destruct content; exact I. Qed.

Lemma message_content_throws_error (response : value) :
  settles_with (fun _ => True) is_error (message_content_of response).
Proof.
  pose proof (message_content_throws_errors response) as H.
  destruct (message_content_of response) as [content | e]; [exact I | now apply H].
Qed.

Lemma toBook_throws_error (book : value) :
  settles_with (fun _ => True) is_error (toBook book).
Proof.
  destruct book; try exact I. rewrite toBook_object. exact I.
Qed.

Lemma map_elems_throws_error (f : value -> result value) (elems : list value) :
  (forall x, settles_with (fun _ => True) is_error (f x)) ->
  settles_with (fun _ => True) is_error (map_elems f elems).
Proof.
  intros Hf. induction elems as [| x elems IH]; cbn [map_elems]; [exact I |].
  apply settles_with_bind; [apply Hf | intros y].
  apply settles_with_bind; [exact IH | intros ys; exact I].
Qed.

Lemma translate_timeout_ordinary {A} (P : A -> Prop) (e : thrown) :
  ordinary e -> settles_with P ordinary (translate_timeout e).
Proof.
  destruct e as [cls message | [code |] message response | v]; try (intros _; exact I).
  - intros _. unfold translate_timeout. cbn [thrown_code bind ret is_string].
    destruct (code =? "ECONNABORTED"); exact I.
  - destruct v; try contradiction. intros _.
    unfold translate_timeout. cbn [thrown_code get bind ret].
    destruct (is_string "ECONNABORTED" (lookup "code" props)); exact I.
Qed.

Lemma try_translate_ordinary {A} (body : result A) :
  settles_with (fun _ => True) ordinary body ->
  settles_with (fun _ => True) ordinary (try_catch body translate_timeout).
Proof.
  destruct body as [a | e]; [trivial |]. cbn [try_catch settles_with].
  intros He. exact (translate_timeout_ordinary _ e He).
Qed.

Lemma get_opt_returns (v : value) (k : string) : exists x, get_opt v k = Ok x.
Proof. destruct v; now eexists. Qed.

Lemma assign_lookup (k : string) (v : value) (props : list (string * value)) :
  lookup k (assign k v props) = v /\
  (forall k', k' <> k -> lookup k' (assign k v props) = lookup k' props).
Proof.
  induction props as [| [k0 v0] props [IH1 IH2]]; cbn [assign lookup].
  - rewrite String.eqb_refl. split; [reflexivity |].
    intros k' Hk'. apply String.eqb_neq in Hk'.
    now rewrite String.eqb_sym, Hk'.
  - destruct (k0 =? k) eqn:E; cbn [lookup].
    + apply String.eqb_eq in E. subst k0. rewrite String.eqb_refl. split; [reflexivity |].
      intros k' Hk'. apply String.eqb_neq in Hk'.
      now rewrite String.eqb_sym, Hk'.
    + rewrite E. split; [exact IH1 |].
      intros k' Hk'. destruct (k0 =? k'); [reflexivity | now apply IH2].
Qed.

Lemma assign_new (k : string) (v : value) (props : list (string * value)) :
  ~ In k (map fst props) -> assign k v props = (props ++ [(k, v)])%list.
Proof.
  induction props as [| [k0 v0] props IH]; cbn [assign map fst In app]; [reflexivity |].
  intros Hin. destruct (k0 =? k) eqn:E.
  - apply String.eqb_eq in E. tauto.
  - rewrite IH; [reflexivity | tauto].
Qed.

(** ** The request handlers *)

Lemma enrich_any_from (axios_get : nat -> string -> get_params -> axios_result)
  (number_text : Z -> string) (i : nat) (titles : list value) :
  forallb printable titles = true ->
  exists records,
    Promise_all (mapi_from i (googleBooksService.searchBookByTitle_any axios_get number_text)
                   titles)
    = Ok records /\
    Forall2 lookup_record titles records.
Proof.
  revert i. induction titles as [| title titles IH]; intros i Hall.
  - exists []. split; [reflexivity | constructor].
  - cbn [forallb] in Hall. apply andb_prop in Hall. destruct Hall as [Htitle Htitles].
    destruct (lookup_any_settles axios_get number_text i title Htitle)
      as (record & Hrecord & Hshape).
    destruct (IH (S i) Htitles) as (records & Hrecords & Hall).
    exists (record :: records). split; [| now constructor].
    cbn [mapi_from Promise_all]. rewrite Hrecord. cbn [bind].
    rewrite Hrecords. reflexivity.
Qed.

Lemma enrich_any_rejects (axios_get : nat -> string -> get_params -> axios_result)
  (number_text : Z -> string) (i : nat) (titles : list value) :
  forallb printable titles = false ->
  Promise_all (mapi_from i (googleBooksService.searchBookByTitle_any axios_get number_text)
                 titles)
  = Err cannot_convert.
Proof.
  revert i. induction titles as [| title titles IH]; intros i Hall; [discriminate |].
  cbn [forallb] in Hall. cbn [mapi_from Promise_all].
  destruct (printable title) eqn:Htitle; cbn [andb] in Hall.
  - destruct (lookup_any_settles axios_get number_text i title Htitle)
      as (record & -> & _).
    cbn [bind]. now rewrite (IH (S i) Hall).
  - now rewrite (lookup_any_rejects axios_get number_text i title Htitle).
Qed.

Section ServerProperties.

Variables apiKey baseURL : string.
Variable Buffer_from_base64 : string -> result Buffer.
Variable Buffer_toString_base64 : Buffer -> result string.
Variable sharp_resize_jpeg : Buffer -> Z -> Z -> resize_options -> Z -> result Buffer.
Variable axios_post : string -> requestBody -> post_config -> axios_result.
Variable JSON_parse : string -> result value.
Variable axios_get : nat -> string -> get_params -> axios_result.
Variable Number_toString : Z -> string.
Variable fs_readFileSync : string -> result Buffer.
Variable fs_unlinkSync : string -> result unit.
Variables startTime endTime : Z.
Variable axios_error_status : value -> value.
Variable savings_toFixed : Z -> Z -> string.
Variable kilobytes_toFixed : Z -> string.

Local Notation compress_pipeline :=
  (openaiService.compress_pipeline Buffer_from_base64 Buffer_toString_base64
     sharp_resize_jpeg).
Local Notation compressImage :=
  (openaiService.compressImage Buffer_from_base64 Buffer_toString_base64
     sharp_resize_jpeg).
Local Notation scanBooks :=
  (openaiService.scanBooks apiKey baseURL Buffer_from_base64 Buffer_toString_base64
     sharp_resize_jpeg axios_post JSON_parse).
Local Notation extractBookTitles :=
  (openaiService.extractBookTitles apiKey baseURL Buffer_from_base64
     Buffer_toString_base64 sharp_resize_jpeg axios_post JSON_parse).
Local Notation scanBooks_call :=
  (openaiService.scanBooks_call apiKey baseURL Buffer_from_base64
     Buffer_toString_base64 sharp_resize_jpeg axios_post).
Local Notation extractBookTitles_call :=
  (openaiService.extractBookTitles_call apiKey baseURL Buffer_from_base64
     Buffer_toString_base64 sharp_resize_jpeg axios_post).
Local Notation scanBooks_output :=
  (openaiService.scanBooks_output apiKey baseURL Buffer_from_base64
     Buffer_toString_base64 sharp_resize_jpeg axios_post).
Local Notation extractBookTitles_output :=
  (openaiService.extractBookTitles_output apiKey baseURL Buffer_from_base64
     Buffer_toString_base64 sharp_resize_jpeg axios_post).
Local Notation sendMessage := (openaiService.sendMessage apiKey baseURL axios_post).
Local Notation analyzeImage :=
  (openaiService.analyzeImage apiKey baseURL Buffer_from_base64 Buffer_toString_base64
     sharp_resize_jpeg axios_post).
Local Notation scan_books :=
  (server.scan_books apiKey baseURL Buffer_from_base64 Buffer_toString_base64
     sharp_resize_jpeg axios_post JSON_parse fs_readFileSync fs_unlinkSync
     startTime endTime axios_error_status).
Local Notation extract_book_titles :=
  (server.extract_book_titles apiKey baseURL Buffer_from_base64 Buffer_toString_base64
     sharp_resize_jpeg axios_post JSON_parse axios_get Number_toString fs_readFileSync
     fs_unlinkSync startTime endTime axios_error_status).
Local Notation search_all := (server.search_all axios_get Number_toString).
Local Notation send_message := (server.send_message apiKey baseURL axios_post startTime endTime).
Local Notation analyze_image_handler :=
  (server.analyze_image_handler apiKey baseURL Buffer_from_base64 Buffer_toString_base64
     sharp_resize_jpeg axios_post startTime endTime).
Local Notation convert_image :=
  (server.convert_image Buffer_toString_base64 fs_readFileSync fs_unlinkSync
     startTime endTime).
Local Notation compress_image :=
  (server.compress_image Buffer_from_base64 Buffer_toString_base64 sharp_resize_jpeg
     fs_readFileSync fs_unlinkSync startTime endTime savings_toFixed kilobytes_toFixed).
Local Notation relay_error := (server.relay_error startTime endTime axios_error_status).
Local Notation res_json := (server.res_json startTime endTime).
Local Notation with_timeTaken := (server.with_timeTaken startTime endTime).
Local Notation uploaded_image :=
  (server.uploaded_image Buffer_toString_base64 fs_readFileSync fs_unlinkSync).
Local Notation image_required := (server.image_required startTime endTime).
Local Notation timeTaken := (timeTaken_text startTime endTime).

(** The answer with a status and an error message. *)
Local Notation error_answer code message :=
  {| status := code;
     body := json (VObj [("error", message); ("timeTaken", timeTaken)]) |}.

Local Notation processing_image_failed :=
  (error_answer (VNum 500) (VStr "Error processing image")).

Lemma uploaded_body (req : upload_request) (imageBase64 : string) :
  file req = None ->
  image req = Some imageBase64 ->
  imageBase64 <> EmptyString ->
  uploaded_image req = Ok (Some imageBase64).
Proof.
  intros Hfile Himage Hne. unfold server.uploaded_image. rewrite Hfile, Himage.
  destruct imageBase64; [contradiction | reflexivity].
Qed.

Lemma scan_books_relays (req : upload_request) (imageBase64 : string) :
  uploaded_image req = Ok (Some imageBase64) ->
  scan_books req =
  try_catch (books <- scanBooks imageBase64 ;;
             ret (res_json (VNum 200) (VObj [("books", books)])))
    relay_error.
Proof. intros H. unfold server.scan_books. now rewrite H. Qed.

Lemma extract_book_titles_relays (req : upload_request) (imageBase64 : string) :
  uploaded_image req = Ok (Some imageBase64) ->
  extract_book_titles req =
  try_catch (titles <- extractBookTitles imageBase64 ;;
             books <- search_all titles ;;
             ret (res_json (VNum 200) (VObj [("books", VArr books)])))
    relay_error.
Proof. intros H. unfold server.extract_book_titles. now rewrite H. Qed.

Lemma relay_error_object (cls : error_class) (message : string) :
  relay_error (ErrorObject cls message) = Ok processing_image_failed.
Proof. reflexivity. Qed.

(** X13: a request without an upload and without an image in its body, or
    with an empty one, is answered with status 400 and the message that
    image data is required, by [/scan-books] and by [/extract-book-titles],
    whatever the collaborators would do. *)
Theorem missing_image_answers_400 (req : upload_request) :
  file req = None ->
  image req = None \/ image req = Some EmptyString ->
  scan_books req = Ok image_required /\
  extract_book_titles req = Ok image_required /\
  image_required =
  error_answer (VNum 400)
    (VStr "Image data is required. Either upload a file or provide base64 image data.").
Proof.
  intros Hfile Himage.
  assert (Hnone : uploaded_image req = Ok None).
  { unfold server.uploaded_image. rewrite Hfile.
    destruct Himage as [-> | ->]; reflexivity. }
  unfold server.scan_books, server.extract_book_titles. rewrite Hnone.
  repeat split.
Qed.

(** X14: a timeout of the outbound call is answered with status 408 and
    the message of the timeout, by [/scan-books] and by
    [/extract-book-titles]. *)
Theorem timeout_answers_408 (req : upload_request) (imageBase64 message : string)
  (response : option value) :
  file req = None ->
  image req = Some imageBase64 ->
  imageBase64 <> EmptyString ->
  (scanBooks_call imageBase64 (Reject (Some "ECONNABORTED") message response) ->
   scan_books req =
   Ok (error_answer (VNum 408) (VStr "The API request timed out. Please try again."))) /\
  (extractBookTitles_call imageBase64 (Reject (Some "ECONNABORTED") message response) ->
   extract_book_titles req =
   Ok (error_answer (VNum 408) (VStr "The API request timed out. Please try again."))).
Proof.
  intros Hfile Himage Hne.
  pose proof (uploaded_body _ _ Hfile Himage Hne) as Hup.
  split; intros Hcall.
  - rewrite (scan_books_relays _ _ Hup).
    rewrite (scanBooks_settled _ _ _ _ _ _ _ _ _ Hcall). reflexivity.
  - rewrite (extract_book_titles_relays _ _ Hup).
    rewrite (extractBookTitles_settled _ _ _ _ _ _ _ _ _ Hcall). reflexivity.
Qed.

(** X15: the sentinel of the model, an object with a truthy [error], is
    answered by [/scan-books] with status 404 and that error as message,
    for an uploaded image as for an image in the body of the request. *)
Theorem sentinel_answers_404 (req : upload_request)
  (imageBase64 content jsonString : string) (props : list (string * value)) :
  uploaded_image req = Ok (Some imageBase64) ->
  scanBooks_output imageBase64 content ->
  jsonMatch content = Some jsonString ->
  JSON_parse jsonString = Ok (VObj props) ->
  truthy (lookup "error" props) = true ->
  scan_books req = Ok (error_answer (VNum 404) (lookup "error" props)).
Proof.
  intros Hup Hout Hmatch Hparse Htruthy.
  rewrite (scan_books_relays _ _ Hup).
  rewrite (scanBooks_parsed _ _ _ _ _ _ _ _ _ _ _ Hout Hmatch Hparse).
  unfold openaiService.books_of, get.
  cbn [typeof_object Array_isArray negb andb bind ret].
  rewrite Htruthy. reflexivity.
Qed.

(** X16: a failure inside the service, as a model output without JSON or
    with JSON that does not parse, is answered with status 500 and the
    fixed message "Error processing image", for an uploaded image as for
    an image in the body of the request: the message of the error is
    logged and not sent. *)
Theorem failures_answer_500_without_detail (req : upload_request)
  (imageBase64 : string) :
  uploaded_image req = Ok (Some imageBase64) ->
  (forall cls message,
      scanBooks imageBase64 = Err (ErrorObject cls message) ->
      scan_books req = Ok processing_image_failed) /\
  (forall cls message,
      extractBookTitles imageBase64 = Err (ErrorObject cls message) ->
      extract_book_titles req = Ok processing_image_failed) /\
  (forall content,
      scanBooks_output imageBase64 content ->
      jsonMatch content = None ->
      scan_books req = Ok processing_image_failed) /\
  (forall content jsonString message,
      extractBookTitles_output imageBase64 content ->
      jsonMatch content = Some jsonString ->
      JSON_parse jsonString = Err (ErrorObject SyntaxError message) ->
      extract_book_titles req = Ok processing_image_failed).
Proof.
  intros Hup.
  assert (Hscan : forall cls message,
             scanBooks imageBase64 = Err (ErrorObject cls message) ->
             scan_books req = Ok processing_image_failed).
  { intros cls message H. rewrite (scan_books_relays _ _ Hup), H. reflexivity. }
  assert (Htitles : forall cls message,
             extractBookTitles imageBase64 = Err (ErrorObject cls message) ->
             extract_book_titles req = Ok processing_image_failed).
  { intros cls message H. rewrite (extract_book_titles_relays _ _ Hup), H. reflexivity. }
  split; [exact Hscan |]. split; [exact Htitles |]. split.
  - intros content Hout Hnone. apply (Hscan Error "No JSON found in response").
    rewrite (scanBooks_extracts _ _ _ _ _ _ _ _ _ Hout).
    unfold openaiService.extract_books, match_json. cbn [bind ret].
    rewrite Hnone. reflexivity.
  - intros content jsonString message Hout Hmatch Hparse.
    apply (Htitles SyntaxError message).
    rewrite (extractBookTitles_extracts _ _ _ _ _ _ _ _ _ Hout).
    unfold openaiService.extract_titles, match_json. cbn [bind ret].
    rewrite Hmatch, Hparse. reflexivity.
Qed.

(** X17: a rejection of the outbound call that is no timeout is answered by
    [/scan-books], for an uploaded image as for an image in the body of
    the request, as follows: without a response of the service, status 500
    and "Error processing image"; with a response and a truthy
    [error.status], that status and the message of axios; with a response
    and no [error.status], the status of the response, or 500, and the
    message of the error in its body, or "Error processing image". *)
Theorem rejection_is_relayed (req : upload_request) (imageBase64 : string)
  (code : option string) (message : string) (response : option value) :
  uploaded_image req = Ok (Some imageBase64) ->
  code <> Some "ECONNABORTED" ->
  scanBooks_call imageBase64 (Reject code message response) ->
  (response = None -> scan_books req = Ok processing_image_failed) /\
  (forall r,
      response = Some r ->
      truthy (axios_error_status r) = true ->
      scan_books req = Ok (error_answer (axios_error_status r) (VStr message))) /\
  (forall r status0 message0,
      response = Some r ->
      truthy (axios_error_status r) = false ->
      get_opt r "status" = Ok status0 ->
      (data <- get_opt r "data" ;; error0 <- get_opt data "error" ;;
       get_opt error0 "message") = Ok message0 ->
      scan_books req =
      Ok (error_answer (js_or status0 (VNum 500))
            (js_or message0 (VStr "Error processing image")))).
Proof.
  intros Hup Hcode Hcall.
  rewrite (scan_books_relays _ _ Hup).
  rewrite (scanBooks_settled _ _ _ _ _ _ _ _ _ Hcall).
  cbn [await bind try_catch]. rewrite translate_timeout_axios.
  assert (Hno : match code with
                | Some c => c =? "ECONNABORTED"
                | None => false
                end = false).
  { destruct code as [c |]; [| reflexivity].
    destruct (c =? "ECONNABORTED") eqn:E; [| reflexivity].
    apply String.eqb_eq in E. now subst c. }
  rewrite Hno. cbn [bind try_catch].
  split; [| split].
  - intros ->. reflexivity.
  - intros r -> Hstatus. unfold server.relay_error, server.error_status.
    cbn [thrown_message bind ret]. now rewrite Hstatus.
  - intros r status0 message0 -> Hstatus Hstatus0 Hmessage0.
    unfold server.relay_error, server.error_status.
    cbn [thrown_message thrown_response bind ret]. rewrite Hstatus, Hstatus0.
    cbn [bind].
    destruct (get_opt r "data") as [data |]; cbn [bind] in *; [| discriminate].
    destruct (get_opt data "error") as [error0 |]; cbn [bind] in *; [| discriminate].
    rewrite Hmessage0. reflexivity.
Qed.

(** X18: when the array of the model holds only values that a template
    literal can print, [/extract-book-titles] answers with status 200, the
    time taken and one record for each element of the array, in the order
    of the array and with the element as title, whether the element is a
    string or not and however its lookup settles; when the array holds a
    value that cannot be printed, an object with an own member toString,
    the lookup of that value rejects and the answer is status 500 with
    "Error processing image".  Both for an uploaded image and for an image
    in the body of the request. *)
Theorem extract_book_titles_answers_one_record_per_element (req : upload_request)
  (imageBase64 content jsonString : string) (elems : list value) :
  uploaded_image req = Ok (Some imageBase64) ->
  extractBookTitles_output imageBase64 content ->
  jsonMatch content = Some jsonString ->
  JSON_parse jsonString = Ok (VArr elems) ->
  (forallb printable elems = true ->
   exists records,
     extract_book_titles req =
     Ok {| status := VNum 200;
           body := json (VObj [("books", VArr records); ("timeTaken", timeTaken)]) |} /\
     List.length records = List.length elems /\
     Forall2 lookup_record elems records /\
     Forall2 (fun title record => get record "title" = Ok title) elems records) /\
  (forallb printable elems = false ->
   extract_book_titles req = Ok processing_image_failed).
Proof.
  intros Hup Hout Hmatch Hparse.
  rewrite (extract_book_titles_relays _ _ Hup).
  rewrite (extractBookTitles_parsed _ _ _ _ _ _ _ _ _ _ _ Hout Hmatch Hparse).
  cbn [openaiService.titles_of Array_isArray negb try_catch ret bind server.search_all].
  unfold mapi. split.
  - intros Hprintable.
    destruct (enrich_any_from axios_get Number_toString 0 elems Hprintable)
      as (records & Hrecords & Hall).
    exists records. split; [rewrite Hrecords; reflexivity |].
    split; [symmetry; exact (Forall2_length Hall) |]. split; [exact Hall |].
    revert Hall. apply Forall2_impl.
    intros title record [(? & ? & ? & ? & ? & ? & ? & ? & ? & ? & ? & -> & _) | [-> | [m ->]]];
      reflexivity.
  - intros Hunprintable.
    rewrite (enrich_any_rejects axios_get Number_toString 0 elems Hunprintable).
    reflexivity.
Qed.

Lemma relay_error_answers (e : thrown) :
  ordinary e ->
  exists code props, relay_error e = Ok (res_json code (VObj props)).
Proof.
  assert (Hchain : forall r code0,
             exists props,
               (status0 <- get_opt r "status" ;;
                data <- get_opt r "data" ;;
                error0 <- get_opt data "error" ;;
                errorMessage0 <- get_opt error0 "message" ;;
                ret (res_json (js_or status0 code0)
                       (VObj [("error",
                               js_or errorMessage0 (VStr "Error processing image"))])))
               = Ok (res_json (js_or (match get_opt r "status" with
                                      | Ok s => s
                                      | Err _ => VUndefined
                                      end) code0) (VObj props))).
  { intros r code0.
    destruct (get_opt_returns r "status") as [status0 ->].
    destruct (get_opt_returns r "data") as [data ->].
    destruct (get_opt_returns data "error") as [error0 Herror].
    destruct (get_opt_returns error0 "message") as [message0 Hmessage].
    cbn [bind]. rewrite Herror. cbn [bind]. rewrite Hmessage. now eexists. }
  destruct e as [cls message | code message [r |] | v].
  - intros _. now eexists _, _.
  - intros _. unfold server.relay_error, server.error_status.
    cbn [thrown_message thrown_response bind ret].
    destruct (truthy (axios_error_status r)); [now eexists _, _ |].
    destruct (Hchain r (VNum 500)) as [props ->]. now eexists _, _.
  - intros _. now eexists _, _.
  - destruct v; try contradiction. intros _.
    unfold server.relay_error, server.error_status.
    cbn [thrown_message thrown_status thrown_response get bind ret].
    destruct (truthy (lookup "status" props)); [now eexists _, _ |].
    destruct (Hchain (lookup "response" props) (VNum 500)) as [props' ->].
    now eexists _, _.
Qed.

Lemma scanBooks_throws_ordinary (imageBase64 : string) :
  (forall text e, JSON_parse text = Err e -> ordinary e) ->
  settles_with (fun _ => True) ordinary (scanBooks imageBase64).
Proof.
  intros Hparse. unfold openaiService.scanBooks.
  destruct (compressImage_returns Buffer_from_base64 Buffer_toString_base64
              sharp_resize_jpeg imageBase64) as [sent ->].
  cbn [bind]. apply try_translate_ordinary.
  apply settles_with_bind;
    [exact (settles_with_weaken _ _ _ _ is_error_ordinary (await_throws_error _)) |].
  intros response. apply settles_with_bind;
    [exact (settles_with_weaken _ _ _ _ is_error_ordinary
              (message_content_throws_error _)) |].
  intros content. unfold openaiService.extract_books.
  apply settles_with_bind;
    [exact (settles_with_weaken _ _ _ _ is_error_ordinary (match_json_throws_error _)) |].
  intros [jsonString |]; [| exact I].
  destruct (JSON_parse jsonString) as [booksData | e] eqn:E; cbn [bind];
    [| exact (Hparse _ _ E)].
  unfold openaiService.books_of.
  apply settles_with_bind.
  { destruct (typeof_object booksData && negb (Array_isArray booksData))%bool; [| exact I].
    apply settles_with_bind; [| intros; exact I].
    exact (settles_with_weaken _ _ _ _ is_error_ordinary (get_throws_error _ _)). }
  intros [|].
  - apply settles_with_bind;
      [exact (settles_with_weaken _ _ _ _ is_error_ordinary (get_throws_error _ _)) |].
    intros error. exact I.
  - destruct (negb (Array_isArray booksData)); [exact I |].
    destruct booksData; try exact I. cbn [Array_map].
    apply settles_with_bind; [| intros; exact I].
    apply (settles_with_weaken _ _ _ _ is_error_ordinary).
    apply map_elems_throws_error. exact toBook_throws_error.
Qed.

Lemma extractBookTitles_settles (imageBase64 : string) :
  (forall text e, JSON_parse text = Err e -> ordinary e) ->
  settles_with (fun titles => exists elems, titles = VArr elems) ordinary
    (extractBookTitles imageBase64).
Proof.
  intros Hparse. unfold openaiService.extractBookTitles.
  destruct (compressImage_returns Buffer_from_base64 Buffer_toString_base64
              sharp_resize_jpeg imageBase64) as [sent ->].
  cbn [bind].
  destruct (axios_post baseURL (openaiService.extractBookTitles_request sent)
              (openaiService.extractBookTitles_config apiKey)) as [response | code m r];
    cbn [await bind try_catch].
  2: { exact (translate_timeout_ordinary _ (AxiosError code m r) I). }
  pose proof (message_content_throws_error response) as Hcontent.
  destruct (message_content_of response) as [content | e]; cbn [bind try_catch].
  2: { exact (translate_timeout_ordinary _ e (is_error_ordinary e Hcontent)). }
  unfold openaiService.extract_titles.
  pose proof (match_json_throws_error content) as Hmatch.
  destruct (match_json content) as [[jsonString |] | e]; cbn [bind try_catch].
  - destruct (JSON_parse jsonString) as [titlesData | e] eqn:E; cbn [bind try_catch].
    + unfold openaiService.titles_of. destruct titlesData; try exact I.
      cbn. now eexists.
    + exact (translate_timeout_ordinary _ e (Hparse _ _ E)).
  - exact I.
  - exact (translate_timeout_ordinary _ e (is_error_ordinary e Hmatch)).
Qed.

(** X19: once the upload, if there is one, has been read, and for every way
    in which the outbound calls settle, by resolving or by rejecting,
    [/scan-books] and [/extract-book-titles] send an answer and do not
    reject: a JSON object that carries the time taken, also when a lookup
    rejects because a title cannot be printed, as long as [JSON.parse]
    throws error objects.  A call that never settles is no case of this
    statement: [axios.get] is called without a timeout, and a request whose
    lookup stays pending stays unanswered. *)
Theorem vision_handlers_always_answer (req : upload_request) (img : option string) :
  uploaded_image req = Ok img ->
  (forall text e, JSON_parse text = Err e -> ordinary e) ->
  (exists code props,
      scan_books req = Ok (res_json code (VObj props)) /\
      lookup "timeTaken" (assign "timeTaken" timeTaken props) = timeTaken) /\
  (exists code props,
      extract_book_titles req = Ok (res_json code (VObj props)) /\
      lookup "timeTaken" (assign "timeTaken" timeTaken props) = timeTaken).
Proof.
  intros Hup Hparse. split.
  - destruct img as [imageBase64 |].
    + rewrite (scan_books_relays _ _ Hup).
      pose proof (scanBooks_throws_ordinary imageBase64 Hparse) as Hscan.
      destruct (scanBooks imageBase64) as [books | e]; cbn [bind try_catch ret].
      * eexists _, _. split; [reflexivity | apply assign_lookup].
      * destruct (relay_error_answers e Hscan) as (code & props & ->).
        eexists _, _. split; [reflexivity | apply assign_lookup].
    + unfold server.scan_books. rewrite Hup.
      eexists _, _. split; [reflexivity | apply assign_lookup].
  - destruct img as [imageBase64 |].
    + rewrite (extract_book_titles_relays _ _ Hup).
      pose proof (extractBookTitles_settles imageBase64 Hparse) as Htitles.
      destruct (extractBookTitles imageBase64) as [titles | e]; cbn [bind try_catch ret].
      * destruct Htitles as [elems ->].
        cbn [server.search_all]. unfold mapi.
        destruct (forallb printable elems) eqn:Hprintable.
        -- destruct (enrich_any_from axios_get Number_toString 0 elems Hprintable)
             as (records & Hrecords & _).
           rewrite Hrecords.
           eexists _, _. split; [reflexivity | apply assign_lookup].
        -- rewrite (enrich_any_rejects axios_get Number_toString 0 elems Hprintable).
           eexists _, _. split; [reflexivity | apply assign_lookup].
      * destruct (relay_error_answers e Htitles) as (code & props & ->).
        eexists _, _. split; [reflexivity | apply assign_lookup].
    + unfold server.extract_book_titles. rewrite Hup.
      eexists _, _. split; [reflexivity | apply assign_lookup].
Qed.

Lemma processing_failed_answers (e : thrown) :
  is_error e ->
  server.processing_failed e = Ok (server.res_send (VNum 500) "Error processing request").
Proof.
  destruct e as [cls message | code message [r |] | v]; try contradiction;
    intros _; try reflexivity.
  unfold server.processing_failed. cbn [thrown_response bind ret].
  destruct (truthy r) eqn:E; [| reflexivity].
  destruct r; try discriminate; reflexivity.
Qed.

Lemma chat_call_throws_error (r : axios_result) :
  settles_with (fun _ => True) is_error
    (response <- await r ;; message_content_of response).
Proof.
  apply settles_with_bind; [apply await_throws_error |].
  intros response. apply message_content_throws_error.
Qed.

(** X20: for every way in which the outbound call settles, by resolving or
    by rejecting, [/send-message] and [/analyze-image] answer in one of two
    ways: status 200 with the content of the model in a JSON object, or
    status 500 with the plain text "Error processing request", which is
    what every rejection becomes, a refusal of the service as any other.
    A call that never settles is no case of this statement: [axios.post]
    is called without a timeout here, and the request then stays
    unanswered. *)
Theorem chat_handlers_answer_200_or_500 (chat : send_message_body)
  (analysis : analyze_image_body) :
  (exists response,
      send_message chat = Ok response /\
      (response = server.res_send (VNum 500) "Error processing request" \/
       exists content,
         response = {| status := VNum 200;
                       body := json (VObj [("message", content);
                                           ("timeTaken", timeTaken)]) |})) /\
  (exists response,
      analyze_image_handler analysis = Ok response /\
      (response = server.res_send (VNum 500) "Error processing request" \/
       exists content,
         response = {| status := VNum 200;
                       body := json (VObj [("analysis", content);
                                           ("timeTaken", timeTaken)]) |})) /\
  (forall e,
      sendMessage (message chat)
        (match systemPrompt chat with
         | Some s => s
         | None => EmptyString
         end) = Err e ->
      send_message chat = Ok (server.res_send (VNum 500) "Error processing request")).
Proof.
  assert (Hsend : forall m s,
             settles_with (fun _ => True) is_error (sendMessage m s)).
  { intros m s. unfold openaiService.sendMessage.
    rewrite chat_try_is_transparent. apply chat_call_throws_error. }
  assert (Hanalyze : forall i p,
             settles_with (fun _ => True) is_error (analyzeImage i p)).
  { intros i p. unfold openaiService.analyzeImage.
    destruct (compressImage_returns Buffer_from_base64 Buffer_toString_base64
                sharp_resize_jpeg i) as [sent ->].
    cbn [bind]. rewrite chat_try_is_transparent. apply chat_call_throws_error. }
  split; [| split].
  - unfold server.send_message.
    pose proof (Hsend (message chat)
                  (match systemPrompt chat with Some s => s | None => EmptyString end)) as H.
    destruct (sendMessage _ _) as [content | e]; cbn [bind try_catch ret].
    + eexists. split; [reflexivity |]. right. now exists content.
    + rewrite (processing_failed_answers e H). eexists. split; [reflexivity | now left].
  - unfold server.analyze_image_handler.
    pose proof (Hanalyze (analyze_image analysis) (prompt analysis)) as H.
    destruct (analyzeImage _ _) as [content | e]; cbn [bind try_catch ret].
    + eexists. split; [reflexivity |]. right. now exists content.
    + rewrite (processing_failed_answers e H). eexists. split; [reflexivity | now left].
  - intros e He. unfold server.send_message.
    pose proof (Hsend (message chat)
                  (match systemPrompt chat with Some s => s | None => EmptyString end)) as H.
    rewrite He in *. cbn [try_catch]. exact (processing_failed_answers e H).
Qed.

(** X21: an upload that cannot be read makes [/scan-books] and
    [/extract-book-titles] throw outside their try block, so that they send
    no answer, while [/convert-image] and [/compress-image] catch the
    failure and answer with status 500. *)
Theorem unreadable_upload (req : upload_request) (path : string) (e : thrown) :
  file req = Some path ->
  fs_readFileSync path = Err e ->
  scan_books req = Err e /\
  extract_book_titles req = Err e /\
  convert_image req = Ok (error_answer (VNum 500) (VStr "Failed to convert image")) /\
  compress_image req = Ok (error_answer (VNum 500) (VStr "Failed to compress image")).
Proof.
  intros Hfile Hread.
  unfold server.scan_books, server.extract_book_titles, server.uploaded_image,
    server.convert_image, server.compress_image.
  rewrite Hfile, Hread. repeat split.
Qed.

(** X22: [/compress-image] answers with status 200 and the lengths of the
    base64 texts before and after [compressImage]; when the compression
    fails it still answers with status 200 and reports the original length
    as the compressed one. *)
Theorem compress_image_reports_sizes (req : upload_request) (path : string)
  (imageBuffer : Buffer) (base64Image : string) :
  file req = Some path ->
  fs_readFileSync path = Ok imageBuffer ->
  Buffer_toString_base64 imageBuffer = Ok base64Image ->
  fs_unlinkSync path = Ok tt ->
  exists compressedImage savingsPercent message,
    compressImage base64Image = Ok compressedImage /\
    compress_image req =
    Ok {| status := VNum 200;
          body := json (VObj [("originalSize", VNum (Z.of_nat (String.length base64Image)));
                              ("compressedSize",
                               VNum (Z.of_nat (String.length compressedImage)));
                              ("savingsPercent", VStr savingsPercent);
                              ("message", VStr message);
                              ("timeTaken", timeTaken)]) |} /\
    (forall e, compress_pipeline base64Image = Err e -> compressedImage = base64Image).
Proof.
  intros Hfile Hread Hencode Hunlink.
  destruct (compressImage_returns Buffer_from_base64 Buffer_toString_base64
              sharp_resize_jpeg base64Image) as [compressedImage Hcompressed].
  exists compressedImage. eexists _, _. split; [exact Hcompressed |]. split.
  - unfold server.compress_image. rewrite Hfile, Hread. cbn [bind].
    rewrite Hencode. cbn [bind]. rewrite Hcompressed. cbn [bind]. rewrite Hunlink.
    reflexivity.
  - intros e He.
    pose proof (compressImage_fallback Buffer_from_base64 Buffer_toString_base64
                  sharp_resize_jpeg base64Image e He) as Hback.
    congruence.
Qed.

(** X23: the middleware adds the time taken to every object that a handler
    sends with [res.json] and leaves the other members as they are: a new
    member comes last, an old one of that name is replaced; a string, a
    number, a boolean, null or an array is sent as it is. *)
Theorem timeTaken_is_added (props : list (string * value)) :
  (exists props',
      with_timeTaken (VObj props) = VObj props' /\
      lookup "timeTaken" props' = timeTaken /\
      (forall k, k <> "timeTaken" -> lookup k props' = lookup k props) /\
      (~ In "timeTaken" (map fst props) ->
       props' = (props ++ [("timeTaken", timeTaken)])%list)) /\
  (forall body,
      (forall members, body <> VObj members) ->
      with_timeTaken body = body).
Proof.
  split.
  - exists (assign "timeTaken" timeTaken props).
    split; [reflexivity |].
    destruct (assign_lookup "timeTaken" timeTaken props) as [H1 H2].
    split; [exact H1 |]. split; [exact H2 |]. apply assign_new.
  - intros body Hbody. unfold server.with_timeTaken.
    destruct body; try reflexivity;
      try (destruct (truthy _ && typeof_object _)%bool; reflexivity).
    now destruct (Hbody props0).
Qed.

End ServerProperties.

(** ** The further properties on concrete inputs *)

Lemma Json_parse_throws_syntax_error (text : string) (e : thrown) :
  Json.parse text = Err e -> ordinary e.
Proof.
  unfold Json.parse.
  destruct (Json.parse_value _ text) as [[v rest] |]; [| now intros [= <-]].
  destruct (Json.skip_ws rest); [discriminate | now intros [= <-]].
Qed.

Lemma pattern_match_is_leftmost_and_greedy_witness :
  exists before body after,
    Example.sentinel_in_array
    = before ++ ("[{" ++ Example.member "error" "No books detected" ++ "}]") ++ after /\
    (("[{" ++ Example.member "error" "No books detected" ++ "}]"
      = String "[" (body ++ "]") /\
      forall j, String.get j after <> Some "]"%char) \/
     ("[{" ++ Example.member "error" "No books detected" ++ "}]"
      = String "{" (body ++ "}") /\
      forall j, String.get j after <> Some "}"%char)) /\
    (forall b1 a b2,
        before = b1 ++ String a b2 ->
        json_here (String a b2
                   ++ ("[{" ++ Example.member "error" "No books detected" ++ "}]")
                   ++ after) = None) /\
    jsonMatch ("[{" ++ Example.member "error" "No books detected" ++ "}]")
    = Some ("[{" ++ Example.member "error" "No books detected" ++ "}]").
Proof.
  exact (pattern_match_is_leftmost_and_greedy Example.sentinel_in_array
           ("[{" ++ Example.member "error" "No books detected" ++ "}]") eq_refl).
Defined.

Lemma json_is_found_in_prose_witness :
  jsonMatch (Example.before_json
             ++ String "[" (("{" ++ Example.member "title" "X" ++ "}") ++ "]")
             ++ Example.after_json)
  = Some (String "[" (("{" ++ Example.member "title" "X" ++ "}") ++ "]")).
Proof.
  apply (json_is_found_in_prose Example.before_json
           ("{" ++ Example.member "title" "X" ++ "}") Example.after_json).
  - exact (proj1 (upto_last_none "[" Example.before_json) eq_refl).
  - exact (proj1 (upto_last_none "{" Example.before_json) eq_refl).
  - exact (proj1 (upto_last_none "]" Example.after_json) eq_refl).
Defined.

Lemma scanBooks_records_are_well_formed_witness :
  exists records,
    VArr [default_record;
          ExtractedBookRecord (VStr "Emma") (VStr "Unknown Author") VNull VNull VNull]
    = VArr records /\
    List.length records = 2 /\
    Forall well_formed_record records.
Proof.
  apply (scanBooks_records_are_well_formed Example.apiKey Example.baseURL
           Example.Buffer_from_base64 Example.Buffer_toString_base64
           Example.sharp_resize_jpeg (Example.answering Example.falsy_members)
           Json.parse Example.image Example.falsy_members Example.falsy_members
           [VObj [("title", VStr EmptyString); ("author", VStr EmptyString);
                  ("isbn", VStr EmptyString); ("genre", VStr EmptyString);
                  ("page_count", VNum 0)];
            VObj [("title", VStr "Emma"); ("pageCount", VNum 0)]]).
  - outputs.
  - reflexivity.
  - reflexivity.
  - reflexivity.
Defined.

Lemma null_element_fails_the_extraction_witness :
  exists x,
    In x [VObj [("title", VStr "Dune")]; VNull; VObj [("title", VStr "Emma")]] /\
    nullish x /\
    Example.scanBooks (Example.answering Example.titles_and_null) Example.image
    = Err (cannot_read x "title").
Proof.
  destruct (null_element_fails_the_extraction Example.apiKey Example.baseURL
              Example.Buffer_from_base64 Example.Buffer_toString_base64
              Example.sharp_resize_jpeg (Example.answering Example.titles_and_null)
              Json.parse Example.image Example.titles_and_null Example.titles_and_null
              [VObj [("title", VStr "Dune")]; VNull; VObj [("title", VStr "Emma")]])
    as (_ & Hfails).
  - outputs.
  - reflexivity.
  - reflexivity.
  - apply Hfails. apply Exists_cons_tl, Exists_cons_hd. now right.
Defined.

Lemma elements_without_members_get_defaults_witness :
  Example.scanBooks (Example.answering Example.titles) Example.image
  = Ok (VArr [default_record; default_record]).
Proof.
  apply (elements_without_members_get_defaults Example.apiKey Example.baseURL
           Example.Buffer_from_base64 Example.Buffer_toString_base64
           Example.sharp_resize_jpeg (Example.answering Example.titles)
           Json.parse Example.image Example.titles
           ("[" ++ Example.lit "Dune" ++ ", " ++ Example.lit "Emma" ++ "]")
           [VStr "Dune"; VStr "Emma"]).
  - outputs.
  - reflexivity.
  - reflexivity.
  - repeat constructor.
Defined.

Lemma object_is_unexpected_format_witness :
  Example.scanBooks (Example.answering Example.empty_sentinel) Example.image
  = Err unexpected_format /\
  Example.extractBookTitles (Example.answering Example.empty_sentinel) Example.image
  = Err unexpected_format.
Proof.
  destruct (object_is_unexpected_format Example.apiKey Example.baseURL
              Example.Buffer_from_base64 Example.Buffer_toString_base64
              Example.sharp_resize_jpeg (Example.answering Example.empty_sentinel)
              Json.parse Example.image Example.empty_sentinel Example.empty_sentinel
              [("error", VStr EmptyString)] eq_refl eq_refl)
    as (Hscan & Htitles).
  split; [apply Hscan; [outputs | reflexivity] | apply Htitles; outputs].
Defined.

Lemma missing_content_is_a_type_error_witness :
  Example.scanBooks Example.silent Example.image = Err (cannot_read VNull "match") /\
  Example.extractBookTitles Example.choiceless Example.image
  = Err (cannot_read VUndefined "message").
Proof.
  destruct (missing_content_is_a_type_error Example.apiKey Example.baseURL
              Example.Buffer_from_base64 Example.Buffer_toString_base64
              Example.sharp_resize_jpeg Example.silent Json.parse Example.image
              Example.without_content) as (Hnull & _).
  destruct (missing_content_is_a_type_error Example.apiKey Example.baseURL
              Example.Buffer_from_base64 Example.Buffer_toString_base64
              Example.sharp_resize_jpeg Example.choiceless Json.parse Example.image
              Example.without_choices) as (_ & Hnone).
  split.
  - apply (Hnull eq_refl). settles.
  - apply (Hnone _ eq_refl eq_refl). settles.
Defined.

Lemma request_carries_best_available_image_witness :
  exists sent,
    openaiService.compressImage Example.Buffer_from_base64
      Example.Buffer_toString_base64 Example.sharp_resize_jpeg Example.image = Ok sent /\
    sent = Example.image /\
    Example.scanBooks (Example.answering Example.titles) Example.image =
    try_catch
      (response <- await (Example.answering Example.titles Example.baseURL
                            (openaiService.scanBooks_request sent)
                            (openaiService.scanBooks_config Example.apiKey)) ;;
       content <- message_content_of response ;;
       openaiService.extract_books Json.parse content)
      translate_timeout.
Proof.
  destruct (request_carries_best_available_image Example.apiKey Example.baseURL
              Example.Buffer_from_base64 Example.Buffer_toString_base64
              Example.sharp_resize_jpeg (Example.answering Example.titles) Json.parse
              Example.image)
    as (sent & Hsent & _ & Hfails & Hscan & _).
  exists sent. split; [exact Hsent |].
  split; [exact (Hfails _ eq_refl) | exact Hscan].
Defined.

Lemma chat_operations_are_transparent_witness :
  openaiService.sendMessage Example.apiKey Example.baseURL Example.timing_out
    "Hello" EmptyString
  = Err (AxiosError (Some "ERR_NETWORK") "Network Error" None) /\
  openaiService.sendMessage Example.apiKey Example.baseURL
    (fun _ _ _ => Reject (Some "ECONNABORTED") "timeout of 1000ms exceeded" None)
    "Hello" EmptyString
  = Err (AxiosError (Some "ECONNABORTED") "timeout of 1000ms exceeded" None).
Proof.
  split.
  - destruct (chat_operations_are_transparent Example.apiKey Example.baseURL
                Example.Buffer_from_base64 Example.Buffer_toString_base64
                Example.sharp_resize_jpeg Example.timing_out
                "Hello" EmptyString Example.image "What is this?") as (-> & _).
    reflexivity.
  - destruct (chat_operations_are_transparent Example.apiKey Example.baseURL
                Example.Buffer_from_base64 Example.Buffer_toString_base64
                Example.sharp_resize_jpeg
                (fun _ _ _ => Reject (Some "ECONNABORTED") "timeout of 1000ms exceeded" None)
                "Hello" EmptyString Example.image "What is this?") as (_ & _ & Htimeout).
    exact (proj1 (Htimeout _ _ eq_refl)).
Defined.

Lemma lookup_settles_with_one_of_three_records_witness :
  googleBooksService.searchBookByTitle_any Example.mixed Z_to_string 1 (VNum 1984)
  = Ok (no_match_record (VNum 1984)) /\
  (exists record,
      googleBooksService.searchBookByTitle_any Example.mixed Z_to_string 2 VNull
      = Ok record /\
      (found_record_of VNull record \/
       record = no_match_record VNull \/
       exists message, record = failed_record VNull message)) /\
  googleBooksService.searchBookByTitle_any Example.mixed Z_to_string 0
    (VArr [VStr "Emma"; VObj [("toString", VNum 1)]])
  = Err cannot_convert.
Proof.
  destruct (lookup_settles_with_one_of_three_records Example.mixed Z_to_string 2 VNull)
    as (_ & Hprintable & _).
  destruct (lookup_settles_with_one_of_three_records Example.mixed Z_to_string 0
              (VArr [VStr "Emma"; VObj [("toString", VNum 1)]]))
    as (_ & _ & Hunprintable).
  split; [reflexivity |].
  split; [exact (Hprintable eq_refl) | exact (Hunprintable eq_refl)].
Defined.

Lemma found_needs_a_first_item_witness :
  exists response data totalItems items book,
    Example.finding Example.dune 0 googleBooksService.volumes_url
      (googleBooksService.search_params "Dune") = Resolve response /\
    get response "data" = Ok data /\
    get data "totalItems" = Ok totalItems /\
    is_zero totalItems = false /\
    get data "items" = Ok items /\
    get_first items = Ok book /\
    ~ nullish book.
Proof.
  apply (found_needs_a_first_item (Example.finding Example.dune) 0 "Dune"
           (VObj [("title", VStr "Dune"); ("found", VBool true);
                  ("id", VStr "zyTCAlFPjgYC");
                  ("authors", VArr [VStr "Frank Herbert"]);
                  ("publishedDate", VUndefined);
                  ("description", VStr "A desert planet.");
                  ("pageCount", VUndefined); ("categories", VArr []);
                  ("averageRating", VUndefined); ("imageLinks", VObj []);
                  ("previewLink", VUndefined); ("isbn10", VStr "0441013593");
                  ("isbn13", VStr "9780441013593")])).
  - reflexivity.
  - reflexivity.
Defined.

Lemma malformed_volume_is_reported_as_failed_witness :
  googleBooksService.searchBookByTitle
    (Example.finding Example.with_text_identifiers) 0 "Emma"
  = Ok (failed_record (VStr "Emma") "industryIdentifiers.find is not a function") /\
  googleBooksService.searchBookByTitle
    (Example.finding Example.with_numeric_description) 0 "Emma"
  = Ok (failed_record (VStr "Emma") "volumeInfo.description.substring is not a function") /\
  exists record,
    googleBooksService.searchBookByTitle
      (Example.finding Example.with_falsy_members) 0 "Emma" = Ok record /\
    found record /\
    get record "description" = Ok VNull /\
    get record "isbn10" = Ok VUndefined /\
    get record "isbn13" = Ok VUndefined.
Proof.
  split; [| split].
  - destruct (malformed_volume_is_reported_as_failed
                (Example.finding Example.with_text_identifiers) 0 "Emma"
                _ _ _ (VObj Example.with_text_identifiers)
                eq_refl eq_refl eq_refl eq_refl eq_refl) as (Hids & _).
    apply (Hids (VStr "ISBN 9780141439587")); reflexivity.
  - destruct (malformed_volume_is_reported_as_failed
                (Example.finding Example.with_numeric_description) 0 "Emma"
                _ _ _ (VObj Example.with_numeric_description)
                eq_refl eq_refl eq_refl eq_refl eq_refl) as (_ & Hdescription & _).
    apply (Hdescription VUndefined VUndefined VUndefined (VNum 1815)); try reflexivity.
    discriminate.
  - destruct (malformed_volume_is_reported_as_failed
                (Example.finding Example.with_falsy_members) 0 "Emma"
                _ _ _ (VObj Example.with_falsy_members)
                eq_refl eq_refl eq_refl eq_refl eq_refl) as (_ & _ & Hfalsy).
    apply (Hfalsy (VStr EmptyString) (VNum 0)); reflexivity.
Defined.

Lemma missing_image_answers_400_witness :
  Example.scan_books (Example.answering Example.one_title) Example.with_empty_image
  = Ok {| status := VNum 400;
          body := json (VObj [("error",
                               VStr "Image data is required. Either upload a file or provide base64 image data.");
                              ("timeTaken", VStr "1234ms")]) |}.
Proof.
  destruct (missing_image_answers_400 Example.apiKey Example.baseURL
              Example.Buffer_from_base64 Example.Buffer_toString_base64
              Example.sharp_resize_jpeg (Example.answering Example.one_title)
              Json.parse Example.mixed Z_to_string Example.fs_readFileSync
              Example.fs_unlinkSync
              Example.startTime Example.endTime Example.axios_error_status
              Example.with_empty_image eq_refl (or_intror eq_refl))
    as (Hscan & _ & Hanswer).
  unfold Example.scan_books. rewrite Hscan, Hanswer. reflexivity.
Defined.

Lemma timeout_answers_408_witness :
  Example.scan_books Example.timing_out Example.with_image
  = Ok {| status := VNum 408;
          body := json (VObj [("error",
                               VStr "The API request timed out. Please try again.");
                              ("timeTaken", VStr "1234ms")]) |}.
Proof.
  destruct (timeout_answers_408 Example.apiKey Example.baseURL
              Example.Buffer_from_base64 Example.Buffer_toString_base64
              Example.sharp_resize_jpeg Example.timing_out
              Json.parse Example.mixed Z_to_string Example.fs_readFileSync
              Example.fs_unlinkSync
              Example.startTime Example.endTime Example.axios_error_status
              Example.with_image Example.image "timeout exceeded" None
              eq_refl eq_refl) as (Hscan & _).
  - discriminate.
  - unfold Example.scan_books. rewrite Hscan; [reflexivity | settles].
Defined.

Lemma sentinel_answers_404_witness :
  Example.scan_books (Example.answering Example.sentinel) Example.with_image
  = Ok {| status := VNum 404;
          body := json (VObj [("error", VStr "No books detected");
                              ("timeTaken", VStr "1234ms")]) |} /\
  Example.scan_books (Example.answering Example.sentinel) Example.with_upload
  = Ok {| status := VNum 404;
          body := json (VObj [("error", VStr "No books detected");
                              ("timeTaken", VStr "1234ms")]) |}.
Proof.
  unfold Example.scan_books. split.
  - rewrite (sentinel_answers_404 Example.apiKey Example.baseURL
               Example.Buffer_from_base64 Example.Buffer_toString_base64
               Example.sharp_resize_jpeg (Example.answering Example.sentinel)
               Json.parse Example.fs_readFileSync Example.fs_unlinkSync
               Example.startTime Example.endTime Example.axios_error_status
               Example.with_image Example.image Example.sentinel
               ("{" ++ Example.member "error" "No books detected" ++ "}")
               [("error", VStr "No books detected")]).
    + reflexivity.
    + reflexivity.
    + outputs.
    + reflexivity.
    + reflexivity.
    + reflexivity.
  - rewrite (sentinel_answers_404 Example.apiKey Example.baseURL
               Example.Buffer_from_base64 Example.Buffer_toString_base64
               Example.sharp_resize_jpeg (Example.answering Example.sentinel)
               Json.parse Example.fs_readFileSync Example.fs_unlinkSync
               Example.startTime Example.endTime Example.axios_error_status
               Example.with_upload "hello" Example.sentinel
               ("{" ++ Example.member "error" "No books detected" ++ "}")
               [("error", VStr "No books detected")]).
    + reflexivity.
    + reflexivity.
    + outputs.
    + reflexivity.
    + reflexivity.
    + reflexivity.
Defined.

Lemma failures_answer_500_without_detail_witness :
  Example.scan_books (Example.answering Example.no_books_prose) Example.with_image
  = Ok {| status := VNum 500;
          body := json (VObj [("error", VStr "Error processing image");
                              ("timeTaken", VStr "1234ms")]) |} /\
  Example.scan_books (Example.answering Example.no_books_prose) Example.with_upload
  = Ok {| status := VNum 500;
          body := json (VObj [("error", VStr "Error processing image");
                              ("timeTaken", VStr "1234ms")]) |}.
Proof.
  split.
  - destruct (failures_answer_500_without_detail Example.apiKey Example.baseURL
                Example.Buffer_from_base64 Example.Buffer_toString_base64
                Example.sharp_resize_jpeg (Example.answering Example.no_books_prose)
                Json.parse Example.mixed Z_to_string Example.fs_readFileSync
                Example.fs_unlinkSync
                Example.startTime Example.endTime Example.axios_error_status
                Example.with_image Example.image eq_refl)
      as (_ & _ & Hnone & _).
    unfold Example.scan_books.
    rewrite (Hnone Example.no_books_prose); [reflexivity | outputs | reflexivity].
  - destruct (failures_answer_500_without_detail Example.apiKey Example.baseURL
                Example.Buffer_from_base64 Example.Buffer_toString_base64
                Example.sharp_resize_jpeg (Example.answering Example.no_books_prose)
                Json.parse Example.mixed Z_to_string Example.fs_readFileSync
                Example.fs_unlinkSync
                Example.startTime Example.endTime Example.axios_error_status
                Example.with_upload "hello" eq_refl)
      as (_ & _ & Hnone & _).
    unfold Example.scan_books.
    rewrite (Hnone Example.no_books_prose); [reflexivity | outputs | reflexivity].
Defined.

Lemma rejection_is_relayed_witness :
  Example.scan_books Example.unreachable Example.with_image
  = Ok {| status := VNum 500;
          body := json (VObj [("error", VStr "Error processing image");
                              ("timeTaken", VStr "1234ms")]) |} /\
  Example.scan_books Example.refusing_with_reason Example.with_upload
  = Ok {| status := VNum 401;
          body := json (VObj [("error", VStr "Request failed with status code 401");
                              ("timeTaken", VStr "1234ms")]) |} /\
  server.scan_books Example.apiKey Example.baseURL Example.Buffer_from_base64
    Example.Buffer_toString_base64 Example.sharp_resize_jpeg
    Example.refusing_with_reason Json.parse Example.fs_readFileSync
    Example.fs_unlinkSync Example.startTime Example.endTime Example.no_error_status
    Example.with_image
  = Ok {| status := VNum 401;
          body := json (VObj [("error", VStr "Incorrect API key provided");
                              ("timeTaken", VStr "1234ms")]) |}.
Proof.
  split; [| split].
  - destruct (rejection_is_relayed Example.apiKey Example.baseURL
                Example.Buffer_from_base64 Example.Buffer_toString_base64
                Example.sharp_resize_jpeg Example.unreachable
                Json.parse Example.fs_readFileSync Example.fs_unlinkSync
                Example.startTime Example.endTime Example.axios_error_status
                Example.with_image Example.image
                (Some "ENOTFOUND") "getaddrinfo ENOTFOUND api.openai.com" None
                eq_refl) as (Hnone & _).
    + discriminate.
    + settles.
    + unfold Example.scan_books. rewrite (Hnone eq_refl). reflexivity.
  - destruct (rejection_is_relayed Example.apiKey Example.baseURL
                Example.Buffer_from_base64 Example.Buffer_toString_base64
                Example.sharp_resize_jpeg Example.refusing_with_reason
                Json.parse Example.fs_readFileSync Example.fs_unlinkSync
                Example.startTime Example.endTime Example.axios_error_status
                Example.with_upload "hello"
                (Some "ERR_BAD_REQUEST") "Request failed with status code 401"
                (Some Example.unauthorized)
                eq_refl) as (_ & Hstatus & _).
    + discriminate.
    + settles.
    + unfold Example.scan_books.
      rewrite (Hstatus Example.unauthorized eq_refl eq_refl). reflexivity.
  - destruct (rejection_is_relayed Example.apiKey Example.baseURL
                Example.Buffer_from_base64 Example.Buffer_toString_base64
                Example.sharp_resize_jpeg Example.refusing_with_reason
                Json.parse Example.fs_readFileSync Example.fs_unlinkSync
                Example.startTime Example.endTime Example.no_error_status
                Example.with_image Example.image
                (Some "ERR_BAD_REQUEST") "Request failed with status code 401"
                (Some Example.unauthorized)
                eq_refl) as (_ & _ & Hbody).
    + discriminate.
    + settles.
    + rewrite (Hbody Example.unauthorized (VNum 401) (VStr "Incorrect API key provided")
                 eq_refl eq_refl eq_refl eq_refl).
      reflexivity.
Defined.

Lemma extract_book_titles_answers_one_record_per_element_witness :
  (exists records,
      Example.extract_book_titles (Example.answering Example.mixed_titles) Example.mixed
        Example.with_image
      = Ok {| status := VNum 200;
              body := json (VObj [("books", VArr records);
                                  ("timeTaken", VStr "1234ms")]) |} /\
      List.length records = 4 /\
      Forall2 lookup_record
        [VStr "Dune"; VNum 1984; VNull; VArr [VStr "Emma"; VNum 2]] records /\
      Forall2 (fun title record => get record "title" = Ok title)
        [VStr "Dune"; VNum 1984; VNull; VArr [VStr "Emma"; VNum 2]] records) /\
  Example.extract_book_titles (Example.answering Example.unprintable_titles)
    Example.mixed Example.with_upload
  = Ok {| status := VNum 500;
          body := json (VObj [("error", VStr "Error processing image");
                              ("timeTaken", VStr "1234ms")]) |}.
Proof.
  split.
  - destruct (extract_book_titles_answers_one_record_per_element
                Example.apiKey Example.baseURL
                Example.Buffer_from_base64 Example.Buffer_toString_base64
                Example.sharp_resize_jpeg (Example.answering Example.mixed_titles)
                Json.parse Example.mixed Z_to_string Example.fs_readFileSync
                Example.fs_unlinkSync
                Example.startTime Example.endTime Example.axios_error_status
                Example.with_image Example.image Example.mixed_titles Example.mixed_titles
                [VStr "Dune"; VNum 1984; VNull; VArr [VStr "Emma"; VNum 2]])
      as (Hprintable & _).
    + reflexivity.
    + outputs.
    + reflexivity.
    + reflexivity.
    + exact (Hprintable eq_refl).
  - destruct (extract_book_titles_answers_one_record_per_element
                Example.apiKey Example.baseURL
                Example.Buffer_from_base64 Example.Buffer_toString_base64
                Example.sharp_resize_jpeg (Example.answering Example.unprintable_titles)
                Json.parse Example.mixed Z_to_string Example.fs_readFileSync
                Example.fs_unlinkSync
                Example.startTime Example.endTime Example.axios_error_status
                Example.with_upload "hello" Example.unprintable_titles
                Example.unprintable_titles
                [VStr "Dune"; VObj [("toString", VNum 1)]])
      as (_ & Hunprintable).
    + reflexivity.
    + outputs.
    + reflexivity.
    + reflexivity.
    + unfold Example.extract_book_titles. rewrite (Hunprintable eq_refl). reflexivity.
Defined.

Lemma vision_handlers_always_answer_witness :
  (exists code props,
      Example.scan_books Example.refusing Example.with_image
      = Ok (server.res_json Example.startTime Example.endTime code (VObj props)) /\
      lookup "timeTaken"
        (assign "timeTaken" (timeTaken_text Example.startTime Example.endTime) props)
      = timeTaken_text Example.startTime Example.endTime) /\
  (exists code props,
      Example.extract_book_titles Example.refusing Example.mixed Example.with_image
      = Ok (server.res_json Example.startTime Example.endTime code (VObj props)) /\
      lookup "timeTaken"
        (assign "timeTaken" (timeTaken_text Example.startTime Example.endTime) props)
      = timeTaken_text Example.startTime Example.endTime).
Proof.
  exact (vision_handlers_always_answer Example.apiKey Example.baseURL
           Example.Buffer_from_base64 Example.Buffer_toString_base64
           Example.sharp_resize_jpeg Example.refusing
           Json.parse Example.mixed Z_to_string Example.fs_readFileSync
           Example.fs_unlinkSync
           Example.startTime Example.endTime Example.axios_error_status
           Example.with_image (Some Example.image) eq_refl
           Json_parse_throws_syntax_error).
Defined.

Lemma chat_handlers_answer_200_or_500_witness :
  Example.send_message Example.timing_out {| message := "Hello"; systemPrompt := None |}
  = Ok (server.res_send (VNum 500) "Error processing request").
Proof.
  destruct (chat_handlers_answer_200_or_500 Example.apiKey Example.baseURL
              Example.Buffer_from_base64 Example.Buffer_toString_base64
              Example.sharp_resize_jpeg Example.timing_out
              Example.startTime Example.endTime
              {| message := "Hello"; systemPrompt := None |}
              {| analyze_image := Example.image; prompt := "What is this?" |})
    as (_ & _ & Hfails).
  exact (Hfails (AxiosError (Some "ERR_NETWORK") "Network Error" None) eq_refl).
Defined.

Lemma unreadable_upload_witness :
  Example.scan_books (Example.answering Example.one_title) Example.with_missing_upload
  = Err (ErrorObject Error "ENOENT: no such file or directory, open 'uploads/missing'") /\
  Example.convert_image Example.with_missing_upload
  = Ok {| status := VNum 500;
          body := json (VObj [("error", VStr "Failed to convert image");
                              ("timeTaken", VStr "1234ms")]) |}.
Proof.
  destruct (unreadable_upload Example.apiKey Example.baseURL
              Example.Buffer_from_base64 Example.Buffer_toString_base64
              Example.sharp_resize_jpeg (Example.answering Example.one_title)
              Json.parse Example.mixed Z_to_string Example.fs_readFileSync
              Example.fs_unlinkSync
              Example.startTime Example.endTime Example.axios_error_status
              Example.savings_toFixed Example.kilobytes_toFixed
              Example.with_missing_upload "uploads/missing"
              (ErrorObject Error "ENOENT: no such file or directory, open 'uploads/missing'")
              eq_refl eq_refl) as (Hscan & _ & Hconvert & _).
  split.
  - unfold Example.scan_books. exact Hscan.
  - unfold Example.convert_image. rewrite Hconvert. reflexivity.
Defined.

Lemma compress_image_reports_sizes_witness :
  exists compressedImage savingsPercent message,
    openaiService.compressImage Example.Buffer_from_base64
      Example.Buffer_toString_base64 Example.sharp_resize_jpeg "hello"
    = Ok compressedImage /\
    Example.compress_image Example.with_upload =
    Ok {| status := VNum 200;
          body := json (VObj [("originalSize", VNum 5);
                              ("compressedSize",
                               VNum (Z.of_nat (String.length compressedImage)));
                              ("savingsPercent", VStr savingsPercent);
                              ("message", VStr message);
                              ("timeTaken",
                               timeTaken_text Example.startTime Example.endTime)]) |} /\
    (forall e,
        openaiService.compress_pipeline Example.Buffer_from_base64
          Example.Buffer_toString_base64 Example.sharp_resize_jpeg "hello" = Err e ->
        compressedImage = "hello").
Proof.
  exact (compress_image_reports_sizes
           Example.Buffer_from_base64 Example.Buffer_toString_base64
           Example.sharp_resize_jpeg Example.fs_readFileSync Example.fs_unlinkSync
           Example.startTime Example.endTime
           Example.savings_toFixed Example.kilobytes_toFixed
           Example.with_upload "uploads/3f2a" (list_byte_of_string "hello") "hello"
           eq_refl eq_refl eq_refl eq_refl).
Defined.

Lemma timeTaken_is_added_witness :
  server.with_timeTaken Example.startTime Example.endTime
    (VObj [("books", VArr [])])
  = VObj [("books", VArr []); ("timeTaken", VStr "1234ms")] /\
  server.with_timeTaken Example.startTime Example.endTime (VStr "Error processing request")
  = VStr "Error processing request".
Proof.
  destruct (timeTaken_is_added Example.startTime Example.endTime [("books", VArr [])])
    as ((props' & -> & _ & _ & Hlast) & Hother).
  split.
  - rewrite Hlast; [reflexivity |]. intros [H | []]. discriminate H.
  - apply Hother. discriminate.
Defined.
